(** * Wellbeing scoring core of the health app

    A shallow embedding of the scoring engine ([lib/wellbeingScoring.ts]),
    the event aggregator ([lib/wellbeingAggregator.ts]), the score store
    ([context/WellbeingContext.tsx]), the periodic collection hook
    ([hooks/useWellbeingDataCollection.ts]) and the status screen's
    classifiers, followed by the properties stated about them.

    JavaScript numbers are modelled by exact rationals ([Q], compared with
    [==]); [Date] values by their [getTime()] value, an integer number of
    milliseconds since the epoch; the time zone of the host by its offset
    function, which may change with the instant. *)

From Stdlib Require Import ZArith QArith Qminmax Qabs Qround Lqa Lia.
From Stdlib Require Import Bool List String Ascii Sorted Permutation.
From Stdlib Require Import OrderedTypeEx.
Import ListNotations.

Open Scope Q_scope.

(** ** JavaScript primitives used by the sources *)

Module JS.

(** [a >= b], [a <= b], [a > b] and [a < b] on numbers. *)
Definition geb (a b : Q) : bool := Qle_bool b a.
Definition leb (a b : Q) : bool := Qle_bool a b.
Definition gtb (a b : Q) : bool := negb (Qle_bool a b).
Definition ltb (a b : Q) : bool := negb (Qle_bool b a).

Definition Math_max (a b : Q) : Q := Qmax a b.
Definition Math_min (a b : Q) : Q := Qmin a b.
Definition Math_abs (a : Q) : Q := Qabs a.

(** [Number(x.toFixed(1))]: the multiple of 1/10 nearest to [x], the larger
    one on a tie; a negative [x] is rounded through its absolute value. *)
Definition toFixed1_nonneg (x : Q) : Q := Qmake (Qfloor (x * 10 + (1 # 2))) 10.
Definition toFixed1 (x : Q) : Q :=
  if ltb x 0 then - toFixed1_nonneg (- x) else toFixed1_nonneg x.

(** [xs.reduce((a, b) => a + b, 0)]. *)
Definition sum (xs : list Q) : Q := fold_left Qplus xs 0.

(** [xs.slice(-n)]: the last [n] elements, all of them when there are fewer. *)
Definition slice_last {A : Type} (n : nat) (xs : list A) : list A :=
  skipn (List.length xs - n) xs.

(** [xs.length] as a number. *)
Definition len {A : Type} (xs : list A) : Q := inject_Z (Z.of_nat (List.length xs)).

(** [x || d] for a number or [null]: [d] when [x] is [null] or 0. *)
Definition orElse (x : option Q) (d : Q) : Q :=
  match x with
  | Some v => if Qeq_bool v 0 then d else v
  | None => d
  end.

(** [Math.max(...xs)]; [None] stands for [-Infinity], the result on an
    empty array. *)
Definition Math_max_spread (xs : list Q) : option Q :=
  match xs with
  | [] => None
  | x :: rest => Some (fold_left Math_max rest x)
  end.

End JS.

Notation "a >=? b" := (JS.geb a b) (at level 70, no associativity) : Q_scope.
Notation "a <=? b" := (JS.leb a b) (at level 70, no associativity) : Q_scope.
Notation "a >? b" := (JS.gtb a b) (at level 70, no associativity) : Q_scope.
Notation "a <? b" := (JS.ltb a b) (at level 70, no associativity) : Q_scope.

(** ** Dates *)

Module Date.

Open Scope Z_scope.

Definition msPerHour : Z := 3600000.
Definition msPerDay : Z := 86400000.

(** The proleptic Gregorian date of a day number counted from 1970-01-01,
    as [Date] computes it. *)
Definition civil (day : Z) : Z * Z * Z :=
  let z := day + 719468 in
  let era := z / 146097 in
  let doe := z - era * 146097 in
  let yoe := (doe - doe / 1460 + doe / 36524 - doe / 146096) / 365 in
  let y := yoe + era * 400 in
  let doy := doe - (365 * yoe + yoe / 4 - yoe / 100) in
  let mp := (5 * doy + 2) / 153 in
  let d := doy - (153 * mp + 2) / 5 + 1 in
  let m := if mp <? 10 then mp + 3 else mp - 9 in
  (if m <=? 2 then y + 1 else y, m, d).

Definition digit (n : Z) : ascii := ascii_of_nat (48 + Z.to_nat (n mod 10)).

Definition pad2 (n : Z) : string :=
  String (digit (n / 10)) (String (digit n) EmptyString).

Definition pad4 (n : Z) : string :=
  String (digit (n / 1000)) (String (digit (n / 100)) (pad2 n)).

(** [d.toISOString().split('T')[0]]: the UTC calendar date, [YYYY-MM-DD]
    (years 0000 to 9999). *)
Definition toISODate (t : Z) : string :=
  let '(y, m, d) := civil (t / msPerDay) in
  (pad4 y ++ "-" ++ pad2 m ++ "-" ++ pad2 d)%string.

(** The time zone of the host, as ECMAScript's [LocalTZA(t, isUTC)]: the
    offset of local time from UTC in milliseconds. With [isUTC] it is the
    offset in force at the instant [t]; without it, the offset by which the
    local time value [t] is read, which for a local time repeated or
    skipped by a clock change is the offset before the change. *)
Record TimeZone : Type := mkTimeZone { LocalTZA : Z -> bool -> Z }.

(** A zone without clock changes, [offset] milliseconds ahead of UTC. *)
Definition fixed (offset : Z) : TimeZone :=
  {| LocalTZA := fun _ _ => offset |}.

Section Local.
Variable tz : TimeZone.

(** ECMAScript's [LocalTime(t)] and [UTC(t)]. *)
Definition LocalTime (t : Z) : Z := t + LocalTZA tz t true.
Definition UTC (t : Z) : Z := t - LocalTZA tz t false.

(** The local day number and the local time within the day. *)
Definition Day (t : Z) : Z := LocalTime t / msPerDay.
Definition TimeWithinDay (t : Z) : Z := LocalTime t mod msPerDay.

Definition getHours (t : Z) : Z := TimeWithinDay t / msPerHour.

(** [d.setHours(0, 0, 0, 0)] and [d.setHours(23, 59, 59, 999)]: the local
    day of [d] with the new time of day, read back as an instant. *)
Definition startOfDay (t : Z) : Z := UTC (Day t * msPerDay).
Definition endOfDay (t : Z) : Z := UTC (Day t * msPerDay + (msPerDay - 1)).

Definition getFullYear (t : Z) : Z := fst (fst (civil (Day t))).
(** [getMonth] counts from 0. *)
Definition getMonth (t : Z) : Z := snd (fst (civil (Day t))) - 1.
Definition getDate (t : Z) : Z := snd (civil (Day t)).

(** [d.setDate(d.getDate() - n)]: the local day [n] days earlier with the
    same local time of day, read back as an instant. *)
Definition minusDays (t : Z) (n : Z) : Z := UTC (LocalTime t - n * msPerDay).
End Local.

End Date.

(** [xs.sort(cmp)]: a stable sort; [cmp a b = Gt] stands for a positive
    comparator result ([a] sorts after [b]). *)
Module ArraySort.
Section Sort.
Context {A : Type} (cmp : A -> A -> comparison).

Fixpoint insert (x : A) (xs : list A) : list A :=
  match xs with
  | [] => [x]
  | y :: ys =>
      match cmp x y with
      | Gt => y :: insert x ys
      | _ => x :: xs
      end
  end.

Definition sort (xs : list A) : list A := fold_right insert [] xs.
End Sort.
End ArraySort.

(** ** lib/wellbeingScoring.ts *)

Module DailyWellbeingScores.
Record t : Type := mk
  { date : string;
    sleep : Q;
    physicalActivity : Q;
    socialInteraction : Q }.
End DailyWellbeingScores.

Module WellbeingMetrics.
Record t : Type := mk
  { sleepHours : Q;
    physicalActivityMinutes : Q;
    socialInteractionMinutes : Q }.
End WellbeingMetrics.

Module WellbeingScore.
Record t : Type := mk
  { sleep : Q;
    physicalActivity : Q;
    socialInteraction : Q;
    overall : Q;
    lastUpdated : Z }.
End WellbeingScore.

Inductive ActivityType : Type :=
  stationary | walking | running | cycling | sleeping | unknown.

Inductive ConversationState : Type := silent | talking | conversation.

Definition ActivityType_eqb (a b : ActivityType) : bool :=
  match a, b with
  | stationary, stationary | walking, walking | running, running
  | cycling, cycling | sleeping, sleeping | unknown, unknown => true
  | _, _ => false
  end.

Definition ConversationState_eqb (a b : ConversationState) : bool :=
  match a, b with
  | silent, silent | talking, talking | conversation, conversation => true
  | _, _ => false
  end.

Module ActivityData.
Record t : Type := mk
  { timestamp : Z;
    activity : ActivityType;
    confidence : Q }.
End ActivityData.

Module ConversationData.
Record t : Type := mk
  { timestamp : Z;
    state : ConversationState;
    duration : Q }.
End ConversationData.

Module Scoring.

Import JS.

Definition calculateSleepScore (sleepHours : Q) : Q :=
  if sleepHours >=? 8 then 100
  else if sleepHours >=? 7.5 then 90 + ((sleepHours - 7.5) / 0.5) * 10
  else if sleepHours >=? 7 then 80 + ((sleepHours - 7) / 0.5) * 10
  else if sleepHours >=? 6 then 60 + ((sleepHours - 6) / 1) * 20
  else if sleepHours >=? 5 then 30 + ((sleepHours - 5) / 1) * 30
  else if sleepHours >=? 4 then 10 + ((sleepHours - 4) / 1) * 20
  else Math_max 0 ((sleepHours / 4) * 10).

Definition calculatePhysicalActivityScore (activityMinutes : Q) : Q :=
  if activityMinutes >=? 30 then 100
  else if activityMinutes >=? 20 then 80 + ((activityMinutes - 20) / 10) * 20
  else if activityMinutes >=? 15 then 65 + ((activityMinutes - 15) / 5) * 15
  else if activityMinutes >=? 10 then 50 + ((activityMinutes - 10) / 5) * 15
  else if activityMinutes >=? 5 then 25 + ((activityMinutes - 5) / 5) * 25
  else Math_max 0 ((activityMinutes / 5) * 25).

Definition calculateSocialInteractionScore (interactionMinutes : Q) : Q :=
  if interactionMinutes >=? 60 then 100
  else if interactionMinutes >=? 45 then 85 + ((interactionMinutes - 45) / 15) * 15
  else if interactionMinutes >=? 30 then 70 + ((interactionMinutes - 30) / 15) * 15
  else if interactionMinutes >=? 20 then 55 + ((interactionMinutes - 20) / 10) * 15
  else if interactionMinutes >=? 10 then 40 + ((interactionMinutes - 10) / 10) * 15
  else if interactionMinutes >=? 5 then 20 + ((interactionMinutes - 5) / 5) * 20
  else Math_max 0 ((interactionMinutes / 5) * 20).

(** [now] is the value of [new Date()] at the call. *)
Definition calculateDailyScores (now : Z) (metrics : WellbeingMetrics.t)
  : DailyWellbeingScores.t :=
  let today := Date.toISODate now in
  {| DailyWellbeingScores.date := today;
     DailyWellbeingScores.sleep :=
       calculateSleepScore (WellbeingMetrics.sleepHours metrics);
     DailyWellbeingScores.physicalActivity :=
       calculatePhysicalActivityScore
         (WellbeingMetrics.physicalActivityMinutes metrics);
     DailyWellbeingScores.socialInteraction :=
       calculateSocialInteractionScore
         (WellbeingMetrics.socialInteractionMinutes metrics) |}.

(** The default value of the parameter [alpha]. *)
Definition defaultAlpha : Q := 0.3.

Definition calculateExponentiallyWeightedScore
  (historicalScore newDailyScore alpha : Q) : Q :=
  alpha * newDailyScore + (1 - alpha) * historicalScore.

(** The argument object is passed by its three fields. *)
Definition calculateOverallScore (sleep physicalActivity socialInteraction : Q)
  : Q :=
  (sleep + physicalActivity + socialInteraction) / 3.

Section Local.
(** The time zone of the host. *)
Variable tz : Date.TimeZone.

Definition inDay (date : Z) (timestamp : Z) : bool :=
  ((timestamp >=? Date.startOfDay tz date)
   && (timestamp <=? Date.endOfDay tz date))%Z.

(** Seconds between two dates. *)
Definition secondsBetween (next current : Z) : Q :=
  inject_Z (next - current) / 1000.

(** The loop over [i < dayActivities.length - 1], with [current] and
    [next] the entries at [i] and [i + 1]. *)
Fixpoint sleepLoop (dayActivities : list ActivityData.t) (sleepSeconds : Q)
  : Q :=
  let sleepThreshold := 0.7 in
  match dayActivities with
  | current :: (next :: _) as rest =>
      let sleepSeconds :=
        if ActivityType_eqb (ActivityData.activity current) sleeping
           && (ActivityData.confidence current >=? sleepThreshold * 100)
        then
          let hour := Date.getHours tz (ActivityData.timestamp current) in
          let isNightTime := ((hour >=? 21) || (hour <=? 8))%Z in
          if isNightTime then
            let duration :=
              secondsBetween (ActivityData.timestamp next)
                             (ActivityData.timestamp current) in
            sleepSeconds + duration
          else sleepSeconds
        else sleepSeconds in
      sleepLoop rest sleepSeconds
  | _ => sleepSeconds
  end.

Definition calculateSleepHoursFromActivities
  (activities : list ActivityData.t) (date : Z) : Q :=
  let dayActivities :=
    filter (fun a => inDay date (ActivityData.timestamp a)) activities in
  sleepLoop dayActivities 0 / 3600.

Definition isActivityType (a : ActivityType) : bool :=
  existsb (ActivityType_eqb a) [walking; running; cycling].

Fixpoint activityLoop (dayActivities : list ActivityData.t)
  (activitySeconds : Q) : Q :=
  let confidenceThreshold := 0.6 in
  match dayActivities with
  | current :: (next :: _) as rest =>
      let activitySeconds :=
        if isActivityType (ActivityData.activity current)
           && (ActivityData.confidence current >=? confidenceThreshold * 100)
        then
          let duration :=
            secondsBetween (ActivityData.timestamp next)
                           (ActivityData.timestamp current) in
          let weightedDuration :=
            if ActivityType_eqb (ActivityData.activity current) running
            then duration * 1.5
            else if ActivityType_eqb (ActivityData.activity current) cycling
            then duration * 1.3
            else duration in
          activitySeconds + weightedDuration
        else activitySeconds in
      activityLoop rest activitySeconds
  | _ => activitySeconds
  end.

Definition calculatePhysicalActivityMinutesFromActivities
  (activities : list ActivityData.t) (date : Z) : Q :=
  let dayActivities :=
    filter (fun a => inDay date (ActivityData.timestamp a)) activities in
  activityLoop dayActivities 0 / 60.

Definition calculateSocialInteractionMinutesFromConversations
  (conversations : list ConversationData.t) (date : Z) : Q :=
  let dayConversations :=
    filter (fun c => inDay date (ConversationData.timestamp c))
           conversations in
  let interactionSeconds :=
    fold_left
      (fun interactionSeconds conv =>
         if ConversationState_eqb (ConversationData.state conv) talking
            || ConversationState_eqb (ConversationData.state conv) conversation
         then interactionSeconds + ConversationData.duration conv
         else interactionSeconds)
      dayConversations 0 in
  interactionSeconds / 60.
End Local.

Definition clamp (value min max : Q) : Q :=
  Math_min (Math_max value min) max.

(** [b.date.localeCompare(a.date)], the comparator of both sorts of daily
    scores: on [YYYY-MM-DD] strings the order of the characters. *)
Definition newestFirst (a b : DailyWellbeingScores.t) : comparison :=
  String.compare (DailyWellbeingScores.date b) (DailyWellbeingScores.date a).

Section Sample.
(** [Math.sin] and [Math.cos]. *)
Variables Math_sin Math_cos : Q -> Q.
(** The time zone of the host. *)
Variable tz : Date.TimeZone.

(** The body of the loop for the index [i]; [today] is [new Date()]. *)
Definition sampleDay (today : Z) (i : nat) : DailyWellbeingScores.t :=
  let date := Date.minusDays tz today (Z.of_nat i) in
  let dateString := Date.toISODate date in
  let i := inject_Z (Z.of_nat i) in
  let sleepBase := 85 in
  let activityBase := 78 in
  let socialBase := 72 in
  let sleepVariation := Math_sin ((i + 1) * 0.6) * 8 in
  let activityVariation := Math_cos ((i + 1) * 0.4) * 10 in
  let socialVariation := Math_sin ((i + 2) * 0.7) * 12 in
  let sleep := clamp (sleepBase + sleepVariation) 70 98 in
  let physicalActivity := clamp (activityBase + activityVariation) 60 95 in
  let socialInteraction := clamp (socialBase + socialVariation) 55 92 in
  {| DailyWellbeingScores.date := dateString;
     DailyWellbeingScores.sleep := toFixed1 sleep;
     DailyWellbeingScores.physicalActivity := toFixed1 physicalActivity;
     DailyWellbeingScores.socialInteraction := toFixed1 socialInteraction |}.

(** [None] stands for the [TypeError] raised on [latest.sleep] when
    [dailyScores] is empty. *)
Definition generateSampleWellbeingData (today : Z) (days : nat)
  : option (list DailyWellbeingScores.t * WellbeingScore.t) :=
  let dailyScores := map (sampleDay today) (seq 0 days) in
  let dailyScores := ArraySort.sort newestFirst dailyScores in
  match dailyScores with
  | [] => None
  | latest :: _ =>
      let currentScore :=
        {| WellbeingScore.sleep := DailyWellbeingScores.sleep latest;
           WellbeingScore.physicalActivity :=
             DailyWellbeingScores.physicalActivity latest;
           WellbeingScore.socialInteraction :=
             DailyWellbeingScores.socialInteraction latest;
           WellbeingScore.overall :=
             toFixed1
               (calculateOverallScore
                  (DailyWellbeingScores.sleep latest)
                  (DailyWellbeingScores.physicalActivity latest)
                  (DailyWellbeingScores.socialInteraction latest));
           WellbeingScore.lastUpdated := today |} in
      Some (dailyScores, currentScore)
  end.
End Sample.

(** The result of [getScoreInterpretation]. *)
Inductive Level : Type := excellent | good | fair | poor | critical.

Record ScoreInterpretation : Type := mkInterpretation
  { level : Level;
    color : string;
    message : string }.

Definition getScoreInterpretation (score : Q) : ScoreInterpretation :=
  if score >=? 80 then
    {| level := excellent;
       color := "#10B981";
       message := "Excellent - Meeting recommended guidelines" |}
  else if score >=? 60 then
    {| level := good;
       color := "#3B82F6";
       message := "Good - Close to recommended levels" |}
  else if score >=? 40 then
    {| level := fair;
       color := "#F59E0B";
       message := "Fair - Below recommended levels" |}
  else if score >=? 20 then
    {| level := poor;
       color := "#EF4444";
       message := "Poor - Significantly below recommended levels" |}
  else
    {| level := critical;
       color := "#DC2626";
       message := "Critical - Well below minimum recommended levels" |}.

End Scoring.

(** ** lib/wellbeingAggregator.ts *)

Module WellbeingAggregator.

(** [ActivityStatus] and [ConversationStatus] have the fields of
    [ActivityData] and [ConversationData]. *)
Definition ActivityStatus : Type := ActivityData.t.
Definition ConversationStatus : Type := ConversationData.t.

Record t : Type := mk
  { activityHistory : list ActivityStatus;
    conversationHistory : list ConversationStatus }.

Definition MAX_HISTORY_DAYS : Z := 7.

(** A new aggregator. *)
Definition create : t :=
  {| activityHistory := []; conversationHistory := [] |}.

(** [tz] is the time zone of the host and [now] the value of [new Date()]
    at the call. *)
Definition addActivity (tz : Date.TimeZone) (now : Z)
  (activity : ActivityStatus) (this : t) : t :=
  let pushed := activityHistory this ++ [activity] in
  let cutoff := Date.minusDays tz now MAX_HISTORY_DAYS in
  {| activityHistory :=
       filter (fun a => (ActivityData.timestamp a >=? cutoff)%Z) pushed;
     conversationHistory := conversationHistory this |}.

Definition addConversation (tz : Date.TimeZone) (now : Z)
  (conversation : ConversationStatus) (this : t) : t :=
  let pushed := conversationHistory this ++ [conversation] in
  let cutoff := Date.minusDays tz now MAX_HISTORY_DAYS in
  {| activityHistory := activityHistory this;
     conversationHistory :=
       filter (fun c => (ConversationData.timestamp c >=? cutoff)%Z) pushed |}.

Definition toActivityData (a : ActivityStatus) : ActivityData.t :=
  {| ActivityData.timestamp := ActivityData.timestamp a;
     ActivityData.activity := ActivityData.activity a;
     ActivityData.confidence := ActivityData.confidence a |}.

Definition toConversationData (c : ConversationStatus) : ConversationData.t :=
  {| ConversationData.timestamp := ConversationData.timestamp c;
     ConversationData.state := ConversationData.state c;
     ConversationData.duration := ConversationData.duration c |}.

Section Local.
Variable tz : Date.TimeZone.

Definition calculateTodayMetrics (now : Z) (this : t) : WellbeingMetrics.t :=
  let today := now in
  let activityData := map toActivityData (activityHistory this) in
  let conversationData := map toConversationData (conversationHistory this) in
  {| WellbeingMetrics.sleepHours :=
       Scoring.calculateSleepHoursFromActivities tz activityData today;
     WellbeingMetrics.physicalActivityMinutes :=
       Scoring.calculatePhysicalActivityMinutesFromActivities
         tz activityData today;
     WellbeingMetrics.socialInteractionMinutes :=
       Scoring.calculateSocialInteractionMinutesFromConversations
         tz conversationData today |}.

Definition sameDate (a b : Z) : bool :=
  ((Date.getFullYear tz a =? Date.getFullYear tz b)
   && (Date.getMonth tz a =? Date.getMonth tz b)
   && (Date.getDate tz a =? Date.getDate tz b))%Z.

Definition calculateMetricsForDate (date : Z) (this : t)
  : WellbeingMetrics.t :=
  let activityData :=
    map toActivityData
      (filter (fun a => sameDate (ActivityData.timestamp a) date)
              (activityHistory this)) in
  let conversationData :=
    map toConversationData
      (filter (fun c => sameDate (ConversationData.timestamp c) date)
              (conversationHistory this)) in
  {| WellbeingMetrics.sleepHours :=
       Scoring.calculateSleepHoursFromActivities tz activityData date;
     WellbeingMetrics.physicalActivityMinutes :=
       Scoring.calculatePhysicalActivityMinutesFromActivities
         tz activityData date;
     WellbeingMetrics.socialInteractionMinutes :=
       Scoring.calculateSocialInteractionMinutesFromConversations
         tz conversationData date |}.
End Local.

Definition getActivityHistory (this : t) : list ActivityStatus :=
  activityHistory this.

Definition getConversationHistory (this : t) : list ConversationStatus :=
  conversationHistory this.

Definition clearHistory (this : t) : t :=
  {| activityHistory := []; conversationHistory := [] |}.

End WellbeingAggregator.

(** ** context/WellbeingContext.tsx *)

Module WellbeingContext.

Import JS Scoring.

(** The provider's React state. *)
Record State : Type := mkState
  { currentScores : option WellbeingScore.t;
    dailyScores : list DailyWellbeingScores.t;
    isLoading : bool;
    isUsingSampleData : bool }.

(** The two [AsyncStorage] items, [STORAGE_KEY] and [STORAGE_KEY_DAILY]. *)
Record Storage : Type := mkStorage
  { storedScores : option WellbeingScore.t;
    storedDaily : option (list DailyWellbeingScores.t) }.

(** The two remote tables; a row carries its [user_id]. *)
Record Database : Type := mkDatabase
  { wellbeing_daily_scores : list (string * DailyWellbeingScores.t);
    wellbeing_scores : list (string * WellbeingScore.t) }.

(** The provider with its collaborators; [session] is the id of the
    signed-in user, if any. *)
Record World : Type := mkWorld
  { state : State;
    storage : Storage;
    database : Database;
    session : option string }.

(** [table.upsert(row, { onConflict })]: [same] compares the conflict
    columns. *)
Fixpoint upsert {R : Type} (same : R -> R -> bool) (row : R) (table : list R)
  : list R :=
  match table with
  | [] => [row]
  | r :: rest => if same r row then row :: rest else r :: upsert same row rest
  end.

(** [xs.findIndex(p)]; [None] stands for -1. *)
Fixpoint findIndex {A : Type} (p : A -> bool) (xs : list A) : option nat :=
  match xs with
  | [] => None
  | x :: rest =>
      if p x then Some O else option_map S (findIndex p rest)
  end.

(** [xs[i] = v] for an index inside the array. *)
Fixpoint assign {A : Type} (i : nat) (v : A) (xs : list A) : list A :=
  match xs, i with
  | [], _ => []
  | _ :: rest, O => v :: rest
  | x :: rest, S j => x :: assign j v rest
  end.

(** [xs.shift()], for the array that is left. *)
Definition shift {A : Type} (xs : list A) : list A := tl xs.

Definition saveScores (scores : WellbeingScore.t)
  (daily : list DailyWellbeingScores.t) (_ : Storage) : Storage :=
  {| storedScores := Some scores; storedDaily := Some daily |}.

Definition syncToDatabase (user_id : string) (scores : WellbeingScore.t)
  (dailyScore : DailyWellbeingScores.t) (db : Database) : Database :=
  {| wellbeing_daily_scores :=
       upsert
         (fun r row =>
            String.eqb (fst r) (fst row)
            && String.eqb (DailyWellbeingScores.date (snd r))
                          (DailyWellbeingScores.date (snd row)))
         (user_id, dailyScore) (wellbeing_daily_scores db);
     wellbeing_scores :=
       upsert (fun r row => String.eqb (fst r) (fst row))
              (user_id, scores) (wellbeing_scores db) |}.

(** The smoothed or initial current score, before [overall] is filled in. *)
Definition smoothedScores (now : Z) (baselineScores : option WellbeingScore.t)
  (todayScores : DailyWellbeingScores.t) : WellbeingScore.t :=
  match baselineScores with
  | Some baselineScores =>
      {| WellbeingScore.sleep :=
           calculateExponentiallyWeightedScore
             (WellbeingScore.sleep baselineScores)
             (DailyWellbeingScores.sleep todayScores) defaultAlpha;
         WellbeingScore.physicalActivity :=
           calculateExponentiallyWeightedScore
             (WellbeingScore.physicalActivity baselineScores)
             (DailyWellbeingScores.physicalActivity todayScores) defaultAlpha;
         WellbeingScore.socialInteraction :=
           calculateExponentiallyWeightedScore
             (WellbeingScore.socialInteraction baselineScores)
             (DailyWellbeingScores.socialInteraction todayScores) defaultAlpha;
         WellbeingScore.overall := 0;
         WellbeingScore.lastUpdated := now |}
  | None =>
      {| WellbeingScore.sleep := DailyWellbeingScores.sleep todayScores;
         WellbeingScore.physicalActivity :=
           DailyWellbeingScores.physicalActivity todayScores;
         WellbeingScore.socialInteraction :=
           DailyWellbeingScores.socialInteraction todayScores;
         WellbeingScore.overall := 0;
         WellbeingScore.lastUpdated := now |}
  end.

(** [updatedScores.overall = calculateOverallScore(updatedScores)]. *)
Definition withOverall (updatedScores : WellbeingScore.t) : WellbeingScore.t :=
  {| WellbeingScore.sleep := WellbeingScore.sleep updatedScores;
     WellbeingScore.physicalActivity :=
       WellbeingScore.physicalActivity updatedScores;
     WellbeingScore.socialInteraction :=
       WellbeingScore.socialInteraction updatedScores;
     WellbeingScore.overall :=
       calculateOverallScore
         (WellbeingScore.sleep updatedScores)
         (WellbeingScore.physicalActivity updatedScores)
         (WellbeingScore.socialInteraction updatedScores);
     WellbeingScore.lastUpdated := WellbeingScore.lastUpdated updatedScores |}.

(** The new daily array: today's row replaces the row of the same date or
    is pushed, the array is capped and then sorted. *)
Definition upsertDaily (baselineDaily : list DailyWellbeingScores.t)
  (todayScores : DailyWellbeingScores.t) : list DailyWellbeingScores.t :=
  let updatedDailyScores := baselineDaily in
  let existingIndex :=
    findIndex
      (fun d => String.eqb (DailyWellbeingScores.date d)
                           (DailyWellbeingScores.date todayScores))
      updatedDailyScores in
  let updatedDailyScores :=
    match existingIndex with
    | Some existingIndex => assign existingIndex todayScores updatedDailyScores
    | None =>
        let updatedDailyScores := updatedDailyScores ++ [todayScores] in
        if (30 <? List.length updatedDailyScores)%nat
        then shift updatedDailyScores
        else updatedDailyScores
    end in
  ArraySort.sort newestFirst updatedDailyScores.

(** [now] is the value of [new Date()] during the call. Failures of the
    storage and of the remote store are caught and logged by the source and
    change nothing here; both are taken to succeed. *)
Definition updateScores (now : Z) (metrics : WellbeingMetrics.t) (w : World)
  : World :=
  let baselineScores :=
    if isUsingSampleData (state w) then None else currentScores (state w) in
  let baselineDaily :=
    if isUsingSampleData (state w) then [] else dailyScores (state w) in
  let todayScores := calculateDailyScores now metrics in
  let updatedScores := withOverall (smoothedScores now baselineScores todayScores) in
  let updatedDailyScores := upsertDaily baselineDaily todayScores in
  {| state :=
       {| currentScores := Some updatedScores;
          dailyScores := updatedDailyScores;
          isLoading := isLoading (state w);
          isUsingSampleData := false |};
     storage := saveScores updatedScores updatedDailyScores (storage w);
     database :=
       match session w with
       | Some user_id =>
           syncToDatabase user_id updatedScores todayScores (database w)
       | None => database w
       end;
     session := session w |}.

Section Load.
(** [Math.sin] and [Math.cos], for the sample data. *)
Variables Math_sin Math_cos : Q -> Q.
(** The time zone of the host. *)
Variable tz : Date.TimeZone.

(** [now] is the value of [new Date()] inside
    [generateSampleWellbeingData]; an exception raised there leaves the
    state as it is. *)
Definition applySampleData (now : Z) (st : State) : State :=
  match generateSampleWellbeingData Math_sin Math_cos tz now 10 with
  | Some (sampleDaily, currentScore) =>
      {| currentScores := Some currentScore;
         dailyScores := sampleDaily;
         isLoading := isLoading st;
         isUsingSampleData := true |}
  | None => st
  end.

(** The stored items are taken to parse; [JSON.stringify] followed by
    [JSON.parse] and [new Date] gives the stored values back. *)
Definition loadScores (now : Z) (w : World) : World :=
  let st := state w in
  let dataLoaded := false in
  let scoresJson := storedScores (storage w) in
  let '(st, dataLoaded) :=
    match scoresJson with
    | Some scores =>
        ({| currentScores := Some scores;
            dailyScores := dailyScores st;
            isLoading := true;
            isUsingSampleData := false |}, true)
    | None =>
        ({| currentScores := currentScores st;
            dailyScores := dailyScores st;
            isLoading := true;
            isUsingSampleData := isUsingSampleData st |}, dataLoaded)
    end in
  let dailyJson := storedDaily (storage w) in
  let '(st, dataLoaded) :=
    match dailyJson with
    | Some daily =>
        ({| currentScores := currentScores st;
            dailyScores := daily;
            isLoading := isLoading st;
            isUsingSampleData := isUsingSampleData st |},
         if (0 <? List.length daily)%nat then true else dataLoaded)
    | None => (st, dataLoaded)
    end in
  let st := if dataLoaded then st else applySampleData now st in
  {| state :=
       {| currentScores := currentScores st;
          dailyScores := dailyScores st;
          isLoading := false;
          isUsingSampleData := isUsingSampleData st |};
     storage := storage w;
     database := database w;
     session := session w |}.
End Load.

(** [a >= b] on strings. *)
Definition string_geb (a b : string) : bool := String.leb b a.

(** [tz] is the time zone of the host and [now] the value of [new Date()]
    at the call. *)
Definition getScoreHistory (tz : Date.TimeZone) (now : Z) (days : nat)
  (st : State) : list DailyWellbeingScores.t :=
  let cutoffDate := Date.minusDays tz now (Z.of_nat days) in
  let cutoffDateString := Date.toISODate cutoffDate in
  rev (firstn days
         (filter (fun score =>
                    string_geb (DailyWellbeingScores.date score) cutoffDateString)
                 (dailyScores st))).

End WellbeingContext.

(** ** hooks/useWellbeingDataCollection.ts *)

Module WellbeingDataCollection.

Import JS.

(** What the periodic update acts on: the aggregator, the score provider
    and the hook's [lastUpdateRef]. *)
Record Hook : Type := mkHook
  { aggregator : WellbeingAggregator.t;
    wellbeing : WellbeingContext.World;
    lastUpdateRef : Z }.

(** One run of the periodic update, at the time [now] in the zone [tz]. *)
Definition updateWellbeingScores (tz : Date.TimeZone) (now : Z) (h : Hook)
  : Hook :=
  let metrics := WellbeingAggregator.calculateTodayMetrics tz now (aggregator h) in
  if (WellbeingMetrics.sleepHours metrics >? 0)
     || (WellbeingMetrics.physicalActivityMinutes metrics >? 0)
     || (WellbeingMetrics.socialInteractionMinutes metrics >? 0)
  then
    {| aggregator := aggregator h;
       wellbeing := WellbeingContext.updateScores now metrics (wellbeing h);
       lastUpdateRef := now |}
  else h.

End WellbeingDataCollection.

(** ** The status screen: activity and conversation classifiers *)

Module StatusScreen.

Import JS.

(** The refs and state the classifiers read and write. *)
Record Screen : Type := mkScreen
  { accelHistoryRef : list Q;
    speedHistoryRef : list Q;
    sharedAudioHistory : list Q;
    gpsAccuracy : Q;
    inactiveTimeRef : Z;
    inactiveTime : Z;
    currentActivity : ActivityType;
    activityConfidence : Q;
    conversationState : ConversationState;
    activityHistoryRef : list ActivityData.t }.

(** [xs.reduce((a, b) => a + b, 0) / xs.length]. *)
Definition mean (xs : list Q) : Q := sum xs / len xs.

(** [xs.reduce((sum, val) => sum + Math.pow(val - m, 2), 0) / xs.length]. *)
Definition variance (m : Q) (xs : list Q) : Q :=
  fold_left (fun sum val => sum + (val - m) ^ 2) xs 0 / len xs.

(** The chain of rules of [classifyActivity] on the window statistics: the
    label, its confidence and the new value of [inactiveTimeRef.current]. *)
Definition classifyRules
  (accelStd speedMean deviationFromGravity gpsAccuracy : Q)
  (inactiveTimeRef : Z) : ActivityType * Q * Z :=
  if (accelStd <? 0.05) && (speedMean <? 0.3) && (deviationFromGravity <? 0.1)
  then (stationary,
        Math_min 95 (80 + (1 - accelStd * 10) * 15),
        (inactiveTimeRef + 1)%Z)
  else if ((accelStd >=? 0.05) && (accelStd <? 0.4)
           && (speedMean >=? 0.3) && (speedMean <? 2.5))
          || ((deviationFromGravity >=? 0.1)
              && (speedMean >=? 0.3) && (speedMean <? 2.5))
  then (walking, Math_min 92 (65 + accelStd * 60), 0%Z)
  else if ((accelStd >=? 0.4) && (speedMean >=? 2.0))
          || ((speedMean >=? 2.5) && (speedMean <? 7))
  then (running, Math_min 95 (75 + Math_min accelStd 1 * 20), 0%Z)
  else if (speedMean >=? 3.5) && (speedMean <? 12) && (accelStd <? 0.4)
  then (cycling, Math_min 88 (65 + (speedMean / 12) * 23), 0%Z)
  else if (accelStd >=? 0.05) && (accelStd <? 0.5)
          && (speedMean <? 0.3) && (gpsAccuracy >? 20)
  then (walking, Math_min 75 (50 + accelStd * 50), 0%Z)
  else if (accelStd <? 0.03) && (speedMean <? 0.2)
          && (inject_Z inactiveTimeRef >? 30)
  then (sleeping,
        Math_min 90 (60 + Math_min (inject_Z inactiveTimeRef / 120) 1 * 30),
        inactiveTimeRef)
  else if speedMean <? 0.3
  then (stationary, 55, (inactiveTimeRef + 1)%Z)
  else (unknown, 35, 0%Z).

(** The bands of [detectConversation] on the window statistics. *)
Definition conversationRules (audioMean peakRate audioStd : Q)
  : ConversationState :=
  if audioMean <? 12 then silent
  else if (audioMean >=? 12) && (audioMean <? 30)
  then (if peakRate <? 0.25 then silent else talking)
  else if (audioMean >=? 30) && (audioMean <? 45) then talking
  else if (audioMean >=? 45) || ((peakRate >=? 0.35) && (audioStd >? 12))
  then conversation
  else talking.

(** The last entry of the activity history carries another label, or there
    is none. *)
Definition labelChanged (history : list ActivityData.t)
  (activity : ActivityType) : bool :=
  match last (map Some history) None with
  | None => true
  | Some e => negb (ActivityType_eqb (ActivityData.activity e) activity)
  end.

Section Tick.
(** [Math.sqrt]. *)
Variable Math_sqrt : Q -> Q.

(** The window statistics of [classifyActivity]. *)
Definition recentAccel (s : Screen) : list Q :=
  slice_last 30 (accelHistoryRef s).
Definition recentSpeed (s : Screen) : list Q :=
  slice_last 10 (speedHistoryRef s).
Definition accelMean (s : Screen) : Q := mean (recentAccel s).
Definition accelVariance (s : Screen) : Q :=
  variance (accelMean s) (recentAccel s).
Definition accelStd (s : Screen) : Q := Math_sqrt (accelVariance s).
Definition speedMean (s : Screen) : Q :=
  if (0 <? List.length (recentSpeed s))%nat then mean (recentSpeed s) else 0.
Definition deviationFromGravity (s : Screen) : Q :=
  Math_abs (accelMean s - 1.0).

(** One tick of the activity classifier at the time [now]. The histories
    and the inactivity counter are refs; [gpsAccuracy s] is the accuracy
    the tick reads. *)
Definition classifyActivity (now : Z) (s : Screen) : Screen :=
  if (List.length (recentAccel s) <? 10)%nat then s
  else
    let '(activity, confidence, inactive) :=
      classifyRules (accelStd s) (speedMean s) (deviationFromGravity s)
                    (gpsAccuracy s) (inactiveTimeRef s) in
    {| accelHistoryRef := accelHistoryRef s;
       speedHistoryRef := speedHistoryRef s;
       sharedAudioHistory := sharedAudioHistory s;
       gpsAccuracy := gpsAccuracy s;
       inactiveTimeRef := inactive;
       inactiveTime := inactive;
       currentActivity := activity;
       activityConfidence := confidence;
       conversationState := conversationState s;
       activityHistoryRef :=
         if labelChanged (activityHistoryRef s) activity
         then slice_last 20 (activityHistoryRef s)
                ++ [ActivityData.mk now activity confidence]
         else activityHistoryRef s |}.

(** The window statistics of [detectConversation]. *)
Definition recentAudio (s : Screen) : list Q :=
  slice_last 50 (sharedAudioHistory s).
Definition audioMean (s : Screen) : Q := mean (recentAudio s).
Definition peakRate (s : Screen) : Q :=
  let threshold := audioMean s + 8 in
  let peaks :=
    len (filter (fun level => level >? threshold) (recentAudio s)) in
  peaks / len (recentAudio s).
Definition audioStd (s : Screen) : Q :=
  Math_sqrt (variance (audioMean s) (recentAudio s)).

(** The state [detectConversation] computes; [None] when the window is
    too short and the function returns early. *)
Definition detectedConversation (s : Screen) : option ConversationState :=
  if (List.length (recentAudio s) <? 20)%nat then None
  else Some (conversationRules (audioMean s) (peakRate s) (audioStd s)).

(** One tick of the conversation classifier. *)
Definition detectConversation (s : Screen) : Screen :=
  match detectedConversation s with
  | None => s
  | Some newState =>
      {| accelHistoryRef := accelHistoryRef s;
         speedHistoryRef := speedHistoryRef s;
         sharedAudioHistory := sharedAudioHistory s;
         gpsAccuracy := gpsAccuracy s;
         inactiveTimeRef := inactiveTimeRef s;
         inactiveTime := inactiveTime s;
         currentActivity := currentActivity s;
         activityConfidence := activityConfidence s;
         conversationState := newState;
         activityHistoryRef := activityHistoryRef s |}
  end.
End Tick.

Module LocationState.
Inductive t : Type := indoor | outdoor | moving | stationary.

(** [a === b]. *)
Definition eqb (a b : t) : bool :=
  match a, b with
  | indoor, indoor | outdoor, outdoor | moving, moving
  | stationary, stationary => true
  | _, _ => false
  end.
End LocationState.

(** The state [detectLocation] computes from the speed samples, a ref, and
    from the [gpsAccuracy] it reads; [None] when there are fewer than three
    samples and the function returns early. *)
Definition detectedLocation (s : Screen) (gpsAccuracy : Q)
  : option LocationState.t :=
  let recentSpeed := slice_last 10 (speedHistoryRef s) in
  if (List.length recentSpeed <? 3)%nat then None
  else
    let avgSpeed := mean recentSpeed in
    let maxSpeed := Math_max_spread recentSpeed in
    Some
      (if (avgSpeed >=? 0.5)
          || match maxSpeed with Some m => m >=? 0.8 | None => false end
       then LocationState.moving
       else if (avgSpeed <? 0.5) && (gpsAccuracy <=? 30)
       then LocationState.outdoor
       else if (avgSpeed <? 0.5) && (gpsAccuracy >? 30)
       then LocationState.indoor
       else LocationState.stationary).

(** One tick of the location classifier. The tick is run by the interval
    of an effect whose dependencies are [isMonitoring] and
    [conversationState], so the function called is the one of the render
    that created the interval: [gpsAccuracy] and [locationState] are the
    state of that render, while the speed samples are read from the ref as
    it is at the tick. [setLocationState] is called only when the computed
    state differs from [locationState]; [current] is the location state at
    the time of the tick and the result the one after it. *)
Definition detectLocation (s : Screen) (gpsAccuracy : Q)
  (locationState current : LocationState.t) : LocationState.t :=
  match detectedLocation s gpsAccuracy with
  | None => current
  | Some newState =>
      if LocationState.eqb newState locationState then current else newState
  end.

(** The callback of [Location.watchPositionAsync] on a fix with the given
    [coords.speed] and [coords.accuracy], either of which may be [null]. *)
Definition onLocation (speed accuracy : option Q) (s : Screen) : Screen :=
  let currentSpeed := orElse speed 0 in
  let accuracy := orElse accuracy 999 in
  let filteredSpeed :=
    if (accuracy >? 20) || (currentSpeed <? 0.2) then 0 else currentSpeed in
  {| accelHistoryRef := accelHistoryRef s;
     speedHistoryRef := slice_last 10 (speedHistoryRef s) ++ [filteredSpeed];
     sharedAudioHistory := sharedAudioHistory s;
     gpsAccuracy := accuracy;
     inactiveTimeRef := inactiveTimeRef s;
     inactiveTime := inactiveTime s;
     currentActivity := currentActivity s;
     activityConfidence := activityConfidence s;
     conversationState := conversationState s;
     activityHistoryRef := activityHistoryRef s |}.

Section Listener.
(** [Math.sqrt]. *)
Variable Math_sqrt : Q -> Q.

(** The accelerometer listener on a reading [{x, y, z}]. *)
Definition onAccelerometer (x y z : Q) (s : Screen) : Screen :=
  let magnitude := Math_sqrt (x ^ 2 + y ^ 2 + z ^ 2) in
  {| accelHistoryRef := slice_last 100 (accelHistoryRef s) ++ [magnitude];
     speedHistoryRef := speedHistoryRef s;
     sharedAudioHistory := sharedAudioHistory s;
     gpsAccuracy := gpsAccuracy s;
     inactiveTimeRef := inactiveTimeRef s;
     inactiveTime := inactiveTime s;
     currentActivity := currentActivity s;
     activityConfidence := activityConfidence s;
     conversationState := conversationState s;
     activityHistoryRef := activityHistoryRef s |}.
End Listener.

End StatusScreen.

(** ** context/AudioContext.tsx *)

Module AudioContext.

Import JS.

Definition MAX_HISTORY_POINTS : nat := 100.

Record Audio : Type := mkAudio
  { audioLevel : Q;
    audioHistoryRef : list Q }.

(** The level computed from [status.metering]. *)
Definition normalized (metering : Q) : Q :=
  Math_max 0 (Math_min 100 ((metering + 160) / 1.6)).

(** The recording status callback; [metering] is [None] when
    [status.metering] is undefined. *)
Definition onRecordingStatusUpdate (isRecording : bool) (metering : option Q)
  (a : Audio) : Audio :=
  match metering with
  | Some metering =>
      if isRecording then
        {| audioLevel := normalized metering;
           audioHistoryRef :=
             slice_last (MAX_HISTORY_POINTS - 1) (audioHistoryRef a)
               ++ [normalized metering] |}
      else a
  | None => a
  end.

End AudioContext.

(** ** The wellbeing screen *)

Module WellbeingScreen.

Import JS.

Record Averages : Type := mkAverages
  { sleep : Q;
    activity : Q;
    social : Q }.

(** The last seven days, oldest first. *)
Definition chartData (dailyScores : list DailyWellbeingScores.t)
  : list DailyWellbeingScores.t :=
  rev (firstn 7 dailyScores).

Definition weeklyAverages (dailyScores : list DailyWellbeingScores.t)
  : Averages :=
  let chartData := chartData dailyScores in
  let weeklyAverages :=
    fold_left
      (fun acc entry =>
         {| sleep := sleep acc + DailyWellbeingScores.sleep entry;
            activity := activity acc + DailyWellbeingScores.physicalActivity entry;
            social := social acc + DailyWellbeingScores.socialInteraction entry |})
      chartData {| sleep := 0; activity := 0; social := 0 |} in
  let chartLength :=
    if (List.length chartData =? 0)%nat then 1 else len chartData in
  {| sleep := sleep weeklyAverages / chartLength;
     activity := activity weeklyAverages / chartLength;
     social := social weeklyAverages / chartLength |}.

End WellbeingScreen.

(** ** Rational stand-ins for the transcendental primitives

    [Math.sqrt], [Math.sin] and [Math.cos] are parameters of the definitions
    above. Where a run on concrete data is evaluated they are instantiated by
    the following approximations: the square root truncated to six decimals
    (exact on the squares of such decimals) and the Maclaurin polynomials of
    sine and cosine of degree 41 and 40. *)

Module Approx.

Definition sqrt (x : Q) : Q :=
  Qmake (Z.sqrt (Qnum x * 10 ^ 12 / Zpos (Qden x))) (10 ^ 6).

(** The terms [t, -t x²/((k+1)(k+2)), ...] of an alternating series, summed. *)
Fixpoint series (n : nat) (x2 : Q) (k : Z) (term : Q) : Q :=
  match n with
  | O => 0
  | S n =>
      Qred (term
            + series n x2 (k + 2)
                (Qred (- term * x2 / inject_Z ((k + 1) * (k + 2)))))
  end.

Definition sin (x : Q) : Q := series 21 (x * x) 1 x.
Definition cos (x : Q) : Q := series 21 (x * x) 0 1.

End Approx.

(** ** Vocabulary of the properties *)

Module Spec.

(** A score curve stays in [0, 100]; a score curve never decreases. *)
Definition in_range (f : Q -> Q) : Prop := forall x, 0 <= f x <= 100.
Definition monotone (f : Q -> Q) : Prop := forall x y, x <= y -> f x <= f y.

(** The arithmetic mean of the three dimensions of a current score. *)
Definition dimensionMean (s : WellbeingScore.t) : Q :=
  (WellbeingScore.sleep s + WellbeingScore.physicalActivity s
   + WellbeingScore.socialInteraction s) / 3.

(** [a] carries a strictly later date than [b]. *)
Definition newer (a b : DailyWellbeingScores.t) : Prop :=
  String.compare (DailyWellbeingScores.date b) (DailyWellbeingScores.date a) = Lt.

(** [a] carries a date that is not earlier than the date of [b]. *)
Definition notOlder (a b : DailyWellbeingScores.t) : Prop :=
  String.compare (DailyWellbeingScores.date b) (DailyWellbeingScores.date a) <> Gt.

Definition dates (daily : list DailyWellbeingScores.t) : list string :=
  map DailyWellbeingScores.date daily.

(** Fresh enough for a call at the time [now] on a host in the zone [tz]:
    not before the cutoff, which is the local time of day of [now] on the
    local day [MAX_HISTORY_DAYS] days earlier. *)
Definition retained (tz : Date.TimeZone) (now timestamp : Z) : Prop :=
  (Date.minusDays tz now WellbeingAggregator.MAX_HISTORY_DAYS <= timestamp)%Z.

(** The calls made on an aggregator. [Read] is any of
    [calculateTodayMetrics], [calculateMetricsForDate],
    [getActivityHistory] and [getConversationHistory], which leave the
    aggregator as it is. *)
Inductive Call : Type :=
| AddActivity (now : Z) (activity : ActivityData.t)
| AddConversation (now : Z) (conversation : ConversationData.t)
| ClearHistory
| Read.

Definition call (tz : Date.TimeZone) (this : WellbeingAggregator.t) (c : Call)
  : WellbeingAggregator.t :=
  match c with
  | AddActivity now activity =>
      WellbeingAggregator.addActivity tz now activity this
  | AddConversation now conv =>
      WellbeingAggregator.addConversation tz now conv this
  | ClearHistory => WellbeingAggregator.clearHistory this
  | Read => this
  end.

(** The aggregator after a sequence of calls on a host in the zone [tz]. *)
Definition calls (tz : Date.TimeZone) (cs : list Call)
  (this : WellbeingAggregator.t) : WellbeingAggregator.t :=
  fold_left (call tz) cs this.

(** The times of the last [addActivity] and of the last [addConversation]
    of a sequence of calls. *)
Definition lastAddActivity (cs : list Call) : option Z :=
  fold_left
    (fun last c => match c with AddActivity now _ => Some now | _ => last end)
    cs None.

Definition lastAddConversation (cs : list Call) : option Z :=
  fold_left
    (fun last c => match c with AddConversation now _ => Some now | _ => last end)
    cs None.

(** A score lies in [0, 100]; so do all fields of a daily row and of a
    current score; so does everything a provider state holds. *)
Definition inScoreRange (x : Q) : Prop := 0 <= x <= 100.

Definition dailyInRange (d : DailyWellbeingScores.t) : Prop :=
  inScoreRange (DailyWellbeingScores.sleep d)
  /\ inScoreRange (DailyWellbeingScores.physicalActivity d)
  /\ inScoreRange (DailyWellbeingScores.socialInteraction d).

Definition currentInRange (s : WellbeingScore.t) : Prop :=
  inScoreRange (WellbeingScore.sleep s)
  /\ inScoreRange (WellbeingScore.physicalActivity s)
  /\ inScoreRange (WellbeingScore.socialInteraction s)
  /\ inScoreRange (WellbeingScore.overall s).

Definition stateInRange (st : WellbeingContext.State) : Prop :=
  (forall s, WellbeingContext.currentScores st = Some s -> currentInRange s)
  /\ Forall dailyInRange (WellbeingContext.dailyScores st).

(** The levels of [getScoreInterpretation], from the worst to the best. *)
Definition levelRank (l : Scoring.Level) : nat :=
  match l with
  | Scoring.critical => 0
  | Scoring.poor => 1
  | Scoring.fair => 2
  | Scoring.good => 3
  | Scoring.excellent => 4
  end.

(** Events in the order of their timestamps. *)
Definition chronological (events : list ActivityData.t) : Prop :=
  Sorted (fun a b => (ActivityData.timestamp a <= ActivityData.timestamp b)%Z)
         events.

(** No two neighbouring entries carry the same label. *)
Definition runLengthEncoded (history : list ActivityData.t) : Prop :=
  Sorted (fun a b => ActivityData.activity a <> ActivityData.activity b) history.

(** The weight of a label in the active minutes. *)
Definition activityWeight (a : ActivityType) : Q :=
  match a with
  | walking => 1
  | running => 1.5
  | cycling => 1.3
  | _ => 0
  end.

(** Within 0.1 of the magnitude of gravity. *)
Definition still (magnitude : Q) : Prop := Qabs (magnitude - 1) < 0.1.

(** The seconds of talking and conversation among conversation events. *)
Definition socialSeconds (conversations : list ConversationData.t) : Q :=
  fold_right
    (fun conv total =>
       (if ConversationState_eqb (ConversationData.state conv) talking
           || ConversationState_eqb (ConversationData.state conv) conversation
        then ConversationData.duration conv
        else 0) + total)
    0 conversations.

(** The milliseconds from the first to the last millisecond of the local
    day of [date]: 86399999 on a day of 24 hours, an hour less or more on
    the day of a clock change. *)
Definition dayLength (tz : Date.TimeZone) (date : Z) : Z :=
  (Date.endOfDay tz date - Date.startOfDay tz date)%Z.

(** The local day of [date] is whole: every instant from its 00:00:00.000
    to its 23:59:59.999 falls on that local day. Clock changes away from
    midnight keep the days whole. *)
Definition wholeDay (tz : Date.TimeZone) (date : Z) : Prop :=
  forall timestamp : Z,
    Scoring.inDay tz date timestamp = true ->
    Date.Day tz timestamp = Date.Day tz date.

(** A speed the location callback stores: 0, or at least 0.2. *)
Definition storedSpeed (v : Q) : Prop := v == 0 \/ 0.2 <= v.

(** An audio level between 0 and 100. *)
Definition audioLevelInRange (v : Q) : Prop := 0 <= v /\ v <= 100.

End Spec.

(** ** Concrete data *)

Module Examples.

(** 2026-11-03T00:00:00Z. *)
Definition now : Z := 1793664000000.

(** A host on UTC. *)
Definition utc : Date.TimeZone := Date.fixed 0.

(** A host in New York in 2026: Eastern Standard Time, five hours behind
    UTC, with daylight time, four hours behind, from 2026-03-08T07:00Z
    (02:00 becomes 03:00) to 2026-11-01T06:00Z (02:00 becomes 01:00). A
    local time is read with the offset before a change until the clock has
    passed the change on both readings, which is at 03:00 in March and at
    02:00 in November. *)
Definition newYork : Date.TimeZone :=
  let est := (-5 * Date.msPerHour)%Z in
  let edt := (-4 * Date.msPerHour)%Z in
  let march := 1772953200000%Z in
  let november := 1793512800000%Z in
  {| Date.LocalTZA := fun t isUTC =>
       if isUTC
       then (if t <? march then est else if t <? november then edt else est)%Z
       else (if t <? march + edt then est
             else if t <? november + edt then edt else est)%Z |}.

(** Seven hours of sleep, 20 active minutes and 40 social minutes: a daily
    score of 80 in each dimension. *)
Definition metrics80 : WellbeingMetrics.t :=
  {| WellbeingMetrics.sleepHours := 7;
     WellbeingMetrics.physicalActivityMinutes := 20;
     WellbeingMetrics.socialInteractionMinutes := 40 |}.

Definition score50 : WellbeingScore.t :=
  {| WellbeingScore.sleep := 50;
     WellbeingScore.physicalActivity := 50;
     WellbeingScore.socialInteraction := 50;
     WellbeingScore.overall := 50;
     WellbeingScore.lastUpdated := now - Date.msPerDay |}.

Definition emptyStorage : WellbeingContext.Storage :=
  {| WellbeingContext.storedScores := None;
     WellbeingContext.storedDaily := None |}.

Definition emptyDatabase : WellbeingContext.Database :=
  {| WellbeingContext.wellbeing_daily_scores := [];
     WellbeingContext.wellbeing_scores := [] |}.

(** A signed-out provider holding [scores] and [daily]. *)
Definition worldOf (scores : option WellbeingScore.t)
  (daily : list DailyWellbeingScores.t) : WellbeingContext.World :=
  {| WellbeingContext.state :=
       {| WellbeingContext.currentScores := scores;
          WellbeingContext.dailyScores := daily;
          WellbeingContext.isLoading := false;
          WellbeingContext.isUsingSampleData := false |};
     WellbeingContext.storage := emptyStorage;
     WellbeingContext.database := emptyDatabase;
     WellbeingContext.session := None |}.

Definition world50 : WellbeingContext.World := worldOf (Some score50) [].

(** A stored day, [k] days before [now], scoring 80 in each dimension. *)
Definition dayBefore (k : nat) : DailyWellbeingScores.t :=
  {| DailyWellbeingScores.date :=
       Date.toISODate (Date.minusDays utc now (Z.of_nat k));
     DailyWellbeingScores.sleep := 80;
     DailyWellbeingScores.physicalActivity := 80;
     DailyWellbeingScores.socialInteraction := 80 |}.

(** The 30 days 2026-11-02 down to 2026-10-04, newest first. *)
Definition thirtyDays : list DailyWellbeingScores.t := map dayBefore (seq 1 30).

Definition world30 : WellbeingContext.World := worldOf (Some score50) thirtyDays.

(** The instant [hours] hours after 2026-11-03T00:00Z: for hours from 0 to
    23 a time of day on 2026-11-03 in UTC. *)
Definition at_ (hours : Z) : Z := (now + hours * Date.msPerHour)%Z.

Definition sleepingAt (hours : Z) : ActivityData.t :=
  {| ActivityData.timestamp := at_ hours;
     ActivityData.activity := sleeping;
     ActivityData.confidence := 90 |}.

Definition walkingAt (hours : Z) : ActivityData.t :=
  {| ActivityData.timestamp := at_ hours;
     ActivityData.activity := walking;
     ActivityData.confidence := 80 |}.

(** Walking 8 days, and 7 days and 30 minutes, before 12:00 UTC on
    2026-11-03. *)
Definition eightDaysOld : ActivityData.t :=
  {| ActivityData.timestamp := (at_ 12 - 8 * Date.msPerDay)%Z;
     ActivityData.activity := walking;
     ActivityData.confidence := 80 |}.

Definition weekOld : ActivityData.t :=
  {| ActivityData.timestamp := (at_ 12 - 7 * Date.msPerDay - 1800000)%Z;
     ActivityData.activity := walking;
     ActivityData.confidence := 80 |}.

(** Asleep at 00:00 and up at 23:30, New York time, on 2026-11-01. *)
Definition longNight : list ActivityData.t :=
  [ sleepingAt (-44);
    {| ActivityData.timestamp := (at_ (-20) + 1800000)%Z;
       ActivityData.activity := walking;
       ActivityData.confidence := 80 |} ].

(** An aggregator that recorded one activity, at the time it happened. *)
Definition oneActivity : WellbeingAggregator.t :=
  WellbeingAggregator.addActivity utc (at_ 23) (sleepingAt 23)
                                  WellbeingAggregator.create.

(** A collection hook over an aggregator without events. *)
Definition idleHook : WellbeingDataCollection.Hook :=
  {| WellbeingDataCollection.aggregator := WellbeingAggregator.create;
     WellbeingDataCollection.wellbeing := world50;
     WellbeingDataCollection.lastUpdateRef := (now - Date.msPerDay)%Z |}.

Definition screenOf (accel speed audio : list Q) (inactive : Z)
  : StatusScreen.Screen :=
  {| StatusScreen.accelHistoryRef := accel;
     StatusScreen.speedHistoryRef := speed;
     StatusScreen.sharedAudioHistory := audio;
     StatusScreen.gpsAccuracy := 999;
     StatusScreen.inactiveTimeRef := inactive;
     StatusScreen.inactiveTime := inactive;
     StatusScreen.currentActivity := unknown;
     StatusScreen.activityConfidence := 0;
     StatusScreen.conversationState := silent;
     StatusScreen.activityHistoryRef := [] |}.

(** Ten steady accelerometer samples of magnitude 1.2, no speed samples,
    31 seconds of inactivity. *)
Definition tiltedScreen : StatusScreen.Screen :=
  screenOf (repeat 1.2 10) [] [] 31.

(** Ten samples alternating between 1.03 and 1.07 (mean 1.05, standard
    deviation 0.02) and speed samples of mean 0.1. *)
Definition steadyScreen : StatusScreen.Screen :=
  screenOf [1.03; 1.07; 1.03; 1.07; 1.03; 1.07; 1.03; 1.07; 1.03; 1.07]
           [0.3; 0; 0] [] 0.

(** Twenty audio levels alternating between 20 and 50: mean 35, half of
    them above the peak threshold, standard deviation 15. *)
Definition burstyScreen : StatusScreen.Screen :=
  screenOf [] []
           [20; 50; 20; 50; 20; 50; 20; 50; 20; 50;
            20; 50; 20; 50; 20; 50; 20; 50; 20; 50] 0.

(** A screen that started empty and received three fixes of speed 0.1
    and accuracy 5. *)
Definition threeFixes : StatusScreen.Screen :=
  StatusScreen.onLocation
    (Some 0.1) (Some 5)
    (StatusScreen.onLocation
       (Some 0.1) (Some 5)
       (StatusScreen.onLocation (Some 0.1) (Some 5) (screenOf [] [] [] 0))).

Definition talkingAt (hours : Z) (seconds : Q) : ConversationData.t :=
  {| ConversationData.timestamp := at_ hours;
     ConversationData.state := talking;
     ConversationData.duration := seconds |}.

Definition silentAt (hours : Z) : ConversationData.t :=
  {| ConversationData.timestamp := at_ hours;
     ConversationData.state := silent;
     ConversationData.duration := 0 |}.

(** Twenty audio levels of 8. *)
Definition quietScreen : StatusScreen.Screen :=
  screenOf [] [] (repeat 8 20) 0.

Definition someAudio : AudioContext.Audio :=
  {| AudioContext.audioLevel := 50;
     AudioContext.audioHistoryRef := [40; 50] |}.

End Examples.

(** * Properties *)

(** ** Comparisons and constants *)

Lemma geb_true (a b : Q) : (a >=? b) = true <-> b <= a.
Proof. unfold JS.geb. apply Qle_bool_iff. Qed.

Lemma geb_false (a b : Q) : (a >=? b) = false <-> a < b.
Proof.
  unfold JS.geb. rewrite <- not_true_iff_false, Qle_bool_iff.
  split; intro H; [ now apply Qnot_le_lt | now apply Qlt_not_le ].
Qed.

Lemma leb_true (a b : Q) : (a <=? b) = true <-> a <= b.
Proof. apply geb_true. Qed.

Lemma leb_false (a b : Q) : (a <=? b) = false <-> b < a.
Proof. apply geb_false. Qed.

Lemma ltb_true (a b : Q) : (a <? b) = true <-> a < b.
Proof. unfold JS.ltb. rewrite negb_true_iff. apply geb_false. Qed.

Lemma ltb_false (a b : Q) : (a <? b) = false <-> b <= a.
Proof. unfold JS.ltb. rewrite negb_false_iff. apply geb_true. Qed.

Lemma gtb_true (a b : Q) : (a >? b) = true <-> b < a.
Proof. apply ltb_true. Qed.

Lemma gtb_false (a b : Q) : (a >? b) = false <-> a <= b.
Proof. apply ltb_false. Qed.

(** Turns the boolean tests recorded in the context into inequalities. *)
Ltac q_props :=
  repeat match goal with
  | H : (_ >=? _) = true |- _ => apply geb_true in H
  | H : (_ >=? _) = false |- _ => apply geb_false in H
  | H : (_ <=? _) = true |- _ => apply leb_true in H
  | H : (_ <=? _) = false |- _ => apply leb_false in H
  | H : (_ <? _) = true |- _ => apply ltb_true in H
  | H : (_ <? _) = false |- _ => apply ltb_false in H
  | H : (_ >? _) = true |- _ => apply gtb_true in H
  | H : (_ >? _) = false |- _ => apply gtb_false in H
  end.

(** Replaces the inverse of a numeral by its value, for [lra]. *)
Ltac q_consts :=
  unfold Qdiv in *;
  repeat match goal with
  | |- context [Qinv (?n # ?d)] =>
      let v := eval vm_compute in (Qinv (n # d)) in
      change (Qinv (n # d)) with v
  | H : context [Qinv (?n # ?d)] |- _ =>
      let v := eval vm_compute in (Qinv (n # d)) in
      change (Qinv (n # d)) with v in H
  end.

Lemma Math_max_cases (a b : Q) :
  (a <= b /\ JS.Math_max a b == b) \/ (b <= a /\ JS.Math_max a b == a).
Proof.
  unfold JS.Math_max.
  destruct (Q.max_spec a b) as [[H E] | [H E]]; [ left | right ]; split; trivial.
  now apply Qlt_le_weak.
Qed.

Lemma Math_min_cases (a b : Q) :
  (a <= b /\ JS.Math_min a b == a) \/ (b <= a /\ JS.Math_min a b == b).
Proof.
  unfold JS.Math_min.
  destruct (Q.min_spec a b) as [[H E] | [H E]]; [ left | right ]; split; trivial.
  now apply Qlt_le_weak.
Qed.

(** Splits every [Math.max] and [Math.min] of the goal into its two cases. *)
Ltac q_minmax :=
  repeat match goal with
  | |- context [JS.Math_max ?a ?b] =>
      let H := fresh "Hmax" in let E := fresh "Emax" in
      destruct (Math_max_cases a b) as [[H E] | [H E]];
      generalize dependent (JS.Math_max a b); intros
  | |- context [JS.Math_min ?a ?b] =>
      let H := fresh "Hmin" in let E := fresh "Emin" in
      destruct (Math_min_cases a b) as [[H E] | [H E]];
      generalize dependent (JS.Math_min a b); intros
  end.

(** ** The score curves *)

Ltac curve_cases :=
  repeat match goal with
  | |- context [if ?c then _ else _] => destruct c eqn:?
  end;
  q_props; q_minmax; q_consts; lra.

Lemma sleep_in_range : Spec.in_range Scoring.calculateSleepScore.
Proof. intro x. unfold Scoring.calculateSleepScore. curve_cases. Qed.

Lemma sleep_monotone : Spec.monotone Scoring.calculateSleepScore.
Proof. intros x y Hxy. unfold Scoring.calculateSleepScore. curve_cases. Qed.

Lemma activity_in_range : Spec.in_range Scoring.calculatePhysicalActivityScore.
Proof. intro x. unfold Scoring.calculatePhysicalActivityScore. curve_cases. Qed.

Lemma activity_monotone : Spec.monotone Scoring.calculatePhysicalActivityScore.
Proof. intros x y Hxy. unfold Scoring.calculatePhysicalActivityScore. curve_cases. Qed.

Lemma social_in_range : Spec.in_range Scoring.calculateSocialInteractionScore.
Proof. intro x. unfold Scoring.calculateSocialInteractionScore. curve_cases. Qed.

Lemma social_monotone : Spec.monotone Scoring.calculateSocialInteractionScore.
Proof. intros x y Hxy. unfold Scoring.calculateSocialInteractionScore. curve_cases. Qed.

(** ** Rounding to one decimal *)

Lemma toFixed1_nonneg_close (x : Q) :
  - (1 # 20) <= JS.toFixed1_nonneg x - x <= 1 # 20.
Proof.
  unfold JS.toFixed1_nonneg.
  pose proof (Qfloor_le (x * 10 + (1 # 2))) as Hlo.
  pose proof (Qlt_floor (x * 10 + (1 # 2))) as Hhi.
  rewrite inject_Z_plus in Hhi.
  rewrite (Qmake_Qdiv (Qfloor (x * 10 + (1 # 2))) 10).
  change (inject_Z (Zpos 10)) with (10 # 1).
  generalize dependent (inject_Z (Qfloor (x * 10 + (1 # 2)))). intros n Hlo Hhi.
  change (inject_Z 1) with 1 in Hhi.
  q_consts. lra.
Qed.

Lemma toFixed1_close (x : Q) : Qabs (JS.toFixed1 x - x) <= 1 # 20.
Proof.
  apply Qabs_Qle_condition. unfold JS.toFixed1.
  destruct (x <? 0) eqn:Hneg.
  - pose proof (toFixed1_nonneg_close (- x)). lra.
  - apply toFixed1_nonneg_close.
Qed.

Lemma toFixed1_value (x : Q) (n : Z) :
  0 <= x ->
  inject_Z n <= x * 10 + (1 # 2) -> x * 10 + (1 # 2) < inject_Z n + 1 ->
  JS.toFixed1 x == n # 10.
Proof.
  intros Hpos Hlo Hhi. unfold JS.toFixed1.
  replace (x <? 0) with false by (symmetry; apply ltb_false; exact Hpos).
  unfold JS.toFixed1_nonneg.
  pose proof (Qfloor_le (x * 10 + (1 # 2))) as Hfloor.
  pose proof (Qlt_floor (x * 10 + (1 # 2))) as Hceil.
  assert (Hup : inject_Z (Qfloor (x * 10 + (1 # 2))) < inject_Z (n + 1))
    by (rewrite inject_Z_plus; change (inject_Z 1) with 1; lra).
  assert (Hdown : inject_Z n < inject_Z (Qfloor (x * 10 + (1 # 2)) + 1)) by lra.
  rewrite <- Zlt_Qlt in Hup, Hdown.
  replace (Qfloor (x * 10 + (1 # 2))) with n by lia. reflexivity.
Qed.

(** C4. For every input each of the three score curves returns a value in
    [0, 100] and is monotonic non-decreasing; each curve is 0 at 0, and the
    sleep, activity and social curves reach 100 at 8 hours, 30 minutes and
    60 minutes. *)
Theorem score_curves_range_monotone_anchors :
  (forall x : Q,
      0 <= Scoring.calculateSleepScore x <= 100
      /\ 0 <= Scoring.calculatePhysicalActivityScore x <= 100
      /\ 0 <= Scoring.calculateSocialInteractionScore x <= 100)
  /\ (forall x y : Q,
         x <= y ->
         Scoring.calculateSleepScore x <= Scoring.calculateSleepScore y
         /\ Scoring.calculatePhysicalActivityScore x
            <= Scoring.calculatePhysicalActivityScore y
         /\ Scoring.calculateSocialInteractionScore x
            <= Scoring.calculateSocialInteractionScore y)
  /\ (Scoring.calculateSleepScore 0 == 0
      /\ Scoring.calculatePhysicalActivityScore 0 == 0
      /\ Scoring.calculateSocialInteractionScore 0 == 0)
  /\ (Scoring.calculateSleepScore 8 == 100
      /\ Scoring.calculatePhysicalActivityScore 30 == 100
      /\ Scoring.calculateSocialInteractionScore 60 == 100).
Proof.
  split; [ | split; [ | split ] ].
  - intro x. split; [ | split ].
    + apply sleep_in_range.
    + apply activity_in_range.
    + apply social_in_range.
  - intros x y Hxy. split; [ | split ].
    + now apply sleep_monotone.
    + now apply activity_monotone.
    + now apply social_monotone.
  - repeat split; reflexivity.
  - repeat split; reflexivity.
Qed.

Lemma score_curves_witness :
  Scoring.calculateSleepScore 6.5 <= Scoring.calculateSleepScore 7.25
  /\ Scoring.calculatePhysicalActivityScore 6.5
     <= Scoring.calculatePhysicalActivityScore 7.25
  /\ Scoring.calculateSocialInteractionScore 6.5
     <= Scoring.calculateSocialInteractionScore 7.25.
Proof.
  apply (proj1 (proj2 score_curves_range_monotone_anchors) 6.5 7.25).
  vm_compute. discriminate.
Defined.

(** ** Smoothing *)

Lemma smoothing_formula (previous today : Q) :
  Scoring.calculateExponentiallyWeightedScore previous today Scoring.defaultAlpha
  == 0.3 * today + 0.7 * previous.
Proof.
  unfold Scoring.calculateExponentiallyWeightedScore, Scoring.defaultAlpha. lra.
Qed.



(** ** The overall score *)

Lemma insert_length {A : Type} (cmp : A -> A -> comparison) (x : A) (xs : list A) :
  List.length (ArraySort.insert cmp x xs) = S (List.length xs).
Proof.
  induction xs as [ | y ys IH ]; cbn; [ reflexivity | ].
  destruct (cmp x y); cbn; congruence.
Qed.

Lemma sort_length {A : Type} (cmp : A -> A -> comparison) (xs : list A) :
  List.length (ArraySort.sort cmp xs) = List.length xs.
Proof.
  induction xs as [ | x xs IH ]; cbn; [ reflexivity | ].
  unfold ArraySort.sort in IH. now rewrite insert_length, IH.
Qed.

Lemma updateScores_overall (now : Z) (metrics : WellbeingMetrics.t)
  (w : WellbeingContext.World) :
  exists current,
    WellbeingContext.currentScores
      (WellbeingContext.state (WellbeingContext.updateScores now metrics w))
    = Some current
    /\ WellbeingContext.storedScores
         (WellbeingContext.storage (WellbeingContext.updateScores now metrics w))
       = Some current
    /\ WellbeingScore.overall current == Spec.dimensionMean current.
Proof.
  eexists. split; [ reflexivity | ]. split; reflexivity.
Qed.

Lemma sample_overall (Math_sin Math_cos : Q -> Q) (tz : Date.TimeZone)
  (today : Z) (days : nat) :
  (0 < days)%nat ->
  exists daily current,
    Scoring.generateSampleWellbeingData Math_sin Math_cos tz today days
    = Some (daily, current)
    /\ WellbeingScore.overall current = JS.toFixed1 (Spec.dimensionMean current).
Proof.
  intro Hdays. unfold Scoring.generateSampleWellbeingData.
  destruct (ArraySort.sort Scoring.newestFirst
              (map (Scoring.sampleDay Math_sin Math_cos tz today) (seq 0 days)))
    as [ | latest rest ] eqn:Hsorted.
  - apply (f_equal (@List.length _)) in Hsorted.
    rewrite sort_length, length_map, length_seq in Hsorted.
    cbn in Hsorted. lia.
  - eexists. eexists. split; reflexivity.
Qed.

(** C1, as the code has it. Every current score produced by [updateScores]
    has [overall] equal to the arithmetic mean of its three dimensions, and
    that score is the one stored; every current score produced by
    [generateSampleWellbeingData] has [overall] equal to that mean rounded to
    one decimal, hence within 0.05 of it. *)
Theorem overall_mean_exact_or_rounded :
  (forall (now : Z) (metrics : WellbeingMetrics.t) (w : WellbeingContext.World),
      exists current,
        WellbeingContext.currentScores
          (WellbeingContext.state (WellbeingContext.updateScores now metrics w))
        = Some current
        /\ WellbeingContext.storedScores
             (WellbeingContext.storage
                (WellbeingContext.updateScores now metrics w))
           = Some current
        /\ WellbeingScore.overall current == Spec.dimensionMean current)
  /\ (forall (Math_sin Math_cos : Q -> Q) (tz : Date.TimeZone) (today : Z) (days : nat),
         (0 < days)%nat ->
         exists daily current,
           Scoring.generateSampleWellbeingData Math_sin Math_cos tz today days
           = Some (daily, current)
           /\ WellbeingScore.overall current
              = JS.toFixed1 (Spec.dimensionMean current)
           /\ Qabs (WellbeingScore.overall current - Spec.dimensionMean current)
              <= 1 # 20).
Proof.
  split.
  - apply updateScores_overall.
  - intros Math_sin Math_cos tz today days Hdays.
    destruct (sample_overall Math_sin Math_cos tz today days Hdays)
      as (daily & current & Hgen & Hoverall).
    exists daily, current. split; [ exact Hgen | ]. split; [ exact Hoverall | ].
    rewrite Hoverall. apply toFixed1_close.
Qed.

Lemma overall_mean_witness :
  exists daily current,
    Scoring.generateSampleWellbeingData Approx.sin Approx.cos Examples.utc Examples.now 10
    = Some (daily, current)
    /\ WellbeingScore.overall current = JS.toFixed1 (Spec.dimensionMean current)
    /\ Qabs (WellbeingScore.overall current - Spec.dimensionMean current)
       <= 1 # 20.
Proof.
  apply (proj2 overall_mean_exact_or_rounded
           Approx.sin Approx.cos Examples.utc Examples.now 10%nat).
  lia.
Defined.


(** ** The daily score array *)

Lemma date_order_trans (a b c : string) :
  String.compare a b <> Gt -> String.compare b c <> Gt -> String.compare a c <> Gt.
Proof.
  intros Hab Hbc.
  destruct (String.compare a b) eqn:Eab; [ | | congruence ].
  - apply String_as_OT.cmp_eq in Eab. now subst.
  - destruct (String.compare b c) eqn:Ebc; [ | | congruence ].
    + apply String_as_OT.cmp_eq in Ebc. subst. congruence.
    + apply String_as_OT.cmp_lt in Eab, Ebc.
      pose proof (String_as_OT.lt_trans _ _ _ Eab Ebc) as Hac.
      apply String_as_OT.cmp_lt in Hac. unfold String_as_OT.cmp in Hac. congruence.
Qed.

Lemma compare_Gt_Lt (a b : string) :
  String.compare a b = Gt <-> String.compare b a = Lt.
Proof.
  rewrite (String.compare_antisym b a).
  destruct (String.compare a b); cbn; split; congruence.
Qed.

Lemma compare_refl (a : string) : String.compare a a = Eq.
Proof. now apply String_as_OT.cmp_eq. Qed.

Lemma notOlder_trans (a b c : DailyWellbeingScores.t) :
  Spec.notOlder a b -> Spec.notOlder b c -> Spec.notOlder a c.
Proof. unfold Spec.notOlder. intros Hab Hbc. eapply date_order_trans; eassumption. Qed.

Lemma newer_notOlder (a b : DailyWellbeingScores.t) :
  Spec.newer a b -> Spec.notOlder a b.
Proof. unfold Spec.newer, Spec.notOlder. congruence. Qed.

Lemma newer_dates_differ (a b : DailyWellbeingScores.t) :
  Spec.newer a b -> DailyWellbeingScores.date b <> DailyWellbeingScores.date a.
Proof.
  unfold Spec.newer. intros Hlt Heq. rewrite Heq, compare_refl in Hlt. discriminate.
Qed.

Lemma insert_perm {A : Type} (cmp : A -> A -> comparison) (x : A) (xs : list A) :
  Permutation (ArraySort.insert cmp x xs) (x :: xs).
Proof.
  induction xs as [ | y ys IH ]; cbn; [ reflexivity | ].
  destruct (cmp x y); try reflexivity.
  rewrite IH. apply perm_swap.
Qed.

Lemma sort_perm {A : Type} (cmp : A -> A -> comparison) (xs : list A) :
  Permutation (ArraySort.sort cmp xs) xs.
Proof.
  induction xs as [ | x xs IH ]; cbn; [ reflexivity | ].
  rewrite insert_perm. now constructor.
Qed.

Lemma insert_sorted (x : DailyWellbeingScores.t) (xs : list DailyWellbeingScores.t) :
  StronglySorted Spec.notOlder xs ->
  StronglySorted Spec.notOlder (ArraySort.insert Scoring.newestFirst x xs).
Proof.
  induction 1 as [ | y ys Hsorted IH Hy ]; cbn.
  - repeat constructor.
  - destruct (Scoring.newestFirst x y) eqn:Hcmp.
    + constructor; [ now constructor | ].
      assert (Hxy : Spec.notOlder x y)
        by (unfold Spec.notOlder; unfold Scoring.newestFirst in Hcmp; congruence).
      constructor; [ exact Hxy | ].
      eapply Forall_impl; [ | exact Hy ].
      intros z Hyz. eapply notOlder_trans; eassumption.
    + constructor; [ now constructor | ].
      assert (Hxy : Spec.notOlder x y)
        by (unfold Spec.notOlder; unfold Scoring.newestFirst in Hcmp; congruence).
      constructor; [ exact Hxy | ].
      eapply Forall_impl; [ | exact Hy ].
      intros z Hyz. eapply notOlder_trans; eassumption.
    + constructor; [ exact IH | ].
      eapply Permutation_Forall; [ symmetry; apply insert_perm | ].
      constructor; [ | exact Hy ].
      unfold Scoring.newestFirst in Hcmp. apply compare_Gt_Lt in Hcmp.
      unfold Spec.notOlder. congruence.
Qed.

Lemma sort_sorted (xs : list DailyWellbeingScores.t) :
  StronglySorted Spec.notOlder (ArraySort.sort Scoring.newestFirst xs).
Proof.
  induction xs as [ | x xs IH ]; cbn; [ constructor | now apply insert_sorted ].
Qed.

(** An array that already is newest-first is left as it is. *)
Lemma insert_front (x : DailyWellbeingScores.t) (xs : list DailyWellbeingScores.t) :
  Forall (Spec.notOlder x) xs ->
  ArraySort.insert Scoring.newestFirst x xs = x :: xs.
Proof.
  intros Hx. destruct xs as [ | y ys ]; cbn; [ reflexivity | ].
  inversion Hx as [ | ? ? Hxy _ ]; subst.
  unfold Spec.notOlder in Hxy. unfold Scoring.newestFirst.
  destruct (String.compare (DailyWellbeingScores.date y) (DailyWellbeingScores.date x));
    congruence.
Qed.

(** Sorting a newest-first array with a still newer entry pushed at its end
    moves that entry to the front. *)
Lemma sort_pushed_newest (today : DailyWellbeingScores.t)
  (xs : list DailyWellbeingScores.t) :
  StronglySorted Spec.notOlder xs ->
  Forall (Spec.newer today) xs ->
  ArraySort.sort Scoring.newestFirst (xs ++ [today]) = today :: xs.
Proof.
  induction 1 as [ | x xs Hsorted IH Hx ]; intros Hnew; cbn; [ reflexivity | ].
  inversion Hnew as [ | ? ? Htoday Hrest ]; subst.
  unfold ArraySort.sort in IH. rewrite (IH Hrest). cbn.
  unfold Spec.newer in Htoday. apply compare_Gt_Lt in Htoday.
  unfold Scoring.newestFirst at 1. rewrite Htoday.
  now rewrite insert_front.
Qed.

Lemma findIndex_None {A : Type} (p : A -> bool) (xs : list A) :
  WellbeingContext.findIndex p xs = None <-> Forall (fun x => p x = false) xs.
Proof.
  induction xs as [ | x xs IH ]; cbn.
  - split; [ constructor | reflexivity ].
  - destruct (p x) eqn:Hp.
    + split; [ discriminate | ]. intros H. inversion H; congruence.
    + destruct (WellbeingContext.findIndex p xs) as [ i | ]; cbn.
      * split; [ discriminate | ]. intros H. inversion H as [ | ? ? _ Hxs ]; subst.
        apply IH in Hxs. discriminate.
      * split; [ | reflexivity ]. intros _. constructor; [ exact Hp | now apply IH ].
Qed.

Lemma assign_found_dates (today : DailyWellbeingScores.t)
  (xs : list DailyWellbeingScores.t) (i : nat) :
  WellbeingContext.findIndex
    (fun d => String.eqb (DailyWellbeingScores.date d)
                         (DailyWellbeingScores.date today)) xs = Some i ->
  Spec.dates (WellbeingContext.assign i today xs) = Spec.dates xs
  /\ List.length (WellbeingContext.assign i today xs) = List.length xs.
Proof.
  revert i. induction xs as [ | x xs IH ]; intros i; cbn; [ discriminate | ].
  destruct (String.eqb_spec (DailyWellbeingScores.date x)
                            (DailyWellbeingScores.date today)) as [ Heq | Hneq ].
  - intros [= <-]. unfold Spec.dates. cbn. now rewrite Heq.
  - destruct (WellbeingContext.findIndex _ xs) as [ j | ]; cbn; [ | discriminate ].
    intros [= <-]. destruct (IH j eq_refl) as [Hd Hl].
    unfold Spec.dates in *. cbn. now rewrite Hd, Hl.
Qed.

(** What a call of [updateScores] keeps of the daily array: it is sorted
    newest-first, dates stay unique, and an array of at most 30 entries stays
    so. *)
Lemma upsertDaily_sorted_unique_capped (baseline : list DailyWellbeingScores.t)
  (today : DailyWellbeingScores.t) :
  StronglySorted Spec.notOlder (WellbeingContext.upsertDaily baseline today)
  /\ (NoDup (Spec.dates baseline) ->
      NoDup (Spec.dates (WellbeingContext.upsertDaily baseline today)))
  /\ ((List.length baseline <= 30)%nat ->
      (List.length (WellbeingContext.upsertDaily baseline today) <= 30)%nat).
Proof.
  unfold WellbeingContext.upsertDaily. split; [ apply sort_sorted | ].
  destruct (WellbeingContext.findIndex _ baseline) as [ i | ] eqn:Hfind.
  - destruct (assign_found_dates today baseline i Hfind) as [Hdates Hlen].
    split.
    + intros Hnodup. unfold Spec.dates.
      eapply Permutation_NoDup;
        [ symmetry; apply Permutation_map, sort_perm | ].
      fold (Spec.dates (WellbeingContext.assign i today baseline)).
      now rewrite Hdates.
    + intros Hcap. now rewrite sort_length, Hlen.
  - apply findIndex_None in Hfind.
    assert (Hfresh : ~ In (DailyWellbeingScores.date today) (Spec.dates baseline)).
    { unfold Spec.dates. rewrite in_map_iff. intros (d & Hd & Hin).
      rewrite Forall_forall in Hfind. specialize (Hfind d Hin). cbn in Hfind.
      rewrite Hd, String.eqb_refl in Hfind. discriminate. }
    assert (Hpushed : NoDup (Spec.dates baseline) ->
                      NoDup (Spec.dates (baseline ++ [today]))).
    { intros Hnodup. unfold Spec.dates. rewrite map_app. cbn.
      eapply Permutation_NoDup; [ apply Permutation_cons_append | ].
      now constructor. }
    split.
    + intros Hnodup. specialize (Hpushed Hnodup). unfold Spec.dates.
      eapply Permutation_NoDup;
        [ symmetry; apply Permutation_map, sort_perm | ].
      destruct (30 <? List.length (baseline ++ [today]))%nat; [ | exact Hpushed ].
      unfold WellbeingContext.shift.
      destruct (baseline ++ [today]) as [ | d ds ]; cbn; [ constructor | ].
      unfold Spec.dates in Hpushed. cbn in Hpushed. now inversion Hpushed.
    + intros Hcap. rewrite sort_length.
      destruct (30 <? List.length (baseline ++ [today]))%nat eqn:Hover.
      * unfold WellbeingContext.shift.
        pose proof (length_app baseline [today]) as Hlen. cbn in Hlen.
        destruct (baseline ++ [today]) as [ | d ds ]; cbn in *; lia.
      * apply Nat.ltb_ge in Hover. exact Hover.
Qed.

(** An entry that is not older than any other stays at the front. *)
Lemma sort_head (x : DailyWellbeingScores.t) (xs : list DailyWellbeingScores.t) :
  Forall (Spec.notOlder x) xs ->
  ArraySort.sort Scoring.newestFirst (x :: xs)
  = x :: ArraySort.sort Scoring.newestFirst xs.
Proof.
  intros Hx. cbn. apply insert_front.
  eapply Permutation_Forall; [ symmetry; apply sort_perm | exact Hx ].
Qed.

(** ** The sample generated on 2026-11-03 *)

(** Whatever [Math.sin] and [Math.cos] return to three decimals, the latest
    day of the ten-day sample scores 89.5, 87.2 and 83.8, so that the mean is
    521/6 and [overall] is 86.8. *)
Lemma sample_latest_scores (Math_sin Math_cos : Q -> Q) :
  0.564 <= Math_sin 0.6 <= 0.565 ->
  0.921 <= Math_cos 0.4 <= 0.922 ->
  0.985 <= Math_sin 1.4 <= 0.986 ->
  exists current,
    option_map snd
      (Scoring.generateSampleWellbeingData Math_sin Math_cos Examples.utc Examples.now 10)
    = Some current
    /\ WellbeingScore.sleep current == 89.5
    /\ WellbeingScore.physicalActivity current == 87.2
    /\ WellbeingScore.socialInteraction current == 83.8
    /\ WellbeingScore.overall current == 86.8
    /\ Spec.dimensionMean current == 521 # 6.
Proof.
  intros Hsleep Hactive Hsocial.
  unfold Scoring.generateSampleWellbeingData.
  change (seq 0 10) with (0%nat :: seq 1 9). rewrite map_cons, sort_head.
  2:{ repeat constructor;
      unfold Spec.notOlder, Scoring.sampleDay; cbn [DailyWellbeingScores.date];
      vm_compute; discriminate. }
  cbn [option_map snd]. eexists. split; [ reflexivity | ].
  unfold Spec.dimensionMean, Scoring.sampleDay.
  cbn [WellbeingScore.sleep WellbeingScore.physicalActivity
       WellbeingScore.socialInteraction WellbeingScore.overall].
  cbn [DailyWellbeingScores.sleep DailyWellbeingScores.physicalActivity
       DailyWellbeingScores.socialInteraction].
  change ((inject_Z (Z.of_nat 0) + 1) * 0.6) with 0.6.
  change ((inject_Z (Z.of_nat 0) + 1) * 0.4) with 0.4.
  change ((inject_Z (Z.of_nat 0) + 2) * 0.7) with 1.4.
  assert (Esleep : JS.toFixed1 (Scoring.clamp (85 + Math_sin 0.6 * 8) 70 98) == 89.5).
  { apply (toFixed1_value _ 895);
      unfold Scoring.clamp; q_minmax; change (inject_Z 895) with 895; lra. }
  assert (Eactive : JS.toFixed1 (Scoring.clamp (78 + Math_cos 0.4 * 10) 60 95) == 87.2).
  { apply (toFixed1_value _ 872);
      unfold Scoring.clamp; q_minmax; change (inject_Z 872) with 872; lra. }
  assert (Esocial : JS.toFixed1 (Scoring.clamp (72 + Math_sin 1.4 * 12) 55 92) == 83.8).
  { apply (toFixed1_value _ 838);
      unfold Scoring.clamp; q_minmax; change (inject_Z 838) with 838; lra. }
  split; [ exact Esleep | ]. split; [ exact Eactive | ]. split; [ exact Esocial | ].
  unfold Scoring.calculateOverallScore.
  generalize dependent (JS.toFixed1 (Scoring.clamp (85 + Math_sin 0.6 * 8) 70 98)).
  generalize dependent (JS.toFixed1 (Scoring.clamp (78 + Math_cos 0.4 * 10) 60 95)).
  generalize dependent (JS.toFixed1 (Scoring.clamp (72 + Math_sin 1.4 * 12) 55 92)).
  intros social Esocial active Eactive sleep Esleep.
  split.
  - apply (toFixed1_value _ 868);
      change (inject_Z 868) with 868; q_consts; lra.
  - q_consts. lra.
Qed.

(** The ten-day sample generated on 2026-11-03, with sine and cosine
    evaluated by their Maclaurin polynomials: the latest day scores 89.5,
    87.2 and 83.8, whose mean is 521/6 = 86.8333..., and [overall] is 86.8. *)
Lemma sample_overall_is_not_the_mean :
  exists current,
    option_map snd
      (Scoring.generateSampleWellbeingData
         Approx.sin Approx.cos Examples.utc Examples.now 10)
    = Some current
    /\ WellbeingScore.sleep current == 89.5
    /\ WellbeingScore.physicalActivity current == 87.2
    /\ WellbeingScore.socialInteraction current == 83.8
    /\ WellbeingScore.overall current == 86.8
    /\ Spec.dimensionMean current == 521 # 6
    /\ WellbeingScore.overall current < Spec.dimensionMean current.
Proof.
  destruct (sample_latest_scores Approx.sin Approx.cos)
    as (current & Hgen & Hsleep & Hactive & Hsocial & Hoverall & Hmean);
    try (vm_compute; split; discriminate).
  exists current. repeat (split; [ assumption | ]).
  rewrite Hoverall, Hmean. reflexivity.
Qed.

Lemma updateScores_dailyScores (now : Z) (metrics : WellbeingMetrics.t)
  (w : WellbeingContext.World) :
  WellbeingContext.dailyScores
    (WellbeingContext.state (WellbeingContext.updateScores now metrics w))
  = WellbeingContext.upsertDaily
      (if WellbeingContext.isUsingSampleData (WellbeingContext.state w)
       then [] else WellbeingContext.dailyScores (WellbeingContext.state w))
      (Scoring.calculateDailyScores now metrics).
Proof. reflexivity. Qed.

Lemma strictly_sorted_sorted (xs : list DailyWellbeingScores.t) :
  StronglySorted Spec.newer xs -> StronglySorted Spec.notOlder xs.
Proof.
  induction 1 as [ | y ys _ IH Hy ]; constructor; [ exact IH | ].
  eapply Forall_impl; [ | exact Hy ]. intros z. apply newer_notOlder.
Qed.

Lemma upsertDaily_at_cap (newest today : DailyWellbeingScores.t)
  (rest : list DailyWellbeingScores.t) :
  List.length (newest :: rest) = 30%nat ->
  StronglySorted Spec.newer (newest :: rest) ->
  Forall (Spec.newer today) (newest :: rest) ->
  WellbeingContext.upsertDaily (newest :: rest) today = today :: rest.
Proof.
  intros Hlen Hsorted Hnew. unfold WellbeingContext.upsertDaily.
  assert (Hfind : WellbeingContext.findIndex
                    (fun d => String.eqb (DailyWellbeingScores.date d)
                                         (DailyWellbeingScores.date today))
                    (newest :: rest) = None).
  { apply findIndex_None. eapply Forall_impl; [ | exact Hnew ].
    intros d Hd. apply String.eqb_neq. now apply newer_dates_differ. }
  rewrite Hfind.
  replace (30 <? List.length ((newest :: rest) ++ [today]))%nat with true
    by (symmetry; apply Nat.ltb_lt; rewrite length_app, Hlen; cbn; lia).
  change (WellbeingContext.shift ((newest :: rest) ++ [today]))
    with (rest ++ [today]).
  inversion Hsorted as [ | ? ? Hrest _ ]; subst.
  inversion Hnew as [ | ? ? _ Hnewrest ]; subst.
  apply sort_pushed_newest; [ now apply strictly_sorted_sorted | exact Hnewrest ].
Qed.

(** C2, at the cap. With 30 stored days, newest first, and a new day later
    than all of them, [updateScores] pushes the new day, removes the first
    entry of the array, which is the newest stored day, and sorts: the newest
    stored day is lost and the oldest one is kept. *)
Theorem cap_drops_newest_stored_day :
  forall (now : Z) (metrics : WellbeingMetrics.t) (w : WellbeingContext.World)
         (newest : DailyWellbeingScores.t) (rest : list DailyWellbeingScores.t),
    WellbeingContext.isUsingSampleData (WellbeingContext.state w) = false ->
    WellbeingContext.dailyScores (WellbeingContext.state w) = newest :: rest ->
    List.length (newest :: rest) = 30%nat ->
    StronglySorted Spec.newer (newest :: rest) ->
    Forall (Spec.newer (Scoring.calculateDailyScores now metrics)) (newest :: rest) ->
    let updated :=
      WellbeingContext.dailyScores
        (WellbeingContext.state (WellbeingContext.updateScores now metrics w)) in
    updated = Scoring.calculateDailyScores now metrics :: rest
    /\ ~ In (DailyWellbeingScores.date newest) (Spec.dates updated).
Proof.
  intros now metrics w newest rest Hreal Hdaily Hlen Hsorted Hnew updated.
  assert (Hupdated : updated = Scoring.calculateDailyScores now metrics :: rest).
  { subst updated. rewrite updateScores_dailyScores, Hreal, Hdaily.
    now apply upsertDaily_at_cap. }
  split; [ exact Hupdated | ].
  rewrite Hupdated. unfold Spec.dates.
  rewrite map_cons. intros [Htoday | Hin].
  - inversion Hnew as [ | ? ? Hnewest _ ]; subst.
    apply newer_dates_differ in Hnewest. congruence.
  - inversion Hsorted as [ | ? ? _ Hhead ]; subst.
    apply in_map_iff in Hin. destruct Hin as (d & Hd & Hin).
    rewrite Forall_forall in Hhead. apply Hhead in Hin.
    apply newer_dates_differ in Hin. congruence.
Qed.

Lemma cap_drops_newest_witness :
  let updated :=
    WellbeingContext.dailyScores
      (WellbeingContext.state
         (WellbeingContext.updateScores Examples.now Examples.metrics80
                                        Examples.world30)) in
  updated
  = Scoring.calculateDailyScores Examples.now Examples.metrics80
      :: map Examples.dayBefore (seq 2 29)
  /\ ~ In "2026-11-02"%string (Spec.dates updated).
Proof.
  apply (cap_drops_newest_stored_day Examples.now Examples.metrics80
           Examples.world30 (Examples.dayBefore 1) (map Examples.dayBefore (seq 2 29))).
  - reflexivity.
  - reflexivity.
  - reflexivity.
  - repeat constructor.
  - repeat constructor.
Defined.

(** ** The periodic update *)

(** C5. A run of the periodic update whose three daily metrics are all zero
    (none of them strictly positive) leaves the scores, the local storage and
    the remote tables as they were; a run with a strictly positive metric is
    the call of [updateScores] on the metrics, which stores the new current
    score. *)
Theorem update_committed_iff_positive_metric :
  forall (tz : Date.TimeZone) (now : Z) (h : WellbeingDataCollection.Hook),
    let metrics :=
      WellbeingAggregator.calculateTodayMetrics
        tz now (WellbeingDataCollection.aggregator h) in
    let after := WellbeingDataCollection.updateWellbeingScores tz now h in
    (WellbeingMetrics.sleepHours metrics <= 0
     /\ WellbeingMetrics.physicalActivityMinutes metrics <= 0
     /\ WellbeingMetrics.socialInteractionMinutes metrics <= 0 ->
     after = h)
    /\ (0 < WellbeingMetrics.sleepHours metrics
        \/ 0 < WellbeingMetrics.physicalActivityMinutes metrics
        \/ 0 < WellbeingMetrics.socialInteractionMinutes metrics ->
        WellbeingDataCollection.wellbeing after
        = WellbeingContext.updateScores
            now metrics (WellbeingDataCollection.wellbeing h)
        /\ WellbeingContext.storedScores
             (WellbeingContext.storage (WellbeingDataCollection.wellbeing after))
           = WellbeingContext.currentScores
               (WellbeingContext.state (WellbeingDataCollection.wellbeing after))
        /\ WellbeingContext.storedScores
             (WellbeingContext.storage (WellbeingDataCollection.wellbeing after))
           <> None).
Proof.
  intros tz now h metrics after. subst after.
  unfold WellbeingDataCollection.updateWellbeingScores. fold metrics.
  destruct (WellbeingMetrics.sleepHours metrics >? 0) eqn:Hsleep;
    destruct (WellbeingMetrics.physicalActivityMinutes metrics >? 0) eqn:Hactive;
    destruct (WellbeingMetrics.socialInteractionMinutes metrics >? 0) eqn:Hsocial;
    q_props; cbn [orb];
    (split;
     [ intros (H1 & H2 & H3); try reflexivity; exfalso; lra
     | intros [H | [H | H]];
       try (split; [ reflexivity | split; [ reflexivity | discriminate ] ]);
       exfalso; lra ]).
Qed.

Lemma update_discarded_witness :
  WellbeingDataCollection.updateWellbeingScores
    Examples.utc Examples.now Examples.idleHook
  = Examples.idleHook.
Proof.
  apply (proj1 (update_committed_iff_positive_metric
                  Examples.utc Examples.now Examples.idleHook)).
  vm_compute. repeat split; discriminate.
Defined.

(** ** Sleep hours *)

(** C6, as the code has it. For two events that both lie in the queried day,
    the first one labelled sleeping with a confidence of at least 70 at an
    hour from 21 to 23 or from 0 to 8, the sleep hours are the signed gap from
    the first timestamp to the second; an event outside the queried day is
    filtered out first, and a single remaining event gives 0. *)
Theorem sleep_hours_of_two_events :
  forall (tz : Date.TimeZone) (date : Z) (current next : ActivityData.t),
    ActivityData.activity current = sleeping ->
    70 <= ActivityData.confidence current ->
    (21 <= Date.getHours tz (ActivityData.timestamp current)
     \/ Date.getHours tz (ActivityData.timestamp current) <= 8)%Z ->
    Scoring.inDay tz date (ActivityData.timestamp current) = true ->
    (Scoring.inDay tz date (ActivityData.timestamp next) = true ->
     Scoring.calculateSleepHoursFromActivities tz [current; next] date
     == inject_Z (ActivityData.timestamp next - ActivityData.timestamp current)
        / 3600000)
    /\ (Scoring.inDay tz date (ActivityData.timestamp next) = false ->
        Scoring.calculateSleepHoursFromActivities tz [current; next] date == 0).
Proof.
  intros tz date current next Hlabel Hconf Hnight Hcur.
  unfold Scoring.calculateSleepHoursFromActivities.
  split; intros Hnext; cbn [filter]; rewrite Hcur, Hnext; cbn [Scoring.sleepLoop].
  - rewrite Hlabel. cbn [ActivityType_eqb andb].
    replace (ActivityData.confidence current >=? 0.7 * 100) with true
      by (symmetry; apply geb_true; lra).
    replace ((Date.getHours tz (ActivityData.timestamp current) >=? 21)
             || (Date.getHours tz (ActivityData.timestamp current) <=? 8))%Z
      with true
      by (symmetry; apply orb_true_iff; rewrite Z.geb_le, Z.leb_le; exact Hnight).
    unfold Scoring.secondsBetween.
    generalize (inject_Z (ActivityData.timestamp next - ActivityData.timestamp current)).
    intros gap. q_consts. lra.
  - q_consts. lra.
Qed.

Lemma sleep_hours_witness :
  Scoring.calculateSleepHoursFromActivities
    Examples.utc [Examples.sleepingAt 1; Examples.walkingAt 8] (Examples.at_ 12)
  == inject_Z (Examples.at_ 8 - Examples.at_ 1) / 3600000.
Proof.
  apply (proj1 (sleep_hours_of_two_events
                  Examples.utc (Examples.at_ 12)
                  (Examples.sleepingAt 1) (Examples.walkingAt 8)
                  eq_refl ltac:(vm_compute; discriminate)
                  ltac:(right; vm_compute; discriminate) eq_refl)).
  reflexivity.
Defined.

(** The events (23:00, sleeping, 90) and (06:00, walking, 80): when both lie
    in the queried day the result is -17 hours; when 06:00 is the next
    morning the result is 0 for either day. *)
Lemma sleep_23_to_06_is_not_7 :
  Scoring.calculateSleepHoursFromActivities
    Examples.utc [Examples.sleepingAt 23; Examples.walkingAt 6] (Examples.at_ 12)
  == - (17)
  /\ Scoring.calculateSleepHoursFromActivities
       Examples.utc [Examples.sleepingAt 23; Examples.walkingAt 30] (Examples.at_ 12)
     == 0
  /\ Scoring.calculateSleepHoursFromActivities
       Examples.utc [Examples.sleepingAt 23; Examples.walkingAt 30] (Examples.at_ 36)
     == 0.
Proof. repeat split; vm_compute; reflexivity. Qed.

(** ** Retention of the event histories *)

Lemma addActivity_retained (tz : Date.TimeZone) (now : Z)
  (activity a : ActivityData.t) (this : WellbeingAggregator.t) :
  In a (WellbeingAggregator.activityHistory
          (WellbeingAggregator.addActivity tz now activity this)) ->
  Spec.retained tz now (ActivityData.timestamp a).
Proof.
  unfold WellbeingAggregator.addActivity.
  cbn [WellbeingAggregator.activityHistory]. intros Hin.
  apply filter_In in Hin. destruct Hin as [_ Hfresh].
  unfold Spec.retained. now apply Z.geb_le.
Qed.

Lemma addConversation_retained (tz : Date.TimeZone) (now : Z)
  (conversation c : ConversationData.t) (this : WellbeingAggregator.t) :
  In c (WellbeingAggregator.conversationHistory
          (WellbeingAggregator.addConversation tz now conversation this)) ->
  Spec.retained tz now (ConversationData.timestamp c).
Proof.
  unfold WellbeingAggregator.addConversation.
  cbn [WellbeingAggregator.conversationHistory]. intros Hin.
  apply filter_In in Hin. destruct Hin as [_ Hfresh].
  unfold Spec.retained. now apply Z.geb_le.
Qed.

(** Without clock changes, [setDate(getDate() - n)] goes back by [n] times
    24 hours. *)
Lemma minusDays_fixed (offset t n : Z) :
  Date.minusDays (Date.fixed offset) t n = (t - n * Date.msPerDay)%Z.
Proof.
  unfold Date.minusDays, Date.UTC, Date.LocalTime, Date.fixed.
  cbn [Date.LocalTZA]. lia.
Qed.

(** C8, as the code has it. After any sequence of calls on an aggregator, a
    read finds in the activity history no entry from before the cutoff of the
    last [addActivity], and in the conversation history no entry from before
    the cutoff of the last [addConversation]: the histories are pruned by the
    adds, each its own, and not by the reads. The cutoff of a call is the
    instant at which the local clock showed the time of the call seven local
    days earlier; on a host without clock changes that is 7 times 24 hours
    before the call. *)
Theorem histories_pruned_on_add :
  forall (tz : Date.TimeZone) (cs : list Spec.Call)
         (start : WellbeingAggregator.t),
    (forall (now : Z) (a : ActivityData.t),
        Spec.lastAddActivity cs = Some now ->
        In a (WellbeingAggregator.getActivityHistory (Spec.calls tz cs start)) ->
        Spec.retained tz now (ActivityData.timestamp a))
    /\ (forall (now : Z) (c : ConversationData.t),
           Spec.lastAddConversation cs = Some now ->
           In c (WellbeingAggregator.getConversationHistory
                   (Spec.calls tz cs start)) ->
           Spec.retained tz now (ConversationData.timestamp c))
    /\ (forall offset now timestamp : Z,
           Spec.retained (Date.fixed offset) now timestamp
           <-> (now - 7 * Date.msPerDay <= timestamp)%Z).
Proof.
  intros tz cs start.
  assert (Hfixed : forall offset now timestamp : Z,
             Spec.retained (Date.fixed offset) now timestamp
             <-> (now - 7 * Date.msPerDay <= timestamp)%Z).
  { intros offset now timestamp. unfold Spec.retained.
    rewrite minusDays_fixed. reflexivity. }
  unfold WellbeingAggregator.getActivityHistory,
    WellbeingAggregator.getConversationHistory.
  induction cs as [ | c cs IH ] using rev_ind.
  - split; [ | split; [ | exact Hfixed ] ]; intros now x Hlast; discriminate Hlast.
  - unfold Spec.calls, Spec.lastAddActivity, Spec.lastAddConversation in *.
    rewrite !fold_left_app. cbn [fold_left].
    destruct IH as (IHa & IHc & _).
    destruct c as [ t activity | t conv | | ]; cbn [Spec.call].
    + split; [ | split; [ | exact Hfixed ] ].
      * intros now a [= <-]. apply addActivity_retained.
      * exact IHc.
    + split; [ | split; [ | exact Hfixed ] ].
      * exact IHa.
      * intros now c [= <-]. apply addConversation_retained.
    + split; [ | split; [ | exact Hfixed ] ]; intros now x _ [].
    + split; [ | split; [ | exact Hfixed ] ]; assumption.
Qed.

(** In New York at 07:00 on 2026-11-03, two days after the clocks went back,
    the cutoff is 07:00 daylight time on 2026-10-27, which is 7 days and one
    hour earlier: the add drops the entry that is 8 days old and keeps the
    one that is 7 days and 30 minutes old. *)
Lemma histories_pruned_witness :
  let cs :=
    [Spec.AddActivity (ActivityData.timestamp Examples.eightDaysOld)
                      Examples.eightDaysOld;
     Spec.AddActivity (ActivityData.timestamp Examples.weekOld) Examples.weekOld;
     Spec.AddActivity (Examples.at_ 12) (Examples.walkingAt 12);
     Spec.Read] in
  WellbeingAggregator.getActivityHistory
    (Spec.calls Examples.newYork cs WellbeingAggregator.create)
  = [Examples.weekOld; Examples.walkingAt 12]
  /\ Spec.retained Examples.newYork (Examples.at_ 12)
                   (ActivityData.timestamp Examples.weekOld)
  /\ (ActivityData.timestamp Examples.weekOld
      < Examples.at_ 12 - 7 * Date.msPerDay)%Z.
Proof.
  split; [ vm_compute; reflexivity | ].
  split; [ | vm_compute; reflexivity ].
  apply (proj1 (histories_pruned_on_add
                  Examples.newYork
                  [Spec.AddActivity (ActivityData.timestamp Examples.eightDaysOld)
                                    Examples.eightDaysOld;
                   Spec.AddActivity (ActivityData.timestamp Examples.weekOld)
                                    Examples.weekOld;
                   Spec.AddActivity (Examples.at_ 12) (Examples.walkingAt 12);
                   Spec.Read]
                  WellbeingAggregator.create)
           (Examples.at_ 12) Examples.weekOld).
  - reflexivity.
  - vm_compute. left. reflexivity.
Defined.

(** An activity recorded at 23:00 on 2026-11-03 is still returned by a read
    eight days later, when it is older than the retention window. *)
Lemma stale_entry_at_read :
  let readTime := (Examples.at_ 23 + 8 * Date.msPerDay)%Z in
  exists a,
    In a (WellbeingAggregator.getActivityHistory Examples.oneActivity)
    /\ (ActivityData.timestamp a
        < Date.minusDays Examples.utc readTime WellbeingAggregator.MAX_HISTORY_DAYS)%Z.
Proof.
  exists (Examples.sleepingAt 23).
  split; [ vm_compute; left; reflexivity | vm_compute; reflexivity ].
Qed.

(** ** The activity classifier *)

(** The label decides what happened to the inactivity counter. *)
Lemma classifyRules_counter
  (accelStd speedMean deviationFromGravity gpsAccuracy : Q) (inactive : Z) :
  let '(activity, _, inactive') :=
    StatusScreen.classifyRules accelStd speedMean deviationFromGravity
                               gpsAccuracy inactive in
  match activity with
  | stationary => inactive' = (inactive + 1)%Z
  | sleeping => inactive' = inactive
  | walking | running | cycling | unknown => inactive' = 0%Z
  end.
Proof.
  unfold StatusScreen.classifyRules.
  repeat match goal with
  | |- context [if ?c then _ else _] => destruct c
  end; reflexivity.
Qed.

Lemma classifyActivity_fields (Math_sqrt : Q -> Q) (now : Z)
  (s : StatusScreen.Screen) :
  (10 <= List.length (StatusScreen.recentAccel s))%nat ->
  let s' := StatusScreen.classifyActivity Math_sqrt now s in
  (StatusScreen.currentActivity s', StatusScreen.activityConfidence s',
   StatusScreen.inactiveTimeRef s')
  = StatusScreen.classifyRules
      (StatusScreen.accelStd Math_sqrt s) (StatusScreen.speedMean s)
      (StatusScreen.deviationFromGravity s) (StatusScreen.gpsAccuracy s)
      (StatusScreen.inactiveTimeRef s).
Proof.
  intros Hlen. unfold StatusScreen.classifyActivity.
  replace (List.length (StatusScreen.recentAccel s) <? 10)%nat with false
    by (symmetry; apply Nat.ltb_ge; exact Hlen).
  destruct (StatusScreen.classifyRules _ _ _ _ _) as [[activity confidence] inactive].
  reflexivity.
Qed.

(** Settles the comparisons of the goal that the context decides. *)
Ltac decide_tests :=
  repeat match goal with
  | |- context [JS.ltb ?a ?b] =>
      first [ replace (JS.ltb a b) with true by (symmetry; apply ltb_true; lra)
            | replace (JS.ltb a b) with false by (symmetry; apply ltb_false; lra) ]
  | |- context [JS.geb ?a ?b] =>
      first [ replace (JS.geb a b) with true by (symmetry; apply geb_true; lra)
            | replace (JS.geb a b) with false by (symmetry; apply geb_false; lra) ]
  | |- context [JS.gtb ?a ?b] =>
      first [ replace (JS.gtb a b) with true by (symmetry; apply gtb_true; lra)
            | replace (JS.gtb a b) with false by (symmetry; apply gtb_false; lra) ]
  end;
  cbn [andb orb].

(** The sleeping rule: it is reached when the window is steady and slow but
    tilted away from gravity, and it hands the counter back untouched. *)
Lemma classifyRules_sleeping
  (accelStd speedMean deviationFromGravity gpsAccuracy : Q) (inactive : Z) :
  accelStd < 0.03 -> speedMean < 0.2 -> 0.1 <= deviationFromGravity ->
  (30 < inactive)%Z ->
  StatusScreen.classifyRules accelStd speedMean deviationFromGravity
                             gpsAccuracy inactive
  = (sleeping,
     JS.Math_min 90 (60 + JS.Math_min (inject_Z inactive / 120) 1 * 30),
     inactive).
Proof.
  intros Hstd Hspeed Hdev Hinactive.
  rewrite Zlt_Qlt in Hinactive. change (inject_Z 30) with 30 in Hinactive.
  unfold StatusScreen.classifyRules. decide_tests. reflexivity.
Qed.

(** C7, on the code. On a tick with at least 10 samples the stationary rules
    add one to the inactivity counter and the walking, running, cycling and
    unknown rules reset it to zero, but the sleeping rule leaves it as it is:
    a steady, slow window tilted away from gravity after more than 30 seconds
    of inactivity is classified as sleeping and the counter is not
    incremented. Ten samples of magnitude 1.2 after 31 seconds of inactivity
    are such a window, and the counter stays at 31. *)
Theorem sleeping_rule_keeps_counter :
  (forall (Math_sqrt : Q -> Q) (now : Z) (s : StatusScreen.Screen),
      (10 <= List.length (StatusScreen.recentAccel s))%nat ->
      let s' := StatusScreen.classifyActivity Math_sqrt now s in
      match StatusScreen.currentActivity s' with
      | stationary =>
          StatusScreen.inactiveTimeRef s' = (StatusScreen.inactiveTimeRef s + 1)%Z
      | sleeping =>
          StatusScreen.inactiveTimeRef s' = StatusScreen.inactiveTimeRef s
      | walking | running | cycling | unknown =>
          StatusScreen.inactiveTimeRef s' = 0%Z
      end)
  /\ (forall (Math_sqrt : Q -> Q) (now : Z) (s : StatusScreen.Screen),
         (10 <= List.length (StatusScreen.recentAccel s))%nat ->
         StatusScreen.accelStd Math_sqrt s < 0.03 ->
         StatusScreen.speedMean s < 0.2 ->
         0.1 <= StatusScreen.deviationFromGravity s ->
         (30 < StatusScreen.inactiveTimeRef s)%Z ->
         let s' := StatusScreen.classifyActivity Math_sqrt now s in
         StatusScreen.currentActivity s' = sleeping
         /\ StatusScreen.inactiveTimeRef s' = StatusScreen.inactiveTimeRef s
         /\ StatusScreen.inactiveTimeRef s' <> (StatusScreen.inactiveTimeRef s + 1)%Z)
  /\ (let s' :=
        StatusScreen.classifyActivity Approx.sqrt Examples.now Examples.tiltedScreen in
      StatusScreen.currentActivity s' = sleeping
      /\ StatusScreen.inactiveTimeRef Examples.tiltedScreen = 31%Z
      /\ StatusScreen.inactiveTimeRef s' = 31%Z).
Proof.
  split; [ | split ].
  - intros Math_sqrt now s Hlen s'.
    pose proof (classifyActivity_fields Math_sqrt now s Hlen) as Hfields.
    pose proof (classifyRules_counter
                  (StatusScreen.accelStd Math_sqrt s) (StatusScreen.speedMean s)
                  (StatusScreen.deviationFromGravity s) (StatusScreen.gpsAccuracy s)
                  (StatusScreen.inactiveTimeRef s)) as Hcounter.
    cbv zeta in Hfields. fold s' in Hfields. rewrite <- Hfields in Hcounter.
    exact Hcounter.
  - intros Math_sqrt now s Hlen Hstd Hspeed Hdev Hinactive s'.
    pose proof (classifyActivity_fields Math_sqrt now s Hlen) as Hfields.
    cbv zeta in Hfields. fold s' in Hfields.
    rewrite classifyRules_sleeping in Hfields by assumption.
    injection Hfields as Hactivity _ Hcounter.
    split; [ exact Hactivity | ]. split; [ exact Hcounter | ]. lia.
  - vm_compute. repeat split.
Qed.

Lemma sleeping_rule_witness :
  StatusScreen.currentActivity
    (StatusScreen.classifyActivity Approx.sqrt Examples.now Examples.tiltedScreen)
  = sleeping
  /\ StatusScreen.inactiveTimeRef
       (StatusScreen.classifyActivity Approx.sqrt Examples.now Examples.tiltedScreen)
     = StatusScreen.inactiveTimeRef Examples.tiltedScreen
  /\ StatusScreen.inactiveTimeRef
       (StatusScreen.classifyActivity Approx.sqrt Examples.now Examples.tiltedScreen)
     <> (StatusScreen.inactiveTimeRef Examples.tiltedScreen + 1)%Z.
Proof.
  apply (proj1 (proj2 sleeping_rule_keeps_counter)
           Approx.sqrt Examples.now Examples.tiltedScreen).
  - vm_compute. repeat constructor.
  - vm_compute. reflexivity.
  - vm_compute. reflexivity.
  - vm_compute. discriminate.
  - vm_compute. reflexivity.
Defined.

(** The first stationary rule and its confidence. *)
Lemma classifyRules_still
  (accelStd speedMean deviationFromGravity gpsAccuracy : Q) (inactive : Z) :
  accelStd < 0.05 -> speedMean < 0.3 -> deviationFromGravity < 0.1 ->
  StatusScreen.classifyRules accelStd speedMean deviationFromGravity
                             gpsAccuracy inactive
  = (stationary, JS.Math_min 95 (80 + (1 - accelStd * 10) * 15), (inactive + 1)%Z).
Proof.
  intros Hstd Hspeed Hdev. unfold StatusScreen.classifyRules.
  apply ltb_true in Hstd, Hspeed, Hdev. now rewrite Hstd, Hspeed, Hdev.
Qed.

(** C9, as the code has it. A tick on a window of at least 10 samples with
    accelStd = 0.02, speedMean = 0.1 and deviationFromGravity = 0.05 yields
    the label stationary with confidence 92 = 80 + (1 - 0.02 * 10) * 15, below
    the cap of 95 of the rule. *)
Theorem still_window_confidence_92 :
  forall (Math_sqrt : Q -> Q) (now : Z) (s : StatusScreen.Screen),
    (10 <= List.length (StatusScreen.recentAccel s))%nat ->
    StatusScreen.accelStd Math_sqrt s == 0.02 ->
    StatusScreen.speedMean s == 0.1 ->
    StatusScreen.deviationFromGravity s == 0.05 ->
    let s' := StatusScreen.classifyActivity Math_sqrt now s in
    StatusScreen.currentActivity s' = stationary
    /\ StatusScreen.activityConfidence s' == 92
    /\ StatusScreen.activityConfidence s' < 95.
Proof.
  intros Math_sqrt now s Hlen Hstd Hspeed Hdev s'.
  pose proof (classifyActivity_fields Math_sqrt now s Hlen) as Hfields.
  cbv zeta in Hfields. fold s' in Hfields.
  rewrite classifyRules_still in Hfields by lra.
  injection Hfields as Hactivity Hconfidence _.
  split; [ exact Hactivity | ].
  rewrite Hconfidence. q_minmax; lra.
Qed.

Lemma still_window_witness :
  StatusScreen.currentActivity
    (StatusScreen.classifyActivity Approx.sqrt Examples.now Examples.steadyScreen)
  = stationary
  /\ StatusScreen.activityConfidence
       (StatusScreen.classifyActivity Approx.sqrt Examples.now Examples.steadyScreen)
     == 92
  /\ StatusScreen.activityConfidence
       (StatusScreen.classifyActivity Approx.sqrt Examples.now Examples.steadyScreen)
     < 95.
Proof.
  apply (still_window_confidence_92 Approx.sqrt Examples.now Examples.steadyScreen).
  - vm_compute. repeat constructor.
  - vm_compute. reflexivity.
  - vm_compute. reflexivity.
  - vm_compute. reflexivity.
Defined.

(** The rule chain at accelStd = 0.02, speedMean = 0.1 and
    deviationFromGravity = 0.05: stationary with confidence 92, where the cap
    of 95 is not reached. *)
Lemma still_confidence_is_not_the_cap :
  let '(activity, confidence, _) :=
    StatusScreen.classifyRules 0.02 0.1 0.05 999 0 in
  activity = stationary /\ confidence == 92 /\ confidence < 95.
Proof. vm_compute. repeat split. Qed.

(** ** The conversation classifier *)

Lemma conversationRules_bands (audioMean peakRate audioStd : Q) :
  (StatusScreen.conversationRules audioMean peakRate audioStd = conversation
   <-> 45 <= audioMean)
  /\ (30 <= audioMean -> audioMean < 45 ->
      StatusScreen.conversationRules audioMean peakRate audioStd = talking).
Proof.
  unfold StatusScreen.conversationRules.
  destruct (audioMean <? 12) eqn:H12;
    destruct (audioMean >=? 12) eqn:H12';
    destruct (audioMean <? 30) eqn:H30;
    destruct (audioMean >=? 30) eqn:H30';
    destruct (audioMean <? 45) eqn:H45;
    destruct (audioMean >=? 45) eqn:H45';
    destruct (peakRate <? 0.25);
    destruct ((peakRate >=? 0.35) && (audioStd >? 12));
    q_props; cbn [andb orb];
    (split; [ split; [ try discriminate; intros _; lra
                     | intros H; try reflexivity; exfalso; lra ]
            | intros Hlo Hhi; try reflexivity; exfalso; lra ]).
Qed.

(** C10. On a window of at least 20 samples the conversation classifier
    outputs conversation exactly when the mean level is at least 45; for a
    mean from 30 up to 45 it outputs talking whatever the peak rate and the
    standard deviation are. *)
Theorem conversation_iff_mean_at_least_45 :
  forall (Math_sqrt : Q -> Q) (s : StatusScreen.Screen),
    (20 <= List.length (StatusScreen.recentAudio s))%nat ->
    let s' := StatusScreen.detectConversation Math_sqrt s in
    (StatusScreen.conversationState s' = conversation
     <-> 45 <= StatusScreen.audioMean s)
    /\ (30 <= StatusScreen.audioMean s -> StatusScreen.audioMean s < 45 ->
        StatusScreen.conversationState s' = talking).
Proof.
  intros Math_sqrt s Hlen s'. subst s'.
  unfold StatusScreen.detectConversation, StatusScreen.detectedConversation.
  replace (List.length (StatusScreen.recentAudio s) <? 20)%nat with false
    by (symmetry; apply Nat.ltb_ge; exact Hlen).
  cbn [StatusScreen.conversationState].
  apply conversationRules_bands.
Qed.

Lemma conversation_witness :
  StatusScreen.conversationState
    (StatusScreen.detectConversation Approx.sqrt Examples.burstyScreen)
  = talking.
Proof.
  apply (proj2 (conversation_iff_mean_at_least_45
                  Approx.sqrt Examples.burstyScreen
                  ltac:(vm_compute; repeat constructor)));
    vm_compute; [ discriminate | reflexivity ].
Defined.

(** * Further properties of the scoring engine *)

(** ** Smoothing and the range of the scores *)

(** X1. With a weight between 0 and 1 the smoothed score lies between the
    historical score and the new daily score: smoothing never overshoots
    either of them. *)
Theorem smoothing_stays_between :
  forall historicalScore newDailyScore alpha : Q,
    0 <= alpha -> alpha <= 1 ->
    Qmin historicalScore newDailyScore
    <= Scoring.calculateExponentiallyWeightedScore historicalScore newDailyScore alpha
    /\ Scoring.calculateExponentiallyWeightedScore historicalScore newDailyScore alpha
       <= Qmax historicalScore newDailyScore.
Proof.
  intros h n alpha Hlo Hhi. unfold Scoring.calculateExponentiallyWeightedScore.
  destruct (Q.min_spec h n) as [[Hlt Emin] | [Hle Emin]];
    destruct (Q.max_spec h n) as [[Hlt' Emax] | [Hle' Emax]];
    rewrite Emin, Emax; split; nra.
Qed.

Lemma smoothing_between_witness :
  Qmin 50 80 <= Scoring.calculateExponentiallyWeightedScore 50 80 Scoring.defaultAlpha
  /\ Scoring.calculateExponentiallyWeightedScore 50 80 Scoring.defaultAlpha
     <= Qmax 50 80.
Proof.
  apply (smoothing_stays_between 50 80 Scoring.defaultAlpha);
    vm_compute; discriminate.
Defined.

Lemma calculateDailyScores_in_range (now : Z) (metrics : WellbeingMetrics.t) :
  Spec.dailyInRange (Scoring.calculateDailyScores now metrics).
Proof.
  unfold Spec.dailyInRange, Spec.inScoreRange, Scoring.calculateDailyScores.
  cbn [DailyWellbeingScores.sleep DailyWellbeingScores.physicalActivity
       DailyWellbeingScores.socialInteraction].
  split; [ apply sleep_in_range | ].
  split; [ apply activity_in_range | apply social_in_range ].
Qed.

Lemma smoothed_in_range (previous today : Q) :
  Spec.inScoreRange previous -> Spec.inScoreRange today ->
  Spec.inScoreRange
    (Scoring.calculateExponentiallyWeightedScore previous today Scoring.defaultAlpha).
Proof.
  unfold Spec.inScoreRange. intros Hp Ht. rewrite smoothing_formula. lra.
Qed.

Lemma overall_in_range (a b c : Q) :
  Spec.inScoreRange a -> Spec.inScoreRange b -> Spec.inScoreRange c ->
  Spec.inScoreRange (Scoring.calculateOverallScore a b c).
Proof.
  unfold Spec.inScoreRange, Scoring.calculateOverallScore.
  intros Ha Hb Hc. q_consts. lra.
Qed.

Lemma assign_In {A : Type} (i : nat) (v x : A) (xs : list A) :
  In x (WellbeingContext.assign i v xs) -> x = v \/ In x xs.
Proof.
  revert i. induction xs as [ | y ys IH ]; intros i;
    [ destruct i; cbn; intros [] | ].
  destruct i as [ | j ]; cbn.
  - intros [<- | Hin]; auto.
  - intros [<- | Hin]; auto. destruct (IH j Hin); auto.
Qed.

Lemma upsertDaily_In (baseline : list DailyWellbeingScores.t)
  (today x : DailyWellbeingScores.t) :
  In x (WellbeingContext.upsertDaily baseline today) -> x = today \/ In x baseline.
Proof.
  unfold WellbeingContext.upsertDaily. intros Hin.
  apply (Permutation_in _ (sort_perm _ _)) in Hin.
  destruct (WellbeingContext.findIndex _ baseline) as [ i | ].
  - now apply assign_In in Hin.
  - assert (Hpushed : In x (baseline ++ [today]) -> x = today \/ In x baseline).
    { intros H. apply in_app_or in H. destruct H as [H | [H | []]]; auto. }
    destruct (30 <? List.length (baseline ++ [today]))%nat; [ | auto ].
    apply Hpushed. unfold WellbeingContext.shift in Hin.
    destruct (baseline ++ [today]); [ destruct Hin | now right ].
Qed.

(** X2. A call of [updateScores] keeps every score in [0, 100]: when the
    current score and the daily rows of the provider lie in that range, so do
    the new current score, with its overall field, and all daily rows. *)
Theorem updateScores_keeps_scores_in_range :
  forall (now : Z) (metrics : WellbeingMetrics.t) (w : WellbeingContext.World),
    Spec.stateInRange (WellbeingContext.state w) ->
    Spec.stateInRange
      (WellbeingContext.state (WellbeingContext.updateScores now metrics w)).
Proof.
  intros now metrics w [Hcurrent Hdaily].
  pose proof (calculateDailyScores_in_range now metrics) as (Hs & Ha & Hc).
  split.
  - intros s Hs'. cbn in Hs'. injection Hs' as <-.
    assert (Hsmoothed :
              let u := WellbeingContext.smoothedScores
                         now
                         (if WellbeingContext.isUsingSampleData (WellbeingContext.state w)
                          then None
                          else WellbeingContext.currentScores (WellbeingContext.state w))
                         (Scoring.calculateDailyScores now metrics) in
              Spec.inScoreRange (WellbeingScore.sleep u)
              /\ Spec.inScoreRange (WellbeingScore.physicalActivity u)
              /\ Spec.inScoreRange (WellbeingScore.socialInteraction u)).
    { destruct (WellbeingContext.isUsingSampleData (WellbeingContext.state w)).
      - cbn. auto.
      - destruct (WellbeingContext.currentScores (WellbeingContext.state w))
          as [ previous | ] eqn:Hprev.
        + destruct (Hcurrent previous eq_refl) as (Ps & Pa & Pc & _).
          cbn. repeat split; apply smoothed_in_range; assumption.
        + cbn. auto. }
    cbv zeta in Hsmoothed. destruct Hsmoothed as (Us & Ua & Uc).
    unfold Spec.currentInRange, WellbeingContext.withOverall.
    cbn [WellbeingScore.sleep WellbeingScore.physicalActivity
         WellbeingScore.socialInteraction WellbeingScore.overall].
    repeat split; try apply Us; try apply Ua; try apply Uc;
      apply overall_in_range; assumption.
  - rewrite updateScores_dailyScores. apply Forall_forall. intros x Hin.
    apply upsertDaily_In in Hin. destruct Hin as [-> | Hin].
    + apply calculateDailyScores_in_range.
    + rewrite Forall_forall in Hdaily. apply Hdaily.
      destruct (WellbeingContext.isUsingSampleData (WellbeingContext.state w));
        [ destruct Hin | exact Hin ].
Qed.

Lemma updateScores_range_witness :
  Spec.stateInRange
    (WellbeingContext.state
       (WellbeingContext.updateScores Examples.now Examples.metrics80
                                      Examples.world30)).
Proof.
  apply (updateScores_keeps_scores_in_range
           Examples.now Examples.metrics80 Examples.world30).
  split.
  - intros s [= <-]. vm_compute. repeat split; discriminate.
  - repeat constructor; vm_compute; discriminate.
Defined.

(** ** The interpretation of a score *)

(** X3. The level of a score is fixed by the bands below 20, from 20, from
    40, from 60 and from 80, and a higher score never gets a worse level. *)
Theorem interpretation_bands_monotone :
  (forall score : Q,
      let l := Scoring.level (Scoring.getScoreInterpretation score) in
      (l = Scoring.excellent <-> 80 <= score)
      /\ (l = Scoring.good <-> 60 <= score /\ score < 80)
      /\ (l = Scoring.fair <-> 40 <= score /\ score < 60)
      /\ (l = Scoring.poor <-> 20 <= score /\ score < 40)
      /\ (l = Scoring.critical <-> score < 20))
  /\ (forall x y : Q,
         x <= y ->
         (Spec.levelRank (Scoring.level (Scoring.getScoreInterpretation x))
          <= Spec.levelRank (Scoring.level (Scoring.getScoreInterpretation y)))%nat).
Proof.
  split.
  - intros score. unfold Scoring.getScoreInterpretation.
    destruct (score >=? 80) eqn:H80; [ | destruct (score >=? 60) eqn:H60;
      [ | destruct (score >=? 40) eqn:H40; [ | destruct (score >=? 20) eqn:H20 ] ] ];
      q_props; cbn [Scoring.level];
      repeat split; intros; try discriminate; try reflexivity; try lra;
      exfalso; lra.
  - intros x y Hxy. unfold Scoring.getScoreInterpretation.
    repeat match goal with
    | |- context [if ?c then _ else _] => destruct c eqn:?
    end; q_props; cbn [Scoring.level Spec.levelRank]; try lia; exfalso; lra.
Qed.

Lemma interpretation_witness :
  (Spec.levelRank (Scoring.level (Scoring.getScoreInterpretation 59))
   <= Spec.levelRank (Scoring.level (Scoring.getScoreInterpretation 86.8)))%nat.
Proof.
  apply (proj2 interpretation_bands_monotone 59 86.8).
  vm_compute. discriminate.
Defined.

(** ** Metrics from the event histories *)

Lemma secondsBetween_diff (next current : Z) :
  Scoring.secondsBetween next current
  == (inject_Z next - inject_Z current) / 1000.
Proof.
  unfold Scoring.secondsBetween.
  replace (next - current)%Z with (next + - current)%Z by lia.
  rewrite inject_Z_plus, inject_Z_opp. reflexivity.
Qed.

Lemma last_cons {A : Type} (x y : A) (rest : list A) :
  last (y :: rest) x = last rest y.
Proof.
  revert x y. induction rest as [ | z rest IH ]; intros x y; [ reflexivity | ].
  change (last (y :: z :: rest) x) with (last (z :: rest) x).
  now rewrite (IH x z), (IH y z).
Qed.

(** One round of either loop adds nothing or the gap to the next event,
    weighted by at most 1.5. *)
Lemma sleepLoop_step (tz : Date.TimeZone) (x y : ActivityData.t)
  (rest : list ActivityData.t)
  (acc : Q) :
  exists added,
    Scoring.sleepLoop tz (x :: y :: rest) acc
    = Scoring.sleepLoop tz (y :: rest) added
    /\ (added = acc
        \/ added = acc + Scoring.secondsBetween (ActivityData.timestamp y)
                                                (ActivityData.timestamp x)).
Proof.
  eexists. split; [ reflexivity | ]. cbv zeta.
  repeat match goal with
  | |- context [if ?c then _ else _] => destruct c
  end; auto.
Qed.

Lemma activityLoop_step (x y : ActivityData.t) (rest : list ActivityData.t)
  (acc : Q) :
  exists added,
    Scoring.activityLoop (x :: y :: rest) acc
    = Scoring.activityLoop (y :: rest) added
    /\ (added = acc
        \/ added = acc + Scoring.secondsBetween (ActivityData.timestamp y)
                                                (ActivityData.timestamp x)
        \/ added = acc + Scoring.secondsBetween (ActivityData.timestamp y)
                                                (ActivityData.timestamp x) * 1.5
        \/ added = acc + Scoring.secondsBetween (ActivityData.timestamp y)
                                                (ActivityData.timestamp x) * 1.3).
Proof.
  eexists. split; [ reflexivity | ]. cbv zeta.
  repeat match goal with
  | |- context [if ?c then _ else _] => destruct c
  end; auto.
Qed.

(** The loops add gaps between neighbours: at least nothing, at most the
    span from the first to the last event. *)
Lemma sleepLoop_bounds (tz : Date.TimeZone) (x : ActivityData.t)
  (rest : list ActivityData.t)
  (acc : Q) :
  Spec.chronological (x :: rest) ->
  acc <= Scoring.sleepLoop tz (x :: rest) acc
  /\ Scoring.sleepLoop tz (x :: rest) acc
     <= acc + (inject_Z (ActivityData.timestamp (last rest x))
               - inject_Z (ActivityData.timestamp x)) / 1000
  /\ (ActivityData.timestamp x <= ActivityData.timestamp (last rest x))%Z.
Proof.
  unfold Spec.chronological.
  revert x acc. induction rest as [ | y rest IH ]; intros x acc Hsorted.
  - cbn. split; [ lra | ]. split; [ q_consts; lra | lia ].
  - inversion Hsorted as [ | ? ? Htail Hhead ]; subst.
    inversion Hhead as [ | ? ? Hxy ]; subst.
    rewrite (last_cons x y rest).
    pose proof (secondsBetween_diff (ActivityData.timestamp y)
                                    (ActivityData.timestamp x)) as Hgap.
    assert (Hxy' : inject_Z (ActivityData.timestamp x)
                   <= inject_Z (ActivityData.timestamp y))
      by (now rewrite <- Zle_Qle).
    destruct (sleepLoop_step tz x y rest acc) as (added & -> & Hadded).
    destruct (IH y added Htail) as (Hlo & Hhi & Hlast).
    assert (Hlast' : inject_Z (ActivityData.timestamp y)
                     <= inject_Z (ActivityData.timestamp (last rest y)))
      by (now rewrite <- Zle_Qle).
    generalize dependent (Scoring.sleepLoop tz (y :: rest) added).
    intros total Hlo Hhi.
    split; [ | split; [ | lia ] ];
      destruct Hadded as [-> | ->]; rewrite ?Hgap in *; q_consts; lra.
Qed.

Lemma activityLoop_bounds (x : ActivityData.t) (rest : list ActivityData.t)
  (acc : Q) :
  Spec.chronological (x :: rest) ->
  acc <= Scoring.activityLoop (x :: rest) acc
  /\ Scoring.activityLoop (x :: rest) acc
     <= acc + 1.5 * ((inject_Z (ActivityData.timestamp (last rest x))
                      - inject_Z (ActivityData.timestamp x)) / 1000).
Proof.
  unfold Spec.chronological.
  revert x acc. induction rest as [ | y rest IH ]; intros x acc Hsorted.
  - cbn. split; [ lra | q_consts; lra ].
  - inversion Hsorted as [ | ? ? Htail Hhead ]; subst.
    inversion Hhead as [ | ? ? Hxy ]; subst.
    rewrite (last_cons x y rest).
    pose proof (secondsBetween_diff (ActivityData.timestamp y)
                                    (ActivityData.timestamp x)) as Hgap.
    assert (Hxy' : inject_Z (ActivityData.timestamp x)
                   <= inject_Z (ActivityData.timestamp y))
      by (now rewrite <- Zle_Qle).
    pose proof (sleepLoop_bounds (Date.fixed 0) y rest 0 Htail) as (_ & _ & Hlast).
    assert (Hlast' : inject_Z (ActivityData.timestamp y)
                     <= inject_Z (ActivityData.timestamp (last rest y)))
      by (now rewrite <- Zle_Qle).
    destruct (activityLoop_step x y rest acc) as (added & -> & Hadded).
    destruct (IH y added Htail) as (Hlo & Hhi).
    generalize dependent (Scoring.activityLoop (y :: rest) added).
    intros total Hlo Hhi.
    split; destruct Hadded as [-> | [-> | [-> | ->]]];
      rewrite ?Hgap in *; q_consts; lra.
Qed.

Lemma inDay_bounds (tz : Date.TimeZone) (date timestamp : Z) :
  Scoring.inDay tz date timestamp = true <->
  (Date.startOfDay tz date <= timestamp <= Date.endOfDay tz date)%Z.
Proof.
  unfold Scoring.inDay.
  rewrite andb_true_iff, Z.geb_le, Z.leb_le. reflexivity.
Qed.

Lemma chronological_filter (p : ActivityData.t -> bool)
  (events : list ActivityData.t) :
  Spec.chronological events -> Spec.chronological (filter p events).
Proof.
  unfold Spec.chronological. intros Hsorted.
  apply StronglySorted_Sorted.
  apply Sorted_StronglySorted in Hsorted; [ | intros a b c; lia ].
  induction Hsorted as [ | x xs _ IH Hx ]; cbn; [ constructor | ].
  destruct (p x); [ | exact IH ].
  constructor; [ exact IH | ].
  rewrite Forall_forall in *. intros y Hy. apply filter_In in Hy. now apply Hx.
Qed.

Lemma last_In {A : Type} (x : A) (rest : list A) : In (last rest x) (x :: rest).
Proof.
  revert x. induction rest as [ | y rest IH ]; intros x; [ now left | ].
  rewrite (last_cons x y rest). right. apply IH.
Qed.

(** The events of the queried day span no more than that day. *)
Lemma day_span (tz : Date.TimeZone) (date : Z) (events : list ActivityData.t)
  (x : ActivityData.t) (rest : list ActivityData.t) :
  filter (fun a => Scoring.inDay tz date (ActivityData.timestamp a)) events
  = x :: rest ->
  inject_Z (ActivityData.timestamp (last rest x))
  - inject_Z (ActivityData.timestamp x)
  <= inject_Z (Z.max 0 (Spec.dayLength tz date)).
Proof.
  intros Hday.
  assert (Hx : In x (x :: rest)) by now left.
  pose proof (last_In x rest) as Hl.
  rewrite <- Hday in Hx, Hl. apply filter_In in Hx, Hl.
  destruct Hx as [_ Hx]. destruct Hl as [_ Hl].
  apply inDay_bounds in Hx, Hl.
  assert (H : (ActivityData.timestamp (last rest x) - ActivityData.timestamp x
               <= Z.max 0 (Spec.dayLength tz date))%Z)
    by (unfold Spec.dayLength; lia).
  rewrite Zle_Qle in H.
  replace (ActivityData.timestamp (last rest x) - ActivityData.timestamp x)%Z
    with (ActivityData.timestamp (last rest x) + - ActivityData.timestamp x)%Z
    in H by lia.
  rewrite inject_Z_plus, inject_Z_opp in H. exact H.
Qed.

(** Without clock changes every local day has 24 hours. *)
Lemma dayLength_fixed (offset date : Z) :
  Spec.dayLength (Date.fixed offset) date = 86399999%Z.
Proof.
  unfold Spec.dayLength, Date.endOfDay, Date.startOfDay, Date.UTC, Date.fixed,
    Date.msPerDay.
  cbn [Date.LocalTZA]. lia.
Qed.

(** X4. For a history in chronological order the sleep hours of a day are
    not negative and not more than the length of the local day, from its
    00:00:00.000 to its 23:59:59.999, and the active minutes are not negative
    and not more than 1.5 times that length (a whole day of running). On a
    host without clock changes every day has 24 hours, so that the sleep
    hours are below 24 and the active minutes below 2160; on the day the
    clocks go back the day has 25 hours, and more than 24 hours of sleep can
    be counted. *)
Theorem chronological_metrics_bounded :
  forall (tz : Date.TimeZone) (date : Z) (activities : list ActivityData.t),
    Spec.chronological activities ->
    let sleepHours :=
      Scoring.calculateSleepHoursFromActivities tz activities date in
    let activeMinutes :=
      Scoring.calculatePhysicalActivityMinutesFromActivities tz activities date in
    let day := inject_Z (Z.max 0 (Spec.dayLength tz date)) in
    (0 <= sleepHours /\ sleepHours * 3600000 <= day)
    /\ (0 <= activeMinutes /\ activeMinutes * 60000 <= 1.5 * day)
    /\ (forall offset : Z,
           tz = Date.fixed offset -> sleepHours < 24 /\ activeMinutes < 2160).
Proof.
  intros tz date activities Hsorted sleepHours activeMinutes day.
  assert (Hbounds : (0 <= sleepHours /\ sleepHours * 3600000 <= day)
                    /\ (0 <= activeMinutes /\ activeMinutes * 60000 <= 1.5 * day)).
  { subst sleepHours activeMinutes day.
    unfold Scoring.calculateSleepHoursFromActivities,
      Scoring.calculatePhysicalActivityMinutesFromActivities.
    pose proof (chronological_filter
                  (fun a => Scoring.inDay tz date (ActivityData.timestamp a))
                  activities Hsorted) as Hday.
    assert (Hlength : 0 <= inject_Z (Z.max 0 (Spec.dayLength tz date))).
    { change 0 with (inject_Z 0). rewrite <- Zle_Qle. apply Z.le_max_l. }
    destruct (filter _ activities) as [ | x rest ] eqn:Hfilter.
    - cbn [Scoring.sleepLoop Scoring.activityLoop].
      generalize dependent (inject_Z (Z.max 0 (Spec.dayLength tz date))).
      intros length Hlength. q_consts. repeat split; lra.
    - pose proof (day_span tz date activities x rest Hfilter) as Hspan.
      destruct (sleepLoop_bounds tz x rest 0 Hday) as (Hslo & Hshi & _).
      destruct (activityLoop_bounds x rest 0 Hday) as (Halo & Hahi).
      generalize dependent (inject_Z (Z.max 0 (Spec.dayLength tz date))).
      generalize dependent (Scoring.sleepLoop tz (x :: rest) 0).
      generalize dependent (Scoring.activityLoop (x :: rest) 0).
      intros active Halo Hahi asleep Hslo Hshi length Hspan Hlength.
      q_consts. repeat split; lra. }
  split; [ exact (proj1 Hbounds) | ]. split; [ exact (proj2 Hbounds) | ].
  intros offset ->. subst day. rewrite dayLength_fixed in Hbounds.
  change (inject_Z (Z.max 0 86399999)) with 86399999 in Hbounds.
  destruct Hbounds as [[_ Hsleep] [_ Hactive]].
  generalize dependent sleepHours. generalize dependent activeMinutes.
  intros activeMinutes Hactive sleepHours Hsleep. split; lra.
Qed.

(** In New York on 2026-11-01, the day the clocks go back: asleep from 00:00
    to 23:30, which is 24.5 hours, within the 25 hours of that day. *)
Lemma chronological_metrics_witness :
  Scoring.calculateSleepHoursFromActivities
    Examples.newYork Examples.longNight (Examples.at_ (-36)) == 24.5
  /\ Scoring.calculateSleepHoursFromActivities
       Examples.newYork Examples.longNight (Examples.at_ (-36)) * 3600000
     <= inject_Z (Z.max 0 (Spec.dayLength Examples.newYork (Examples.at_ (-36)))).
Proof.
  split; [ vm_compute; reflexivity | ].
  apply (chronological_metrics_bounded
           Examples.newYork (Examples.at_ (-36)) Examples.longNight).
  repeat constructor. vm_compute. discriminate.
Defined.

Lemma sleepLoop_last (tz : Date.TimeZone) (events : list ActivityData.t)
  (e e' : ActivityData.t) (acc : Q) :
  ActivityData.timestamp e = ActivityData.timestamp e' ->
  Scoring.sleepLoop tz (events ++ [e]) acc
  = Scoring.sleepLoop tz (events ++ [e']) acc.
Proof.
  intros Hts. revert acc.
  induction events as [ | x events IH ]; intros acc; [ reflexivity | ].
  destruct events as [ | y events ].
  - cbn [app Scoring.sleepLoop]. now rewrite Hts.
  - change ((x :: y :: events) ++ [e]) with (x :: y :: (events ++ [e])).
    change ((x :: y :: events) ++ [e']) with (x :: y :: (events ++ [e'])).
    cbn [Scoring.sleepLoop]. apply IH.
Qed.

Lemma activityLoop_last (events : list ActivityData.t)
  (e e' : ActivityData.t) (acc : Q) :
  ActivityData.timestamp e = ActivityData.timestamp e' ->
  Scoring.activityLoop (events ++ [e]) acc
  = Scoring.activityLoop (events ++ [e']) acc.
Proof.
  intros Hts. revert acc.
  induction events as [ | x events IH ]; intros acc; [ reflexivity | ].
  destruct events as [ | y events ].
  - cbn [app Scoring.activityLoop]. now rewrite Hts.
  - change ((x :: y :: events) ++ [e]) with (x :: y :: (events ++ [e])).
    change ((x :: y :: events) ++ [e']) with (x :: y :: (events ++ [e'])).
    cbn [Scoring.activityLoop]. apply IH.
Qed.

Lemma filter_snoc {A : Type} (p : A -> bool) (xs : list A) (x : A) :
  filter p (xs ++ [x]) = filter p xs ++ (if p x then [x] else []).
Proof. rewrite filter_app. cbn. now destruct (p x). Qed.

Lemma single_event_metrics (tz : Date.TimeZone) (date : Z) (e : ActivityData.t) :
  Scoring.calculateSleepHoursFromActivities tz [e] date == 0
  /\ Scoring.calculatePhysicalActivityMinutesFromActivities tz [e] date == 0.
Proof.
  unfold Scoring.calculateSleepHoursFromActivities,
    Scoring.calculatePhysicalActivityMinutesFromActivities.
  cbn [filter]. destruct (Scoring.inDay tz date (ActivityData.timestamp e));
    split; reflexivity.
Qed.

(** X5. The last event of a history adds nothing to the sleep hours and to
    the active minutes: they depend on its timestamp only, not on its label
    or confidence, and a history of a single event gives 0 for both. *)
Theorem last_event_adds_nothing :
  (forall (tz : Date.TimeZone) (date : Z) (activities : list ActivityData.t)
          (e e' : ActivityData.t),
      ActivityData.timestamp e = ActivityData.timestamp e' ->
      Scoring.calculateSleepHoursFromActivities tz (activities ++ [e]) date
      = Scoring.calculateSleepHoursFromActivities tz (activities ++ [e']) date
      /\ Scoring.calculatePhysicalActivityMinutesFromActivities
           tz (activities ++ [e]) date
         = Scoring.calculatePhysicalActivityMinutesFromActivities
             tz (activities ++ [e']) date)
  /\ (forall (tz : Date.TimeZone) (date : Z) (e : ActivityData.t),
         Scoring.calculateSleepHoursFromActivities tz [e] date == 0
         /\ Scoring.calculatePhysicalActivityMinutesFromActivities tz [e] date == 0).
Proof.
  split.
  - intros tz date activities e e' Hts.
    unfold Scoring.calculateSleepHoursFromActivities,
      Scoring.calculatePhysicalActivityMinutesFromActivities.
    rewrite !filter_snoc, Hts.
    destruct (Scoring.inDay tz date (ActivityData.timestamp e')).
    + now rewrite (sleepLoop_last tz _ e e' 0 Hts),
        (activityLoop_last _ e e' 0 Hts).
    + split; reflexivity.
  - intros tz date e. apply single_event_metrics.
Qed.

Lemma last_event_witness :
  Scoring.calculateSleepHoursFromActivities
    Examples.utc ([Examples.walkingAt 6] ++ [Examples.sleepingAt 23]) (Examples.at_ 12)
  = Scoring.calculateSleepHoursFromActivities
      Examples.utc ([Examples.walkingAt 6] ++ [Examples.walkingAt 23]) (Examples.at_ 12)
  /\ Scoring.calculatePhysicalActivityMinutesFromActivities
       Examples.utc ([Examples.walkingAt 6] ++ [Examples.sleepingAt 23]) (Examples.at_ 12)
     = Scoring.calculatePhysicalActivityMinutesFromActivities
         Examples.utc ([Examples.walkingAt 6] ++ [Examples.walkingAt 23]) (Examples.at_ 12).
Proof.
  apply (proj1 last_event_adds_nothing Examples.utc (Examples.at_ 12)
           [Examples.walkingAt 6] (Examples.sleepingAt 23) (Examples.walkingAt 23)).
  reflexivity.
Defined.

(** X6. For two events of the queried day, the first one with a confidence
    of at least 60, the active minutes are the gap between the timestamps
    weighted by the first label: 1 for walking, 1.5 for running, 1.3 for
    cycling and 0 for any other label; below a confidence of 60 they are 0. *)
Theorem active_minutes_of_two_events :
  forall (tz : Date.TimeZone) (date : Z) (current next : ActivityData.t),
    Scoring.inDay tz date (ActivityData.timestamp current) = true ->
    Scoring.inDay tz date (ActivityData.timestamp next) = true ->
    (60 <= ActivityData.confidence current ->
     Scoring.calculatePhysicalActivityMinutesFromActivities
       tz [current; next] date
     == Spec.activityWeight (ActivityData.activity current)
        * inject_Z (ActivityData.timestamp next - ActivityData.timestamp current)
        / 60000)
    /\ (ActivityData.confidence current < 60 ->
        Scoring.calculatePhysicalActivityMinutesFromActivities
          tz [current; next] date == 0).
Proof.
  intros tz date current next Hcur Hnext.
  unfold Scoring.calculatePhysicalActivityMinutesFromActivities.
  cbn [filter]. rewrite Hcur, Hnext. cbn [Scoring.activityLoop].
  unfold Scoring.secondsBetween.
  generalize (inject_Z (ActivityData.timestamp next - ActivityData.timestamp current)).
  intros gap. split; intros Hconf.
  - replace (ActivityData.confidence current >=? 0.6 * 100) with true
      by (symmetry; apply geb_true; lra).
    destruct (ActivityData.activity current); cbn; q_consts; lra.
  - replace (ActivityData.confidence current >=? 0.6 * 100) with false
      by (symmetry; apply geb_false; lra).
    rewrite andb_false_r. q_consts. lra.
Qed.

Lemma active_minutes_witness :
  Scoring.calculatePhysicalActivityMinutesFromActivities
    Examples.utc [Examples.walkingAt 8; Examples.sleepingAt 9] (Examples.at_ 12)
  == Spec.activityWeight walking
     * inject_Z (Examples.at_ 9 - Examples.at_ 8) / 60000.
Proof.
  apply (proj1 (active_minutes_of_two_events
                  Examples.utc (Examples.at_ 12) (Examples.walkingAt 8) (Examples.sleepingAt 9)
                  eq_refl eq_refl)).
  vm_compute. discriminate.
Defined.

(** ** Social minutes *)

Lemma socialSeconds_cons (c : ConversationData.t) (cs : list ConversationData.t) :
  Spec.socialSeconds (c :: cs)
  = (if ConversationState_eqb (ConversationData.state c) talking
        || ConversationState_eqb (ConversationData.state c) conversation
     then ConversationData.duration c
     else 0) + Spec.socialSeconds cs.
Proof. reflexivity. Qed.

Lemma social_fold (conversations : list ConversationData.t) (acc : Q) :
  fold_left
    (fun interactionSeconds conv =>
       if ConversationState_eqb (ConversationData.state conv) talking
          || ConversationState_eqb (ConversationData.state conv) conversation
       then interactionSeconds + ConversationData.duration conv
       else interactionSeconds)
    conversations acc
  == acc + Spec.socialSeconds conversations.
Proof.
  revert acc. induction conversations as [ | c cs IH ]; intros acc.
  - cbn. lra.
  - cbn [fold_left]. rewrite IH, socialSeconds_cons. destruct (_ || _); lra.
Qed.

Lemma calculateSocial_seconds (tz : Date.TimeZone) (date : Z)
  (conversations : list ConversationData.t) :
  Scoring.calculateSocialInteractionMinutesFromConversations tz conversations date
  == Spec.socialSeconds
       (filter (fun c => Scoring.inDay tz date (ConversationData.timestamp c))
               conversations) / 60.
Proof.
  unfold Scoring.calculateSocialInteractionMinutesFromConversations.
  rewrite social_fold. q_consts. lra.
Qed.

Lemma socialSeconds_perm (p : ConversationData.t -> bool)
  (l l' : list ConversationData.t) :
  Permutation l l' ->
  Spec.socialSeconds (filter p l) == Spec.socialSeconds (filter p l').
Proof.
  induction 1 as [ | x l l' _ IH | x y l | l l' l'' _ IH1 _ IH2 ]; cbn [filter].
  - reflexivity.
  - destruct (p x); rewrite ?socialSeconds_cons, ?IH; reflexivity.
  - destruct (p x), (p y); rewrite ?socialSeconds_cons; lra.
  - now rewrite IH1.
Qed.

Lemma socialSeconds_nonneg (l : list ConversationData.t) :
  Forall (fun c => 0 <= ConversationData.duration c) l ->
  0 <= Spec.socialSeconds l.
Proof.
  induction 1 as [ | c l Hc _ IH ]; [ cbn; lra | ].
  rewrite socialSeconds_cons. destruct (_ || _); lra.
Qed.

(** X7. The social minutes of a day do not depend on the order of the
    conversation events, silent events add nothing to them, and they are not
    negative when no duration is. *)
Theorem social_minutes_order_free :
  forall (tz : Date.TimeZone) (date : Z) (conversations : list ConversationData.t),
    (forall reordered,
        Permutation conversations reordered ->
        Scoring.calculateSocialInteractionMinutesFromConversations
          tz conversations date
        == Scoring.calculateSocialInteractionMinutesFromConversations
             tz reordered date)
    /\ Scoring.calculateSocialInteractionMinutesFromConversations
         tz (filter (fun c => negb (ConversationState_eqb
                                      (ConversationData.state c) silent))
                    conversations) date
       == Scoring.calculateSocialInteractionMinutesFromConversations
            tz conversations date
    /\ (Forall (fun c => 0 <= ConversationData.duration c) conversations ->
        0 <= Scoring.calculateSocialInteractionMinutesFromConversations
               tz conversations date).
Proof.
  intros tz date conversations. split; [ | split ].
  - intros reordered Hperm. rewrite !calculateSocial_seconds.
    rewrite (socialSeconds_perm _ _ _ Hperm). reflexivity.
  - rewrite !calculateSocial_seconds.
    induction conversations as [ | c cs IH ]; cbn [filter]; [ reflexivity | ].
    unfold Qdiv in *. apply Qmult_inj_r in IH; [ | discriminate ].
    destruct (ConversationData.state c) eqn:Hstate;
      cbn [ConversationState_eqb negb filter];
      destruct (Scoring.inDay tz date (ConversationData.timestamp c));
      rewrite ?socialSeconds_cons, ?Hstate;
      cbn [ConversationState_eqb orb]; rewrite ?IH; lra.
  - intros Hnonneg. rewrite calculateSocial_seconds.
    assert (H : 0 <= Spec.socialSeconds
                       (filter (fun c => Scoring.inDay tz date
                                           (ConversationData.timestamp c))
                               conversations)).
    { apply socialSeconds_nonneg. apply Forall_forall. intros c Hc.
      apply filter_In in Hc. rewrite Forall_forall in Hnonneg.
      now apply Hnonneg. }
    q_consts. lra.
Qed.

Lemma social_minutes_witness :
  Scoring.calculateSocialInteractionMinutesFromConversations
    Examples.utc [Examples.talkingAt 9 600; Examples.silentAt 10] (Examples.at_ 12)
  == Scoring.calculateSocialInteractionMinutesFromConversations
       Examples.utc [Examples.silentAt 10; Examples.talkingAt 9 600] (Examples.at_ 12).
Proof.
  apply (proj1 (social_minutes_order_free
                  Examples.utc (Examples.at_ 12)
                  [Examples.talkingAt 9 600; Examples.silentAt 10])).
  apply perm_swap.
Defined.

(** ** The aggregator *)

Lemma map_toActivityData (events : list ActivityData.t) :
  map WellbeingAggregator.toActivityData events = events.
Proof.
  induction events as [ | [t a c] events IH ]; cbn; [ reflexivity | ].
  now rewrite IH.
Qed.

Lemma map_toConversationData (events : list ConversationData.t) :
  map WellbeingAggregator.toConversationData events = events.
Proof.
  induction events as [ | [t s d] events IH ]; cbn; [ reflexivity | ].
  now rewrite IH.
Qed.

Lemma filter_filter_implied {A : Type} (p q : A -> bool) (xs : list A) :
  (forall x, p x = true -> q x = true) ->
  filter p (filter q xs) = filter p xs.
Proof.
  intros Himp. induction xs as [ | x xs IH ]; cbn; [ reflexivity | ].
  destruct (q x) eqn:Hq; cbn.
  - now rewrite IH.
  - rewrite IH. destruct (p x) eqn:Hp; [ | reflexivity ].
    apply Himp in Hp. congruence.
Qed.

(** A timestamp inside a whole day of [date] has the calendar date of
    [date]. *)
Lemma wholeDay_sameDate (tz : Date.TimeZone) (date timestamp : Z) :
  Spec.wholeDay tz date ->
  Scoring.inDay tz date timestamp = true ->
  WellbeingAggregator.sameDate tz timestamp date = true.
Proof.
  intros Hwhole Hin. apply Hwhole in Hin.
  unfold WellbeingAggregator.sameDate, Date.getFullYear, Date.getMonth, Date.getDate.
  rewrite Hin, !Z.eqb_refl. reflexivity.
Qed.

(** Without clock changes every local day is whole. *)
Lemma wholeDay_fixed (offset date : Z) : Spec.wholeDay (Date.fixed offset) date.
Proof.
  intros timestamp Hin. apply inDay_bounds in Hin.
  unfold Date.startOfDay, Date.endOfDay, Date.Day, Date.UTC, Date.LocalTime,
    Date.fixed, Date.msPerDay in *.
  cbn [Date.LocalTZA] in *.
  Z.div_mod_to_equations. lia.
Qed.

(** The clocks of New York change at 02:00, so that all its days are whole,
    the 23 hours of 2026-03-08 and the 25 hours of 2026-11-01 among them. *)
Lemma wholeDay_newYork (date : Z) : Spec.wholeDay Examples.newYork date.
Proof.
  intros timestamp Hin. apply inDay_bounds in Hin.
  unfold Date.startOfDay, Date.endOfDay, Date.Day, Date.UTC, Date.LocalTime,
    Examples.newYork, Date.msPerDay, Date.msPerHour in *.
  cbn [Date.LocalTZA] in *.
  repeat match goal with
         | H : context [if (?a <? ?b)%Z then _ else _] |- _ =>
             destruct (Z.ltb_spec a b)
         | |- context [if (?a <? ?b)%Z then _ else _] =>
             destruct (Z.ltb_spec a b)
         end;
    Z.div_mod_to_equations; lia.
Qed.

Lemma metrics_of_whole_day (tz : Date.TimeZone) (date : Z)
  (this : WellbeingAggregator.t) :
  Spec.wholeDay tz date ->
  WellbeingAggregator.calculateMetricsForDate tz date this
  = WellbeingAggregator.calculateTodayMetrics tz date this.
Proof.
  intros Hwhole.
  unfold WellbeingAggregator.calculateMetricsForDate,
    WellbeingAggregator.calculateTodayMetrics.
  rewrite !map_toActivityData, !map_toConversationData.
  unfold Scoring.calculateSleepHoursFromActivities,
    Scoring.calculatePhysicalActivityMinutesFromActivities,
    Scoring.calculateSocialInteractionMinutesFromConversations.
  rewrite (filter_filter_implied
             (fun a => Scoring.inDay tz date (ActivityData.timestamp a))
             (fun a => WellbeingAggregator.sameDate tz (ActivityData.timestamp a) date))
    by (intros a; now apply wholeDay_sameDate).
  rewrite (filter_filter_implied
             (fun c => Scoring.inDay tz date (ConversationData.timestamp c))
             (fun c => WellbeingAggregator.sameDate tz (ConversationData.timestamp c) date))
    by (intros c; now apply wholeDay_sameDate).
  reflexivity.
Qed.

(** X8. [calculateMetricsForDate] gives for a date exactly the metrics that
    [calculateTodayMetrics] gives at that time: its own selection of the
    events by year, month and day changes nothing. This holds on every host
    without clock changes, and on any host for a date whose local day is
    whole, as the days are where the clocks change away from midnight. *)
Theorem metrics_for_date_are_today_metrics :
  (forall (offset date : Z) (this : WellbeingAggregator.t),
      WellbeingAggregator.calculateMetricsForDate (Date.fixed offset) date this
      = WellbeingAggregator.calculateTodayMetrics (Date.fixed offset) date this)
  /\ (forall (tz : Date.TimeZone) (date : Z) (this : WellbeingAggregator.t),
         Spec.wholeDay tz date ->
         WellbeingAggregator.calculateMetricsForDate tz date this
         = WellbeingAggregator.calculateTodayMetrics tz date this).
Proof.
  split.
  - intros offset date this. apply metrics_of_whole_day, wholeDay_fixed.
  - intros tz date this. apply metrics_of_whole_day.
Qed.

(** New York on 2026-11-01, the day of 25 hours. *)
Lemma metrics_for_date_witness :
  WellbeingAggregator.calculateMetricsForDate
    Examples.newYork (Examples.at_ (-36))
    {| WellbeingAggregator.activityHistory := Examples.longNight;
       WellbeingAggregator.conversationHistory := [] |}
  = WellbeingAggregator.calculateTodayMetrics
      Examples.newYork (Examples.at_ (-36))
      {| WellbeingAggregator.activityHistory := Examples.longNight;
         WellbeingAggregator.conversationHistory := [] |}.
Proof.
  apply (proj2 metrics_for_date_are_today_metrics
           Examples.newYork (Examples.at_ (-36))
           {| WellbeingAggregator.activityHistory := Examples.longNight;
              WellbeingAggregator.conversationHistory := [] |}).
  apply wholeDay_newYork.
Defined.

Lemma filter_all_true {A : Type} (p : A -> bool) (xs : list A) :
  Forall (fun x => p x = true) xs -> filter p xs = xs.
Proof.
  induction 1 as [ | x xs Hx _ IH ]; cbn; [ reflexivity | ].
  now rewrite Hx, IH.
Qed.

(** [addActivity] at the time [now] keeps every entry that is not from
    before its cutoff, in the order they had, puts the new activity at the
    end when it is not from before the cutoff either, and leaves the
    conversation history alone. *)
Lemma addActivity_keeps_fresh_entries :
  forall (tz : Date.TimeZone) (now : Z) (activity : ActivityData.t)
         (this : WellbeingAggregator.t),
    let fresh a :=
      (ActivityData.timestamp a
       >=? Date.minusDays tz now WellbeingAggregator.MAX_HISTORY_DAYS)%Z in
    let after := WellbeingAggregator.addActivity tz now activity this in
    (forall a,
        In a (WellbeingAggregator.activityHistory this) ->
        Spec.retained tz now (ActivityData.timestamp a) ->
        In a (WellbeingAggregator.activityHistory after))
    /\ (Spec.retained tz now (ActivityData.timestamp activity) ->
        WellbeingAggregator.activityHistory after
        = filter fresh (WellbeingAggregator.activityHistory this) ++ [activity])
    /\ (Forall (fun a => Spec.retained tz now (ActivityData.timestamp a))
               (WellbeingAggregator.activityHistory this) ->
        Spec.retained tz now (ActivityData.timestamp activity) ->
        WellbeingAggregator.activityHistory after
        = WellbeingAggregator.activityHistory this ++ [activity])
    /\ WellbeingAggregator.conversationHistory after
       = WellbeingAggregator.conversationHistory this.
Proof.
  intros tz now activity this fresh after. subst after.
  unfold WellbeingAggregator.addActivity.
  cbn [WellbeingAggregator.activityHistory WellbeingAggregator.conversationHistory].
  fold fresh. rewrite filter_snoc.
  assert (Hfresh : forall a, Spec.retained tz now (ActivityData.timestamp a) ->
                             fresh a = true).
  { intros a Ha. subst fresh. cbn. apply Z.geb_le. exact Ha. }
  split; [ | split; [ | split ] ].
  - intros a Hin Ha. apply in_or_app. left. apply filter_In. auto.
  - intros Ha. now rewrite (Hfresh activity Ha).
  - intros Hall Ha. rewrite (Hfresh activity Ha).
    rewrite (filter_all_true fresh); [ reflexivity | ].
    eapply Forall_impl; [ | exact Hall ]. exact Hfresh.
  - reflexivity.
Qed.

Lemma addConversation_keeps_fresh (tz : Date.TimeZone) (now : Z)
  (conv c : ConversationData.t) (this : WellbeingAggregator.t) :
  In c (WellbeingAggregator.conversationHistory this) ->
  Spec.retained tz now (ConversationData.timestamp c) ->
  In c (WellbeingAggregator.conversationHistory
          (WellbeingAggregator.addConversation tz now conv this)).
Proof.
  intros Hin Hc. unfold WellbeingAggregator.addConversation.
  cbn [WellbeingAggregator.conversationHistory].
  apply filter_In. split; [ apply in_or_app; now left | ].
  apply Z.geb_le. exact Hc.
Qed.

(** X9. No entry is lost while it is fresh: an activity (a conversation
    event) of the history is still there after any sequence of calls without
    [clearHistory], provided it was not from before the cutoff of any
    [addActivity] ([addConversation]) of the sequence. The cutoff of a call
    is the instant at which the local clock showed the time of the call seven
    local days earlier, as [setDate(getDate() - 7)] computes it. *)
Theorem fresh_entries_survive :
  forall (tz : Date.TimeZone) (cs : list Spec.Call)
         (start : WellbeingAggregator.t),
    (forall a : ActivityData.t,
        In a (WellbeingAggregator.activityHistory start) ->
        Forall (fun c => match c with
                         | Spec.ClearHistory => False
                         | Spec.AddActivity now _ =>
                             Spec.retained tz now (ActivityData.timestamp a)
                         | _ => True
                         end) cs ->
        In a (WellbeingAggregator.getActivityHistory (Spec.calls tz cs start)))
    /\ (forall c : ConversationData.t,
           In c (WellbeingAggregator.conversationHistory start) ->
           Forall (fun k => match k with
                            | Spec.ClearHistory => False
                            | Spec.AddConversation now _ =>
                                Spec.retained tz now (ConversationData.timestamp c)
                            | _ => True
                            end) cs ->
           In c (WellbeingAggregator.getConversationHistory
                   (Spec.calls tz cs start))).
Proof.
  intros tz.
  unfold WellbeingAggregator.getActivityHistory,
    WellbeingAggregator.getConversationHistory, Spec.calls.
  induction cs as [ | k cs IH ]; intros start.
  - split; intros x Hin _; exact Hin.
  - split; intros x Hin Hall; inversion Hall as [ | ? ? Hk Hcs ]; subst;
      cbn [fold_left]; apply IH; try exact Hcs;
      destruct k as [ t activity | t conv | | ]; cbn [Spec.call];
      try exact Hin; try contradiction.
    + now apply (addActivity_keeps_fresh_entries tz t activity start).
    + now apply addConversation_keeps_fresh.
Qed.

(** In New York at 07:00 on 2026-11-03 the cutoff is 7 days and one hour
    earlier, the clocks having gone back in between: the entry that is 7
    days and 30 minutes old survives the add. *)
Lemma fresh_entries_witness :
  In Examples.weekOld
     (WellbeingAggregator.getActivityHistory
        (Spec.calls Examples.newYork
                    [Spec.AddActivity (Examples.at_ 12) (Examples.walkingAt 12);
                     Spec.Read]
                    {| WellbeingAggregator.activityHistory := [Examples.weekOld];
                       WellbeingAggregator.conversationHistory := [] |})).
Proof.
  apply (proj1 (fresh_entries_survive
                  Examples.newYork
                  [Spec.AddActivity (Examples.at_ 12) (Examples.walkingAt 12);
                   Spec.Read]
                  {| WellbeingAggregator.activityHistory := [Examples.weekOld];
                     WellbeingAggregator.conversationHistory := [] |})).
  - left. reflexivity.
  - repeat constructor. vm_compute. discriminate.
Defined.

(** * Further properties of the score provider *)

(** ** The score history *)

Lemma StronglySorted_filter {A : Type} (R : A -> A -> Prop) (p : A -> bool)
  (xs : list A) :
  StronglySorted R xs -> StronglySorted R (filter p xs).
Proof.
  induction 1 as [ | x xs _ IH Hx ]; cbn; [ constructor | ].
  destruct (p x); [ | exact IH ].
  constructor; [ exact IH | ].
  rewrite Forall_forall in *. intros y Hy. apply filter_In in Hy. now apply Hx.
Qed.

Lemma firstn_In {A : Type} (n : nat) (x : A) (xs : list A) :
  In x (firstn n xs) -> In x xs.
Proof.
  revert n. induction xs as [ | y ys IH ]; intros [ | n ]; cbn; try tauto.
  intros [-> | Hin]; [ now left | right; eauto ].
Qed.

Lemma StronglySorted_firstn {A : Type} (R : A -> A -> Prop) (n : nat)
  (xs : list A) :
  StronglySorted R xs -> StronglySorted R (firstn n xs).
Proof.
  intros Hsorted. revert n.
  induction Hsorted as [ | x xs _ IH Hx ]; intros [ | n ]; cbn; try constructor.
  - apply IH.
  - rewrite Forall_forall in *. intros y Hy. apply Hx. eapply firstn_In, Hy.
Qed.

Lemma StronglySorted_rev {A : Type} (R : A -> A -> Prop) (xs : list A) :
  StronglySorted R xs -> StronglySorted (fun a b => R b a) (rev xs).
Proof.
  induction 1 as [ | x xs _ IH Hx ]; cbn; [ constructor | ].
  assert (Hsnoc : forall ys,
             StronglySorted (fun a b => R b a) ys ->
             Forall (fun y => R x y) ys ->
             StronglySorted (fun a b => R b a) (ys ++ [x])).
  { induction 1 as [ | y ys Hys IHys Hy ]; cbn; intros Hall.
    - repeat constructor.
    - inversion Hall as [ | ? ? Hxy Hrest ]; subst.
      constructor; [ now apply IHys | ].
      apply Forall_app. split; [ exact Hy | now repeat constructor ]. }
  apply Hsnoc; [ exact IH | ].
  rewrite Forall_forall in *. intros y Hy. apply Hx. now apply in_rev.
Qed.

(** X10. [getScoreHistory(days)] returns at most [days] rows, each of them a
    stored row dated on or after the cutoff date; when the stored rows are
    newest first, the result is oldest first. The cutoff date is the UTC date
    of the instant at which the local clock showed the time of the call
    [days] local days earlier, as [setDate(getDate() - days)] followed by
    [toISOString] computes it. *)
Theorem score_history_bounded_recent_ascending :
  forall (tz : Date.TimeZone) (now : Z) (days : nat)
         (st : WellbeingContext.State),
    let history := WellbeingContext.getScoreHistory tz now days st in
    let cutoff := Date.toISODate (Date.minusDays tz now (Z.of_nat days)) in
    (List.length history <= days)%nat
    /\ (forall d,
           In d history ->
           In d (WellbeingContext.dailyScores st)
           /\ String.compare cutoff (DailyWellbeingScores.date d) <> Gt)
    /\ (StronglySorted Spec.notOlder (WellbeingContext.dailyScores st) ->
        StronglySorted (fun a b => Spec.notOlder b a) history).
Proof.
  intros tz now days st history cutoff. subst history.
  unfold WellbeingContext.getScoreHistory. fold cutoff.
  split; [ | split ].
  - rewrite length_rev. apply firstn_le_length.
  - intros d Hin. apply in_rev, firstn_In, filter_In in Hin.
    destruct Hin as [Hin Hrecent]. split; [ exact Hin | ].
    unfold WellbeingContext.string_geb, String.leb in Hrecent.
    destruct (String.compare cutoff (DailyWellbeingScores.date d));
      congruence.
  - intros Hsorted.
    now apply StronglySorted_rev, StronglySorted_firstn, StronglySorted_filter.
Qed.

(** In New York at 19:30 on 2026-11-02, which is 00:30 UTC on 2026-11-03, the
    clocks having gone back the day before: seven local days earlier it was
    23:30 UTC on 2026-10-26, so that the row of 2026-10-26 is part of the
    history of 7 days, and the row of 2026-10-20 is not. *)
Lemma score_history_witness :
  let st :=
    WellbeingContext.state
      (Examples.worldOf None [Examples.dayBefore 1; Examples.dayBefore 8;
                              Examples.dayBefore 14]) in
  let history :=
    WellbeingContext.getScoreHistory
      Examples.newYork (Examples.now + 1800000) 7 st in
  history = [Examples.dayBefore 8; Examples.dayBefore 1]
  /\ DailyWellbeingScores.date (Examples.dayBefore 8) = "2026-10-26"%string
  /\ StronglySorted (fun a b => Spec.notOlder b a) history.
Proof.
  split; [ vm_compute; reflexivity | ].
  split; [ vm_compute; reflexivity | ].
  apply (proj2 (proj2 (score_history_bounded_recent_ascending
                         Examples.newYork (Examples.now + 1800000) 7
                         (WellbeingContext.state
                            (Examples.worldOf
                               None [Examples.dayBefore 1; Examples.dayBefore 8;
                                     Examples.dayBefore 14]))))).
  cbn [WellbeingContext.dailyScores WellbeingContext.state Examples.worldOf].
  repeat constructor; vm_compute; discriminate.
Defined.

(** ** Saving and loading *)

Lemma updateScores_storage (now : Z) (metrics : WellbeingMetrics.t)
  (w : WellbeingContext.World) :
  WellbeingContext.storage (WellbeingContext.updateScores now metrics w)
  = {| WellbeingContext.storedScores :=
         WellbeingContext.currentScores
           (WellbeingContext.state (WellbeingContext.updateScores now metrics w));
       WellbeingContext.storedDaily :=
         Some (WellbeingContext.dailyScores
                 (WellbeingContext.state
                    (WellbeingContext.updateScores now metrics w))) |}.
Proof. reflexivity. Qed.

(** X11. What [updateScores] saves is what [loadScores] restores: a provider
    that starts on the storage left by an update shows the current score and
    the daily rows of that update, not flagged as sample data, and is no
    longer loading. *)
Theorem saved_scores_are_loaded_back :
  forall (Math_sin Math_cos : Q -> Q) (tz : Date.TimeZone) (now later : Z)
         (metrics : WellbeingMetrics.t) (w restarted : WellbeingContext.World),
    WellbeingContext.storage restarted
    = WellbeingContext.storage (WellbeingContext.updateScores now metrics w) ->
    let saved :=
      WellbeingContext.state (WellbeingContext.updateScores now metrics w) in
    let loaded :=
      WellbeingContext.state
        (WellbeingContext.loadScores Math_sin Math_cos tz later restarted) in
    WellbeingContext.currentScores loaded = WellbeingContext.currentScores saved
    /\ WellbeingContext.dailyScores loaded = WellbeingContext.dailyScores saved
    /\ WellbeingContext.isUsingSampleData loaded = false
    /\ WellbeingContext.isLoading loaded = false.
Proof.
  intros Math_sin Math_cos tz now later metrics w restarted Hstorage saved loaded.
  subst loaded. unfold WellbeingContext.loadScores.
  rewrite Hstorage, updateScores_storage. fold saved.
  cbn [WellbeingContext.storedScores WellbeingContext.storedDaily].
  assert (Hsome : exists s, WellbeingContext.currentScores saved = Some s)
    by (eexists; reflexivity).
  destruct Hsome as [s Hs]. rewrite Hs.
  destruct (0 <? List.length (WellbeingContext.dailyScores saved))%nat;
    repeat split; reflexivity.
Qed.

Lemma saved_loaded_witness :
  WellbeingContext.currentScores
    (WellbeingContext.state
       (WellbeingContext.loadScores
          Approx.sin Approx.cos Examples.utc (Examples.at_ 30)
          (WellbeingContext.updateScores Examples.now Examples.metrics80
                                         Examples.world50)))
  = WellbeingContext.currentScores
      (WellbeingContext.state
         (WellbeingContext.updateScores Examples.now Examples.metrics80
                                        Examples.world50)).
Proof.
  apply (saved_scores_are_loaded_back
           Approx.sin Approx.cos Examples.utc Examples.now (Examples.at_ 30)
           Examples.metrics80 Examples.world50
           (WellbeingContext.updateScores Examples.now Examples.metrics80
                                          Examples.world50)).
  reflexivity.
Defined.

(** ** The sample data *)

Lemma toFixed1_bounds (x : Q) (a b : Z) :
  0 <= x -> inject_Z a <= x * 10 -> x * 10 <= inject_Z b ->
  a # 10 <= JS.toFixed1 x /\ JS.toFixed1 x <= b # 10.
Proof.
  intros Hpos Hlo Hhi. unfold JS.toFixed1.
  replace (x <? 0) with false by (symmetry; apply ltb_false; exact Hpos).
  unfold JS.toFixed1_nonneg.
  pose proof (Qfloor_le (x * 10 + (1 # 2))) as Hfloor.
  pose proof (Qlt_floor (x * 10 + (1 # 2))) as Hceil.
  assert (Hup : inject_Z (Qfloor (x * 10 + (1 # 2))) < inject_Z (b + 1))
    by (rewrite inject_Z_plus; change (inject_Z 1) with 1; lra).
  assert (Hdown : inject_Z a < inject_Z (Qfloor (x * 10 + (1 # 2)) + 1)) by lra.
  rewrite <- Zlt_Qlt in Hup, Hdown.
  unfold Qle. cbn [Qnum Qden]. lia.
Qed.

Lemma toFixed1_range (x lo hi : Q) (a b : Z) :
  lo == a # 10 -> hi == b # 10 -> 0 <= lo -> lo <= x -> x <= hi ->
  lo <= JS.toFixed1 x /\ JS.toFixed1 x <= hi.
Proof.
  intros Elo Ehi Hpos Hlo Hhi.
  rewrite (Qmake_Qdiv a 10) in Elo. rewrite (Qmake_Qdiv b 10) in Ehi.
  change (inject_Z (Zpos 10)) with 10 in Elo, Ehi.
  destruct (toFixed1_bounds x a b) as [Hdown Hup].
  - lra.
  - revert Elo. generalize (inject_Z a). intros ia Elo. q_consts. lra.
  - revert Ehi. generalize (inject_Z b). intros ib Ehi. q_consts. lra.
  - rewrite (Qmake_Qdiv a 10) in Hdown. rewrite (Qmake_Qdiv b 10) in Hup.
    change (inject_Z (Zpos 10)) with 10 in Hdown, Hup.
    rewrite <- Elo in Hdown. rewrite <- Ehi in Hup. split; assumption.
Qed.

Lemma clamp_bounds (value lo hi : Q) :
  lo <= hi -> lo <= Scoring.clamp value lo hi /\ Scoring.clamp value lo hi <= hi.
Proof. intros Hle. unfold Scoring.clamp. q_minmax; lra. Qed.

(** Every generated day stays within the bounds of its three clamps. *)
Lemma sampleDay_ranges (Math_sin Math_cos : Q -> Q) (tz : Date.TimeZone)
  (today : Z) (i : nat) :
  let d := Scoring.sampleDay Math_sin Math_cos tz today i in
  (70 <= DailyWellbeingScores.sleep d /\ DailyWellbeingScores.sleep d <= 98)
  /\ (60 <= DailyWellbeingScores.physicalActivity d
      /\ DailyWellbeingScores.physicalActivity d <= 95)
  /\ (55 <= DailyWellbeingScores.socialInteraction d
      /\ DailyWellbeingScores.socialInteraction d <= 92).
Proof.
  unfold Scoring.sampleDay.
  cbn [DailyWellbeingScores.sleep DailyWellbeingScores.physicalActivity
       DailyWellbeingScores.socialInteraction].
  split; [ | split ].
  - match goal with
    | |- context [Scoring.clamp ?v 70 98] =>
        destruct (clamp_bounds v 70 98 ltac:(vm_compute; discriminate)) as [Hlo Hhi];
        apply (toFixed1_range (Scoring.clamp v 70 98) 70 98 700 980)
    end; try reflexivity; try lra.
  - match goal with
    | |- context [Scoring.clamp ?v 60 95] =>
        destruct (clamp_bounds v 60 95 ltac:(vm_compute; discriminate)) as [Hlo Hhi];
        apply (toFixed1_range (Scoring.clamp v 60 95) 60 95 600 950)
    end; try reflexivity; try lra.
  - match goal with
    | |- context [Scoring.clamp ?v 55 92] =>
        destruct (clamp_bounds v 55 92 ltac:(vm_compute; discriminate)) as [Hlo Hhi];
        apply (toFixed1_range (Scoring.clamp v 55 92) 55 92 550 920)
    end; try reflexivity; try lra.
Qed.

Lemma sample_generated (Math_sin Math_cos : Q -> Q) (tz : Date.TimeZone)
  (today : Z) (days : nat) :
  (0 < days)%nat ->
  exists latest rest current,
    Scoring.generateSampleWellbeingData Math_sin Math_cos tz today days
    = Some (latest :: rest, current).
Proof.
  intros Hdays. unfold Scoring.generateSampleWellbeingData.
  set (generated := map (Scoring.sampleDay Math_sin Math_cos tz today) (seq 0 days)).
  pose proof (sort_length Scoring.newestFirst generated) as Hlength.
  unfold generated at 2 in Hlength. rewrite length_map, length_seq in Hlength.
  destruct (ArraySort.sort Scoring.newestFirst generated) as [ | latest rest ].
  - cbn in Hlength. lia.
  - exists latest, rest. eexists. reflexivity.
Qed.

(** X12. Whatever [Math.sin] and [Math.cos] return, the sample of [days]
    days, [days] being positive, has [days] daily rows sorted newest first
    with sleep in [70, 98], activity in [60, 95] and social interaction in
    [55, 92]; its current score copies the three scores of the first row and
    all its fields lie in [0, 100]. A sample of 0 days raises an error. *)
Theorem sample_data_shape :
  forall (Math_sin Math_cos : Q -> Q) (tz : Date.TimeZone) (today : Z),
    (forall days : nat,
        (0 < days)%nat ->
        exists latest rest current,
          Scoring.generateSampleWellbeingData Math_sin Math_cos tz today days
          = Some (latest :: rest, current)
          /\ List.length (latest :: rest) = days
          /\ StronglySorted Spec.notOlder (latest :: rest)
          /\ Forall (fun d =>
                       (70 <= DailyWellbeingScores.sleep d
                        /\ DailyWellbeingScores.sleep d <= 98)
                       /\ (60 <= DailyWellbeingScores.physicalActivity d
                           /\ DailyWellbeingScores.physicalActivity d <= 95)
                       /\ (55 <= DailyWellbeingScores.socialInteraction d
                           /\ DailyWellbeingScores.socialInteraction d <= 92))
                    (latest :: rest)
          /\ WellbeingScore.sleep current = DailyWellbeingScores.sleep latest
          /\ WellbeingScore.physicalActivity current
             = DailyWellbeingScores.physicalActivity latest
          /\ WellbeingScore.socialInteraction current
             = DailyWellbeingScores.socialInteraction latest
          /\ Spec.currentInRange current)
    /\ Scoring.generateSampleWellbeingData Math_sin Math_cos tz today 0 = None.
Proof.
  intros Math_sin Math_cos tz today. split; [ | reflexivity ].
  intros days Hdays. unfold Scoring.generateSampleWellbeingData.
  set (generated := map (Scoring.sampleDay Math_sin Math_cos tz today) (seq 0 days)).
  assert (Hranges :
            Forall (fun d =>
                      (70 <= DailyWellbeingScores.sleep d
                       /\ DailyWellbeingScores.sleep d <= 98)
                      /\ (60 <= DailyWellbeingScores.physicalActivity d
                          /\ DailyWellbeingScores.physicalActivity d <= 95)
                      /\ (55 <= DailyWellbeingScores.socialInteraction d
                          /\ DailyWellbeingScores.socialInteraction d <= 92))
                   (ArraySort.sort Scoring.newestFirst generated)).
  { eapply Permutation_Forall; [ symmetry; apply sort_perm | ].
    apply Forall_forall. intros d Hd. apply in_map_iff in Hd.
    destruct Hd as (i & <- & _). apply sampleDay_ranges. }
  pose proof (sort_sorted generated) as Hsorted.
  pose proof (sort_length Scoring.newestFirst generated) as Hlength.
  unfold generated at 2 in Hlength. rewrite length_map, length_seq in Hlength.
  destruct (ArraySort.sort Scoring.newestFirst generated) as [ | latest rest ].
  - cbn in Hlength. lia.
  - exists latest, rest. eexists. split; [ reflexivity | ].
    split; [ exact Hlength | ]. split; [ exact Hsorted | ].
    split; [ exact Hranges | ].
    cbn [WellbeingScore.sleep WellbeingScore.physicalActivity
         WellbeingScore.socialInteraction].
    repeat (split; [ reflexivity | ]).
    inversion Hranges as [ | ? ? ((S1 & S2) & (A1 & A2) & (C1 & C2)) _ ]; subst.
    unfold Spec.currentInRange, Spec.inScoreRange.
    cbn [WellbeingScore.sleep WellbeingScore.physicalActivity
         WellbeingScore.socialInteraction WellbeingScore.overall].
    assert (Hoverall :
              55 <= JS.toFixed1
                      (Scoring.calculateOverallScore
                         (DailyWellbeingScores.sleep latest)
                         (DailyWellbeingScores.physicalActivity latest)
                         (DailyWellbeingScores.socialInteraction latest))
              /\ JS.toFixed1
                   (Scoring.calculateOverallScore
                      (DailyWellbeingScores.sleep latest)
                      (DailyWellbeingScores.physicalActivity latest)
                      (DailyWellbeingScores.socialInteraction latest)) <= 98).
    { apply (toFixed1_range _ 55 98 550 980); try reflexivity;
        unfold Scoring.calculateOverallScore; q_consts; lra. }
    repeat split; lra.
Qed.

Lemma sample_data_shape_witness :
  exists latest rest current,
    Scoring.generateSampleWellbeingData Approx.sin Approx.cos Examples.utc Examples.now 10
    = Some (latest :: rest, current)
    /\ List.length (latest :: rest) = 10%nat
    /\ StronglySorted Spec.notOlder (latest :: rest)
    /\ Forall (fun d =>
                 (70 <= DailyWellbeingScores.sleep d
                  /\ DailyWellbeingScores.sleep d <= 98)
                 /\ (60 <= DailyWellbeingScores.physicalActivity d
                     /\ DailyWellbeingScores.physicalActivity d <= 95)
                 /\ (55 <= DailyWellbeingScores.socialInteraction d
                     /\ DailyWellbeingScores.socialInteraction d <= 92))
              (latest :: rest)
    /\ WellbeingScore.sleep current = DailyWellbeingScores.sleep latest
    /\ WellbeingScore.physicalActivity current
       = DailyWellbeingScores.physicalActivity latest
    /\ WellbeingScore.socialInteraction current
       = DailyWellbeingScores.socialInteraction latest
    /\ Spec.currentInRange current.
Proof.
  apply (proj1 (sample_data_shape Approx.sin Approx.cos Examples.utc Examples.now)
           10%nat).
  lia.
Defined.

Lemma loadScores_without_storage (Math_sin Math_cos : Q -> Q)
  (tz : Date.TimeZone) (now : Z) (w : WellbeingContext.World)
  (sampleDaily : list DailyWellbeingScores.t) (currentScore : WellbeingScore.t) :
  WellbeingContext.storedScores (WellbeingContext.storage w) = None ->
  WellbeingContext.storedDaily (WellbeingContext.storage w) = None
  \/ WellbeingContext.storedDaily (WellbeingContext.storage w) = Some [] ->
  Scoring.generateSampleWellbeingData Math_sin Math_cos tz now 10
  = Some (sampleDaily, currentScore) ->
  let loaded :=
    WellbeingContext.state
      (WellbeingContext.loadScores Math_sin Math_cos tz now w) in
  WellbeingContext.currentScores loaded = Some currentScore
  /\ WellbeingContext.dailyScores loaded = sampleDaily
  /\ WellbeingContext.isUsingSampleData loaded = true.
Proof.
  intros Hscores Hdaily Hgen loaded. subst loaded.
  unfold WellbeingContext.loadScores, WellbeingContext.applySampleData.
  generalize dependent
    (Scoring.generateSampleWellbeingData Math_sin Math_cos tz now 10).
  intros generated ->. rewrite Hscores.
  destruct Hdaily as [-> | ->]; repeat split; reflexivity.
Qed.

Lemma updateScores_drops_sample (now : Z) (metrics : WellbeingMetrics.t)
  (w : WellbeingContext.World) :
  WellbeingContext.isUsingSampleData (WellbeingContext.state w) = true ->
  let today := Scoring.calculateDailyScores now metrics in
  let updated :=
    WellbeingContext.state (WellbeingContext.updateScores now metrics w) in
  WellbeingContext.dailyScores updated = [today]
  /\ WellbeingContext.isUsingSampleData updated = false
  /\ exists current,
      WellbeingContext.currentScores updated = Some current
      /\ WellbeingScore.sleep current = DailyWellbeingScores.sleep today
      /\ WellbeingScore.physicalActivity current
         = DailyWellbeingScores.physicalActivity today
      /\ WellbeingScore.socialInteraction current
         = DailyWellbeingScores.socialInteraction today.
Proof.
  intros Hsample today updated. subst updated.
  split; [ | split ].
  - rewrite updateScores_dailyScores, Hsample. reflexivity.
  - reflexivity.
  - eexists. split; [ reflexivity | ].
    unfold WellbeingContext.updateScores.
    cbn [WellbeingContext.state WellbeingContext.currentScores].
    rewrite Hsample. repeat split; reflexivity.
Qed.

(** X13. A provider that finds nothing stored shows the ten-day sample,
    flagged as sample data; the first [updateScores] after that drops the
    whole sample: the daily rows are today's row alone, the current score is
    today's score with no smoothing against the sample, and the flag is
    cleared. *)
Theorem sample_is_a_placeholder :
  forall (Math_sin Math_cos : Q -> Q) (tz : Date.TimeZone) (now : Z)
         (w : WellbeingContext.World),
    (WellbeingContext.storedScores (WellbeingContext.storage w) = None ->
     WellbeingContext.storedDaily (WellbeingContext.storage w) = None
     \/ WellbeingContext.storedDaily (WellbeingContext.storage w) = Some [] ->
     let loaded :=
       WellbeingContext.state (WellbeingContext.loadScores Math_sin Math_cos tz now w) in
     exists sampleDaily currentScore,
       Scoring.generateSampleWellbeingData Math_sin Math_cos tz now 10
       = Some (sampleDaily, currentScore)
       /\ WellbeingContext.currentScores loaded = Some currentScore
       /\ WellbeingContext.dailyScores loaded = sampleDaily
       /\ WellbeingContext.isUsingSampleData loaded = true)
    /\ (forall metrics : WellbeingMetrics.t,
           WellbeingContext.isUsingSampleData (WellbeingContext.state w) = true ->
           let today := Scoring.calculateDailyScores now metrics in
           let updated :=
             WellbeingContext.state (WellbeingContext.updateScores now metrics w) in
           WellbeingContext.dailyScores updated = [today]
           /\ WellbeingContext.isUsingSampleData updated = false
           /\ exists current,
               WellbeingContext.currentScores updated = Some current
               /\ WellbeingScore.sleep current = DailyWellbeingScores.sleep today
               /\ WellbeingScore.physicalActivity current
                  = DailyWellbeingScores.physicalActivity today
               /\ WellbeingScore.socialInteraction current
                  = DailyWellbeingScores.socialInteraction today).
Proof.
  intros Math_sin Math_cos tz now w. split.
  - intros Hscores Hdaily.
    destruct (sample_generated Math_sin Math_cos tz now 10 ltac:(lia))
      as (latest & rest & current & Hgen).
    exists (latest :: rest), current. split; [ exact Hgen | ].
    now apply loadScores_without_storage.
  - intros metrics. apply updateScores_drops_sample.
Qed.

Lemma sample_placeholder_witness :
  exists sampleDaily currentScore,
    Scoring.generateSampleWellbeingData Approx.sin Approx.cos Examples.utc Examples.now 10
    = Some (sampleDaily, currentScore)
    /\ WellbeingContext.currentScores
         (WellbeingContext.state
            (WellbeingContext.loadScores Approx.sin Approx.cos Examples.utc Examples.now
                                         (Examples.worldOf None [])))
       = Some currentScore
    /\ WellbeingContext.dailyScores
         (WellbeingContext.state
            (WellbeingContext.loadScores Approx.sin Approx.cos Examples.utc Examples.now
                                         (Examples.worldOf None [])))
       = sampleDaily
    /\ WellbeingContext.isUsingSampleData
         (WellbeingContext.state
            (WellbeingContext.loadScores Approx.sin Approx.cos Examples.utc Examples.now
                                         (Examples.worldOf None [])))
       = true.
Proof.
  apply (proj1 (sample_is_a_placeholder
                  Approx.sin Approx.cos Examples.utc Examples.now (Examples.worldOf None []))).
  - reflexivity.
  - left. reflexivity.
Defined.

(** * Further properties of the status screen *)

(** Turns the boolean tests recorded in the context, conjunctions and
    disjunctions included, into inequalities. *)
Ltac bool_props :=
  repeat (progress rewrite
            ?andb_true_iff, ?orb_true_iff, ?andb_false_iff, ?orb_false_iff,
            ?ltb_true, ?ltb_false, ?geb_true, ?geb_false,
            ?gtb_true, ?gtb_false, ?leb_true, ?leb_false in * ).

(** Splits every [Math.max] and [Math.min] of the goal and of the context
    into its two cases. *)
Ltac q_minmax_all :=
  repeat match goal with
  | |- context [JS.Math_max ?a ?b] =>
      let H := fresh "Hmax" in let E := fresh "Emax" in
      destruct (Math_max_cases a b) as [[H E] | [H E]];
      generalize dependent (JS.Math_max a b); intros
  | |- context [JS.Math_min ?a ?b] =>
      let H := fresh "Hmin" in let E := fresh "Emin" in
      destruct (Math_min_cases a b) as [[H E] | [H E]];
      generalize dependent (JS.Math_min a b); intros
  | _ : context [JS.Math_max ?a ?b] |- _ =>
      let H := fresh "Hmax" in let E := fresh "Emax" in
      destruct (Math_max_cases a b) as [[H E] | [H E]];
      generalize dependent (JS.Math_max a b); intros
  | _ : context [JS.Math_min ?a ?b] |- _ =>
      let H := fresh "Hmin" in let E := fresh "Emin" in
      destruct (Math_min_cases a b) as [[H E] | [H E]];
      generalize dependent (JS.Math_min a b); intros
  end.

Ltac rule_cases :=
  repeat match goal with
  | |- context [if ?c then _ else _] => destruct c eqn:?
  end.

(** ** The location classifier *)

(** The rules of [detectLocation] on a window of at least three speeds. *)
Lemma detectedLocation_rules (s : StatusScreen.Screen) (gpsAccuracy : Q) :
  (3 <= List.length (StatusScreen.recentSpeed s))%nat ->
  let fast :=
    0.5 <= StatusScreen.mean (StatusScreen.recentSpeed s)
    \/ exists m, JS.Math_max_spread (StatusScreen.recentSpeed s) = Some m
                 /\ 0.8 <= m in
  exists newState,
    StatusScreen.detectedLocation s gpsAccuracy = Some newState
    /\ newState <> StatusScreen.LocationState.stationary
    /\ (newState = StatusScreen.LocationState.moving <-> fast)
    /\ (newState = StatusScreen.LocationState.outdoor
        <-> ~ fast /\ gpsAccuracy <= 30)
    /\ (newState = StatusScreen.LocationState.indoor
        <-> ~ fast /\ 30 < gpsAccuracy).
Proof.
  intros Hlen. unfold StatusScreen.detectedLocation.
  fold (StatusScreen.recentSpeed s).
  replace (List.length (StatusScreen.recentSpeed s) <? 3)%nat with false
    by (symmetry; apply Nat.ltb_ge; exact Hlen).
  cbv zeta. eexists. split; [ reflexivity | ].
  set (avg := StatusScreen.mean (StatusScreen.recentSpeed s)).
  set (fastb := (avg >=? 0.5)
                || match JS.Math_max_spread (StatusScreen.recentSpeed s) with
                   | Some m => m >=? 0.8
                   | None => false
                   end).
  assert (Hfast : fastb = true
                  <-> (0.5 <= avg
                       \/ exists m,
                            JS.Math_max_spread (StatusScreen.recentSpeed s) = Some m
                            /\ 0.8 <= m)).
  { subst fastb. rewrite orb_true_iff, geb_true.
    destruct (JS.Math_max_spread (StatusScreen.recentSpeed s)) as [ m | ].
    - rewrite geb_true. split; intros [H | H]; auto.
      + right. eauto.
      + destruct H as (m' & [= <-] & H). auto.
    - split; intros [H | H]; auto; [ discriminate | ].
      destruct H as (m' & [=] & _). }
  destruct fastb eqn:Efast.
  - assert (Hyes := proj1 Hfast eq_refl).
    repeat split; try discriminate; auto; intros [Hno _]; contradiction.
  - assert (Hno : ~ (0.5 <= avg
                     \/ exists m,
                          JS.Math_max_spread (StatusScreen.recentSpeed s) = Some m
                          /\ 0.8 <= m))
      by (intros H; apply Hfast in H; discriminate).
    assert (Hslow : (avg <? 0.5) = true)
      by (apply ltb_true; apply Qnot_le_lt; intros H; apply Hno; now left).
    rewrite Hslow. cbn [andb].
    destruct (gpsAccuracy <=? 30) eqn:Hacc.
    + apply leb_true in Hacc.
      repeat split; try discriminate; auto; try (intros H; contradiction);
        intros [_ H]; exfalso; lra.
    + apply leb_false in Hacc.
      replace (gpsAccuracy >? 30) with true
        by (symmetry; now apply gtb_true).
      repeat split; try discriminate; auto; try (intros H; contradiction);
        intros [_ H]; exfalso; lra.
Qed.

Lemma LocationState_eqb_eq (a b : StatusScreen.LocationState.t) :
  StatusScreen.LocationState.eqb a b = true <-> a = b.
Proof. destruct a, b; cbn; split; congruence. Qed.

(** X14. On at least three speed samples the location classifier never
    computes stationary: it computes moving when the mean speed is at least
    0.5 or the largest sample at least 0.8, and otherwise outdoor for a GPS
    accuracy of at most 30 and indoor above 30, the accuracy being the one of
    the render that created the interval. The computed state is written when
    it differs from the location state of that render, and otherwise the
    current state is kept, whatever it is; so the state after a tick is
    stationary only if it was before. With fewer samples the state is kept. *)
Theorem location_is_never_stationary :
  forall (s : StatusScreen.Screen) (gpsAccuracy : Q)
         (locationState current : StatusScreen.LocationState.t),
    let after := StatusScreen.detectLocation s gpsAccuracy locationState current in
    ((3 <= List.length (StatusScreen.recentSpeed s))%nat ->
     let fast :=
       0.5 <= StatusScreen.mean (StatusScreen.recentSpeed s)
       \/ exists m, JS.Math_max_spread (StatusScreen.recentSpeed s) = Some m
                    /\ 0.8 <= m in
     exists newState,
       StatusScreen.detectedLocation s gpsAccuracy = Some newState
       /\ newState <> StatusScreen.LocationState.stationary
       /\ (newState = StatusScreen.LocationState.moving <-> fast)
       /\ (newState = StatusScreen.LocationState.outdoor
           <-> ~ fast /\ gpsAccuracy <= 30)
       /\ (newState = StatusScreen.LocationState.indoor
           <-> ~ fast /\ 30 < gpsAccuracy)
       /\ (newState <> locationState -> after = newState)
       /\ (newState = locationState -> after = current)
       /\ (after = StatusScreen.LocationState.stationary ->
           current = StatusScreen.LocationState.stationary))
    /\ ((List.length (StatusScreen.recentSpeed s) < 3)%nat -> after = current).
Proof.
  intros s gpsAccuracy locationState current after. subst after.
  unfold StatusScreen.detectLocation. split.
  - intros Hlen. cbv zeta.
    destruct (detectedLocation_rules s gpsAccuracy Hlen)
      as (newState & -> & Hnever & Hmoving & Houtdoor & Hindoor).
    exists newState. split; [ reflexivity | ].
    split; [ exact Hnever | ]. split; [ exact Hmoving | ].
    split; [ exact Houtdoor | ]. split; [ exact Hindoor | ].
    destruct (StatusScreen.LocationState.eqb newState locationState) eqn:Hsame.
    + apply LocationState_eqb_eq in Hsame.
      split; [ intros H; contradiction | ]. split; [ reflexivity | ].
      intros H; exact H.
    + assert (Hdiff : newState <> locationState)
        by (intros H; apply LocationState_eqb_eq in H; congruence).
      split; [ reflexivity | ]. split; [ intros H; contradiction | ].
      intros H; contradiction.
  - intros Hlen. unfold StatusScreen.detectedLocation.
    fold (StatusScreen.recentSpeed s).
    replace (List.length (StatusScreen.recentSpeed s) <? 3)%nat with true
      by (symmetry; apply Nat.ltb_lt; exact Hlen).
    reflexivity.
Qed.

(** After three slow fixes of accuracy 5 the screen holds that accuracy, but
    a tick of the interval created before them still reads the initial 999
    and sets indoor. *)
Lemma location_witness :
  StatusScreen.gpsAccuracy Examples.threeFixes == 5
  /\ StatusScreen.detectLocation
       Examples.threeFixes 999 StatusScreen.LocationState.stationary
       StatusScreen.LocationState.stationary
     = StatusScreen.LocationState.indoor
  /\ exists newState,
       StatusScreen.detectedLocation Examples.threeFixes 999 = Some newState
       /\ newState <> StatusScreen.LocationState.stationary.
Proof.
  split; [ vm_compute; reflexivity | ]. split; [ vm_compute; reflexivity | ].
  destruct (proj1 (location_is_never_stationary
                     Examples.threeFixes 999
                     StatusScreen.LocationState.stationary
                     StatusScreen.LocationState.stationary))
    as (newState & Hnew & Hnever & _).
  - vm_compute. repeat constructor.
  - exists newState. split; [ exact Hnew | exact Hnever ].
Defined.

(** ** The activity classifier *)

Lemma classifyRules_confidence
  (accelStd speedMean deviationFromGravity gpsAccuracy : Q) (inactive : Z) :
  0 <= accelStd ->
  let '(_, confidence, _) :=
    StatusScreen.classifyRules accelStd speedMean deviationFromGravity
                               gpsAccuracy inactive in
  35 <= confidence /\ confidence <= 95.
Proof.
  intros Hstd. unfold StatusScreen.classifyRules.
  rule_cases; bool_props; q_minmax_all; q_consts; lra.
Qed.

(** X15. On a tick with at least 10 samples the confidence of the activity
    classifier lies between 35 and 95, provided the standard deviation it
    computed is not negative. *)
Theorem activity_confidence_between_35_and_95 :
  forall (Math_sqrt : Q -> Q) (now : Z) (s : StatusScreen.Screen),
    (10 <= List.length (StatusScreen.recentAccel s))%nat ->
    0 <= StatusScreen.accelStd Math_sqrt s ->
    let s' := StatusScreen.classifyActivity Math_sqrt now s in
    35 <= StatusScreen.activityConfidence s'
    /\ StatusScreen.activityConfidence s' <= 95.
Proof.
  intros Math_sqrt now s Hlen Hstd s'.
  pose proof (classifyActivity_fields Math_sqrt now s Hlen) as Hfields.
  pose proof (classifyRules_confidence
                (StatusScreen.accelStd Math_sqrt s) (StatusScreen.speedMean s)
                (StatusScreen.deviationFromGravity s) (StatusScreen.gpsAccuracy s)
                (StatusScreen.inactiveTimeRef s) Hstd) as Hconf.
  cbv zeta in Hfields. fold s' in Hfields. rewrite <- Hfields in Hconf.
  exact Hconf.
Qed.

Lemma activity_confidence_witness :
  35 <= StatusScreen.activityConfidence
          (StatusScreen.classifyActivity Approx.sqrt Examples.now
                                         Examples.tiltedScreen)
  /\ StatusScreen.activityConfidence
       (StatusScreen.classifyActivity Approx.sqrt Examples.now
                                      Examples.tiltedScreen) <= 95.
Proof.
  apply (activity_confidence_between_35_and_95
           Approx.sqrt Examples.now Examples.tiltedScreen).
  - vm_compute. repeat constructor.
  - vm_compute. discriminate.
Defined.

Lemma classifyRules_sleeping_only_if
  (accelStd speedMean deviationFromGravity gpsAccuracy : Q) (inactive : Z) :
  let '(activity, _, _) :=
    StatusScreen.classifyRules accelStd speedMean deviationFromGravity
                               gpsAccuracy inactive in
  activity = sleeping ->
  accelStd < 0.03 /\ speedMean < 0.2 /\ 0.1 <= deviationFromGravity
  /\ 30 < inject_Z inactive.
Proof.
  unfold StatusScreen.classifyRules.
  rule_cases; intros Hlabel; try discriminate Hlabel; bool_props.
  repeat split; lra.
Qed.

Lemma sum_fold (xs : list Q) (acc : Q) :
  fold_left Qplus xs acc == acc + fold_right Qplus 0 xs.
Proof.
  revert acc. induction xs as [ | x xs IH ]; intros acc; cbn.
  - lra.
  - rewrite IH. lra.
Qed.

Lemma len_cons {A : Type} (x : A) (xs : list A) :
  JS.len (x :: xs) == JS.len xs + 1.
Proof.
  unfold JS.len. cbn [List.length]. rewrite Nat2Z.inj_succ.
  unfold Z.succ. rewrite inject_Z_plus. reflexivity.
Qed.

Lemma len_nonneg {A : Type} (xs : list A) : 0 <= JS.len xs.
Proof.
  unfold JS.len. change 0 with (inject_Z 0). rewrite <- Zle_Qle. lia.
Qed.

(** The sum of a list lies between its length times a lower bound and its
    length times an upper bound of the elements. *)
Lemma sum_between (lo hi : Q) (xs : list Q) :
  Forall (fun x => lo <= x /\ x <= hi) xs ->
  JS.len xs * lo <= JS.sum xs /\ JS.sum xs <= JS.len xs * hi.
Proof.
  unfold JS.sum. rewrite sum_fold.
  induction 1 as [ | x xs [Hlo Hhi] _ IH ].
  - unfold JS.len. cbn [List.length fold_right Z.of_nat].
    change (inject_Z 0) with 0. split; lra.
  - rewrite len_cons. cbn [fold_right].
    generalize dependent (JS.len xs). generalize dependent (fold_right Qplus 0 xs).
    intros total n IH. split; lra.
Qed.

Lemma sum_strictly_between (lo hi : Q) (x : Q) (xs : list Q) :
  Forall (fun x => lo < x /\ x < hi) (x :: xs) ->
  JS.len (x :: xs) * lo < JS.sum (x :: xs)
  /\ JS.sum (x :: xs) < JS.len (x :: xs) * hi.
Proof.
  intros Hall. inversion Hall as [ | ? ? [Hlo Hhi] Hrest ]; subst.
  assert (Hweak : Forall (fun x => lo <= x /\ x <= hi) xs).
  { eapply Forall_impl; [ | exact Hrest ]. cbn. intros y [H1 H2]. split; lra. }
  apply sum_between in Hweak. unfold JS.sum in *.
  rewrite sum_fold in *. rewrite len_cons. cbn [fold_right].
  generalize dependent (JS.len xs). generalize dependent (fold_right Qplus 0 xs).
  intros total n [H1 H2]. split; lra.
Qed.

Lemma mean_between (lo hi : Q) (xs : list Q) :
  xs <> [] ->
  Forall (fun x => lo <= x /\ x <= hi) xs ->
  lo <= StatusScreen.mean xs /\ StatusScreen.mean xs <= hi.
Proof.
  intros Hne Hall. destruct xs as [ | x xs ]; [ congruence | ].
  pose proof (sum_between lo hi (x :: xs) Hall) as [Hlo Hhi].
  assert (Hpos : 0 < JS.len (x :: xs))
    by (rewrite len_cons; pose proof (len_nonneg xs); lra).
  unfold StatusScreen.mean. split.
  - apply Qle_shift_div_l; [ exact Hpos | ]. lra.
  - apply Qle_shift_div_r; [ exact Hpos | ]. lra.
Qed.

Lemma mean_strictly_between (lo hi : Q) (xs : list Q) :
  xs <> [] ->
  Forall (fun x => lo < x /\ x < hi) xs ->
  lo < StatusScreen.mean xs /\ StatusScreen.mean xs < hi.
Proof.
  intros Hne Hall. destruct xs as [ | x xs ]; [ congruence | ].
  pose proof (sum_strictly_between lo hi x xs Hall) as [Hlo Hhi].
  assert (Hpos : 0 < JS.len (x :: xs))
    by (rewrite len_cons; pose proof (len_nonneg xs); lra).
  unfold StatusScreen.mean. split.
  - apply Qlt_shift_div_l; [ exact Hpos | ]. lra.
  - apply Qlt_shift_div_r; [ exact Hpos | ]. lra.
Qed.

(** X16. The activity classifier outputs sleeping only for a window whose
    mean magnitude is at least 0.1 away from gravity, with a standard
    deviation below 0.03, a mean speed below 0.2 and more than 30 seconds on
    the inactivity counter. A window of samples that are all within 0.1 of
    gravity, as it is for a phone at rest, is never classified as sleeping. *)
Theorem sleeping_needs_a_tilted_window :
  forall (Math_sqrt : Q -> Q) (now : Z) (s : StatusScreen.Screen),
    (10 <= List.length (StatusScreen.recentAccel s))%nat ->
    let s' := StatusScreen.classifyActivity Math_sqrt now s in
    (StatusScreen.currentActivity s' = sleeping ->
     0.1 <= StatusScreen.deviationFromGravity s
     /\ StatusScreen.accelStd Math_sqrt s < 0.03
     /\ StatusScreen.speedMean s < 0.2
     /\ (30 < StatusScreen.inactiveTimeRef s)%Z)
    /\ (Forall Spec.still (StatusScreen.recentAccel s) ->
        StatusScreen.currentActivity s' <> sleeping).
Proof.
  intros Math_sqrt now s Hlen s'.
  pose proof (classifyActivity_fields Math_sqrt now s Hlen) as Hfields.
  pose proof (classifyRules_sleeping_only_if
                (StatusScreen.accelStd Math_sqrt s) (StatusScreen.speedMean s)
                (StatusScreen.deviationFromGravity s) (StatusScreen.gpsAccuracy s)
                (StatusScreen.inactiveTimeRef s)) as Honly.
  cbv zeta in Hfields. fold s' in Hfields. rewrite <- Hfields in Honly.
  assert (Hsleeping :
            StatusScreen.currentActivity s' = sleeping ->
            0.1 <= StatusScreen.deviationFromGravity s
            /\ StatusScreen.accelStd Math_sqrt s < 0.03
            /\ StatusScreen.speedMean s < 0.2
            /\ (30 < StatusScreen.inactiveTimeRef s)%Z).
  { intros Hlabel. destruct (Honly Hlabel) as (H1 & H2 & H3 & H4).
    repeat split; try assumption. rewrite Zlt_Qlt. exact H4. }
  split; [ exact Hsleeping | ].
  intros Hstill Hlabel. destruct (Hsleeping Hlabel) as (Hdev & _).
  assert (Hne : StatusScreen.recentAccel s <> [])
    by (intros E; rewrite E in Hlen; cbn in Hlen; lia).
  assert (Hbounds : Forall (fun x => 0.9 < x /\ x < 1.1) (StatusScreen.recentAccel s)).
  { eapply Forall_impl; [ | exact Hstill ]. intros x Hx.
    unfold Spec.still in Hx. apply Qabs_Qlt_condition in Hx. split; lra. }
  destruct (mean_strictly_between 0.9 1.1 _ Hne Hbounds) as [Hlo Hhi].
  unfold StatusScreen.deviationFromGravity, StatusScreen.accelMean, JS.Math_abs in Hdev.
  assert (Hclose : Qabs (StatusScreen.mean (StatusScreen.recentAccel s) - 1.0) < 0.1)
    by (apply Qabs_Qlt_condition; split; lra).
  lra.
Qed.

Lemma sleeping_tilted_witness :
  StatusScreen.currentActivity
    (StatusScreen.classifyActivity Approx.sqrt Examples.now Examples.steadyScreen)
  <> sleeping.
Proof.
  apply (proj2 (sleeping_needs_a_tilted_window
                  Approx.sqrt Examples.now Examples.steadyScreen
                  ltac:(vm_compute; repeat constructor))).
  repeat constructor; vm_compute; reflexivity.
Defined.

(** X17. The inactivity counter is never negative and grows by at most one
    per tick of the activity classifier; after a tick with at least 10
    samples the displayed inactive time is the counter. *)
Theorem inactivity_counter_invariant :
  forall (Math_sqrt : Q -> Q) (now : Z) (s : StatusScreen.Screen),
    (0 <= StatusScreen.inactiveTimeRef s)%Z ->
    let s' := StatusScreen.classifyActivity Math_sqrt now s in
    (0 <= StatusScreen.inactiveTimeRef s'
     <= StatusScreen.inactiveTimeRef s + 1)%Z
    /\ ((10 <= List.length (StatusScreen.recentAccel s))%nat ->
        StatusScreen.inactiveTime s' = StatusScreen.inactiveTimeRef s').
Proof.
  intros Math_sqrt now s Hpos s'.
  destruct (Nat.ltb_spec (List.length (StatusScreen.recentAccel s)) 10) as [Hfew | Hlen].
  - assert (Hsame : s' = s).
    { subst s'. unfold StatusScreen.classifyActivity.
      replace (List.length (StatusScreen.recentAccel s) <? 10)%nat with true
        by (symmetry; apply Nat.ltb_lt; exact Hfew).
      reflexivity. }
    rewrite Hsame. split; [ lia | intros H; lia ].
  - pose proof (classifyActivity_fields Math_sqrt now s Hlen) as Hfields.
    pose proof (classifyRules_counter
                  (StatusScreen.accelStd Math_sqrt s) (StatusScreen.speedMean s)
                  (StatusScreen.deviationFromGravity s) (StatusScreen.gpsAccuracy s)
                  (StatusScreen.inactiveTimeRef s)) as Hcounter.
    cbv zeta in Hfields. fold s' in Hfields. rewrite <- Hfields in Hcounter.
    split.
    + destruct (StatusScreen.currentActivity s'); lia.
    + intros _. subst s'. unfold StatusScreen.classifyActivity.
      replace (List.length (StatusScreen.recentAccel s) <? 10)%nat with false
        by (symmetry; apply Nat.ltb_ge; exact Hlen).
      destruct (StatusScreen.classifyRules _ _ _ _ _) as [[a c] i]. reflexivity.
Qed.

Lemma inactivity_counter_witness :
  (0 <= StatusScreen.inactiveTimeRef
          (StatusScreen.classifyActivity Approx.sqrt Examples.now
                                         Examples.tiltedScreen)
   <= StatusScreen.inactiveTimeRef Examples.tiltedScreen + 1)%Z.
Proof.
  apply (inactivity_counter_invariant Approx.sqrt Examples.now Examples.tiltedScreen).
  vm_compute. discriminate.
Defined.

(** ** The activity history of the screen *)

Lemma ActivityType_eqb_eq (a b : ActivityType) :
  ActivityType_eqb a b = true <-> a = b.
Proof. destruct a, b; cbn; split; congruence. Qed.

Lemma Sorted_skipn {A : Type} (R : A -> A -> Prop) (n : nat) (xs : list A) :
  Sorted R xs -> Sorted R (skipn n xs).
Proof.
  revert xs. induction n as [ | n IH ]; intros xs Hsorted; [ exact Hsorted | ].
  destruct xs as [ | x xs ]; [ constructor | ].
  cbn. apply IH. now inversion Hsorted.
Qed.

Lemma Sorted_snoc {A : Type} (R : A -> A -> Prop) (xs : list A) (x : A) :
  Sorted R xs ->
  (forall y, last (map Some xs) None = Some y -> R y x) ->
  Sorted R (xs ++ [x]).
Proof.
  induction 1 as [ | y ys Hys IH Hy ]; intros Hlast; cbn.
  - repeat constructor.
  - constructor.
    + apply IH. intros z Hz. apply Hlast.
      destruct ys as [ | y' ys ]; [ discriminate Hz | exact Hz ].
    + destruct ys as [ | y' ys ]; cbn.
      * constructor. apply Hlast. reflexivity.
      * constructor. now inversion Hy.
Qed.

Lemma last_skipn {A : Type} (n : nat) (xs : list A) :
  (n < List.length xs)%nat ->
  last (map Some (skipn n xs)) None = last (map Some xs) None.
Proof.
  revert xs. induction n as [ | n IH ]; intros xs Hn; [ reflexivity | ].
  destruct xs as [ | x xs ]; [ cbn in Hn; lia | ].
  cbn [skipn]. rewrite IH by (cbn in Hn; lia).
  destruct xs as [ | y ys ]; [ cbn in Hn; lia | reflexivity ].
Qed.

(** X18. The activity history of the screen is run-length encoded and
    bounded: a tick of the classifier keeps the property that no two
    neighbouring entries carry the same label, keeps the history at no more
    than 21 entries, and after a tick with at least 10 samples the last entry
    carries the current label. *)
Theorem activity_history_run_length_encoded :
  forall (Math_sqrt : Q -> Q) (now : Z) (s : StatusScreen.Screen),
    let s' := StatusScreen.classifyActivity Math_sqrt now s in
    (Spec.runLengthEncoded (StatusScreen.activityHistoryRef s) ->
     Spec.runLengthEncoded (StatusScreen.activityHistoryRef s'))
    /\ ((List.length (StatusScreen.activityHistoryRef s) <= 21)%nat ->
        (List.length (StatusScreen.activityHistoryRef s') <= 21)%nat)
    /\ ((10 <= List.length (StatusScreen.recentAccel s))%nat ->
        exists e,
          last (map Some (StatusScreen.activityHistoryRef s')) None = Some e
          /\ ActivityData.activity e = StatusScreen.currentActivity s').
Proof.
  intros Math_sqrt now s s'. subst s'.
  unfold StatusScreen.classifyActivity.
  destruct (List.length (StatusScreen.recentAccel s) <? 10)%nat eqn:Hlen.
  - apply Nat.ltb_lt in Hlen. repeat split; auto. intros H. lia.
  - destruct (StatusScreen.classifyRules _ _ _ _ _) as [[activity confidence] inactive].
    cbn [StatusScreen.activityHistoryRef StatusScreen.currentActivity].
    unfold StatusScreen.labelChanged, JS.slice_last.
    set (history := StatusScreen.activityHistoryRef s).
    destruct (last (map Some history) None) as [ e | ] eqn:Hlast.
    + destruct (ActivityType_eqb (ActivityData.activity e) activity) eqn:Hsame;
        cbn [negb].
      * apply ActivityType_eqb_eq in Hsame.
        repeat split; auto. intros _. exists e. auto.
      * assert (Hdiff : ActivityData.activity e <> activity)
          by (intros E; apply ActivityType_eqb_eq in E; congruence).
        assert (Hne : (List.length history - 20 < List.length history)%nat).
        { destruct history; [ discriminate Hlast | cbn; lia ]. }
        split; [ | split ].
        -- intros Hrle. apply Sorted_snoc.
           ++ now apply Sorted_skipn.
           ++ intros y Hy. rewrite last_skipn in Hy by exact Hne.
              rewrite Hlast in Hy. injection Hy as <-. exact Hdiff.
        -- intros _. rewrite length_app, length_skipn. cbn. lia.
        -- intros _. exists (ActivityData.mk now activity confidence).
           split; [ | reflexivity ].
           rewrite map_app. cbn [map]. apply last_last.
    + split; [ | split ].
      * intros Hrle. apply Sorted_snoc.
        -- now apply Sorted_skipn.
        -- intros y Hy. destruct history; [ discriminate Hy | ].
           exfalso. clear - Hlast. revert Hlast.
           generalize t. induction history as [ | h history IH ]; intros t0;
             [ discriminate | apply IH ].
      * intros _. rewrite length_app, length_skipn. cbn. lia.
      * intros _. exists (ActivityData.mk now activity confidence).
        split; [ | reflexivity ].
        rewrite map_app. cbn [map]. apply last_last.
Qed.

Lemma activity_history_witness :
  Spec.runLengthEncoded
    (StatusScreen.activityHistoryRef
       (StatusScreen.classifyActivity Approx.sqrt Examples.now
                                      Examples.tiltedScreen)).
Proof.
  apply (proj1 (activity_history_run_length_encoded
                  Approx.sqrt Examples.now Examples.tiltedScreen)).
  constructor.
Defined.

(** ** The sensor listeners *)

Lemma Forall_skipn {A : Type} (P : A -> Prop) (n : nat) (xs : list A) :
  Forall P xs -> Forall P (skipn n xs).
Proof.
  intros Hall. rewrite <- (firstn_skipn n xs) in Hall.
  now apply Forall_app in Hall.
Qed.

Lemma slice_last_length {A : Type} (n : nat) (xs : list A) :
  (List.length (JS.slice_last n xs) <= n)%nat.
Proof. unfold JS.slice_last. rewrite length_skipn. lia. Qed.

Lemma orElse_nonzero (x : option Q) (d : Q) : ~ d == 0 -> ~ JS.orElse x d == 0.
Proof.
  intros Hd. unfold JS.orElse. destruct x as [ v | ]; [ | exact Hd ].
  destruct (Qeq_bool v 0) eqn:Hv; [ exact Hd | ].
  now apply Qeq_bool_neq in Hv.
Qed.

(** X19. The location callback stores only plausible speeds: the value it
    appends is 0 when the fix has no speed, a speed below 0.2, an accuracy
    worse than 20 or no accuracy at all (an accuracy of 0 counts as none),
    and the reported speed otherwise, so that every stored speed is 0 or at
    least 0.2; the speed buffer holds at most 11 values and the stored
    accuracy is never 0. The mean speed the activity classifier computes from
    such a buffer is not negative. *)
Theorem location_callback_stores_plausible_speeds :
  forall (speed accuracy : option Q) (s : StatusScreen.Screen),
    let s' := StatusScreen.onLocation speed accuracy s in
    (List.length (StatusScreen.speedHistoryRef s') <= 11)%nat
    /\ ~ StatusScreen.gpsAccuracy s' == 0
    /\ (exists v,
           StatusScreen.speedHistoryRef s'
           = JS.slice_last 10 (StatusScreen.speedHistoryRef s) ++ [v]
           /\ Spec.storedSpeed v
           /\ (20 < StatusScreen.gpsAccuracy s' -> v == 0)
           /\ (~ v == 0 -> speed = Some v)
           /\ (speed = None
               \/ (exists reported, speed = Some reported /\ reported < 0.2)
               \/ accuracy = None
               \/ (exists a, accuracy = Some a /\ (a == 0 \/ 20 < a)) ->
               v == 0)
           /\ (forall reported a : Q,
                  speed = Some reported -> 0.2 <= reported ->
                  accuracy = Some a -> ~ a == 0 -> a <= 20 ->
                  v = reported))
    /\ (Forall Spec.storedSpeed (StatusScreen.speedHistoryRef s) ->
        Forall Spec.storedSpeed (StatusScreen.speedHistoryRef s')
        /\ 0 <= StatusScreen.speedMean s').
Proof.
  intros speed accuracy s s'. subst s'. unfold StatusScreen.onLocation.
  cbn [StatusScreen.speedHistoryRef StatusScreen.gpsAccuracy].
  set (acc := JS.orElse accuracy 999).
  set (cur := JS.orElse speed 0).
  set (v := if (acc >? 20) || (cur <? 0.2) then 0 else cur).
  assert (Hv : Spec.storedSpeed v
               /\ (20 < acc -> v == 0) /\ (~ v == 0 -> speed = Some v)).
  { subst v. unfold Spec.storedSpeed.
    destruct ((acc >? 20) || (cur <? 0.2)) eqn:Hfilter; bool_props.
    - split; [ left; reflexivity | ]. split; [ reflexivity | ].
      intros H. exfalso. apply H. reflexivity.
    - split; [ right; lra | ]. split; [ intros H; lra | ].
      intros _. subst cur. unfold JS.orElse in *.
      destruct speed as [ x | ]; [ | lra ].
      destruct (Qeq_bool x 0); [ lra | reflexivity ]. }
  assert (Hzero : speed = None
                  \/ (exists reported, speed = Some reported /\ reported < 0.2)
                  \/ accuracy = None
                  \/ (exists a, accuracy = Some a /\ (a == 0 \/ 20 < a)) ->
                  v == 0).
  { intros Hcase. subst v.
    destruct ((acc >? 20) || (cur <? 0.2)) eqn:Hfilter; [ reflexivity | ].
    bool_props. destruct Hfilter as [Hacc Hcur]. exfalso.
    subst acc cur. unfold JS.orElse in *.
    destruct Hcase as [-> | [(x & -> & Hx) | [-> | (a & -> & Ha)]]].
    - lra.
    - destruct (Qeq_bool x 0); lra.
    - lra.
    - destruct (Qeq_bool a 0) eqn:Ea; [ lra | ].
      destruct Ha as [Ha | Ha]; [ | lra ].
      apply Qeq_bool_neq in Ea. contradiction. }
  assert (Hreported : forall reported a : Q,
             speed = Some reported -> 0.2 <= reported ->
             accuracy = Some a -> ~ a == 0 -> a <= 20 -> v = reported).
  { intros reported a -> Hfast -> Hnonzero Hgood. subst v acc cur.
    unfold JS.orElse.
    destruct (Qeq_bool a 0) eqn:Ea; [ apply Qeq_bool_eq in Ea; contradiction | ].
    destruct (Qeq_bool reported 0) eqn:Er; [ apply Qeq_bool_eq in Er; lra | ].
    replace (a >? 20) with false by (symmetry; apply gtb_false; exact Hgood).
    replace (reported <? 0.2) with false by (symmetry; apply ltb_false; exact Hfast).
    reflexivity. }
  destruct Hv as (Hstored & Hworse & Hraw).
  split; [ | split; [ | split ] ].
  - rewrite length_app. pose proof (slice_last_length 10 (StatusScreen.speedHistoryRef s)).
    cbn. lia.
  - apply orElse_nonzero. discriminate.
  - exists v. repeat (split; [ auto; fail | ]). exact Hreported.
  - intros Hall.
    assert (Hall' : Forall Spec.storedSpeed
                      (JS.slice_last 10 (StatusScreen.speedHistoryRef s) ++ [v])).
    { apply Forall_app. split; [ now apply Forall_skipn | now constructor ]. }
    split; [ exact Hall' | ].
    unfold StatusScreen.speedMean, StatusScreen.recentSpeed.
    cbn [StatusScreen.speedHistoryRef].
    set (window := JS.slice_last 10 _).
    destruct (0 <? List.length window)%nat eqn:Hlen; [ | lra ].
    assert (Hne : window <> [])
      by (intros E; rewrite E in Hlen; discriminate).
    assert (Hnonneg : Forall Spec.storedSpeed window)
      by (subst window; now apply Forall_skipn).
    assert (Hlo : JS.len window * 0 <= JS.sum window).
    { clear - Hnonneg. unfold JS.sum. rewrite sum_fold.
      induction Hnonneg as [ | x xs Hx _ IH ]; [ cbn; lra | ].
      cbn [fold_right]. unfold Spec.storedSpeed in Hx.
      assert (0 <= x) by (destruct Hx as [-> | Hx]; lra). lra. }
    unfold StatusScreen.mean. apply Qle_shift_div_l; [ | lra ].
    destruct window as [ | x xs ]; [ congruence | ].
    rewrite len_cons. pose proof (len_nonneg xs). lra.
Qed.

(** A fix of speed 1.4 and accuracy 5 is stored as it is. *)
Lemma location_callback_witness :
  StatusScreen.speedHistoryRef
    (StatusScreen.onLocation (Some 1.4) (Some 5) Examples.steadyScreen)
  = [0.3; 0; 0; 1.4]
  /\ Forall Spec.storedSpeed
            (StatusScreen.speedHistoryRef
               (StatusScreen.onLocation (Some 1.4) (Some 5) Examples.steadyScreen))
  /\ 0 <= StatusScreen.speedMean
            (StatusScreen.onLocation (Some 1.4) (Some 5) Examples.steadyScreen).
Proof.
  split; [ reflexivity | ].
  apply (proj2 (proj2 (proj2 (location_callback_stores_plausible_speeds
                                (Some 1.4) (Some 5) Examples.steadyScreen)))).
  change (StatusScreen.speedHistoryRef Examples.steadyScreen) with [0.3; 0; 0].
  constructor; [ right; vm_compute; discriminate | ].
  constructor; [ left; reflexivity | ].
  constructor; [ left; reflexivity | constructor ].
Defined.

(** X20. The accelerometer listener appends the magnitude of the reading to
    the last 100 magnitudes: the buffer never holds more than 101 values, and
    from the tenth reading on the activity classifier finds a window of at
    least 10 samples. *)
Theorem accelerometer_buffer_bounded :
  forall (Math_sqrt : Q -> Q) (x y z : Q) (s : StatusScreen.Screen),
    let s' := StatusScreen.onAccelerometer Math_sqrt x y z s in
    (List.length (StatusScreen.accelHistoryRef s') <= 101)%nat
    /\ List.length (StatusScreen.accelHistoryRef s')
       = S (Nat.min (List.length (StatusScreen.accelHistoryRef s)) 100)
    /\ last (StatusScreen.accelHistoryRef s') 0 = Math_sqrt (x ^ 2 + y ^ 2 + z ^ 2)
    /\ ((9 <= List.length (StatusScreen.accelHistoryRef s))%nat ->
        (10 <= List.length (StatusScreen.recentAccel s'))%nat).
Proof.
  intros Math_sqrt x y z s s'. subst s'. unfold StatusScreen.onAccelerometer.
  cbn [StatusScreen.accelHistoryRef].
  unfold StatusScreen.recentAccel, JS.slice_last.
  cbn [StatusScreen.accelHistoryRef].
  rewrite !length_skipn, !length_app, !length_skipn. cbn [List.length].
  repeat split; try lia. apply last_last.
Qed.

Lemma accelerometer_buffer_witness :
  (10 <= List.length
           (StatusScreen.recentAccel
              (StatusScreen.onAccelerometer Approx.sqrt 0 0 1 Examples.tiltedScreen)))%nat.
Proof.
  apply (proj2 (proj2 (proj2 (accelerometer_buffer_bounded
                                Approx.sqrt 0 0 1 Examples.tiltedScreen)))).
  vm_compute. repeat constructor.
Defined.

(** ** The audio levels *)

Lemma normalized_in_range (metering : Q) :
  Spec.audioLevelInRange (AudioContext.normalized metering).
Proof.
  unfold Spec.audioLevelInRange, AudioContext.normalized.
  q_minmax_all; q_consts; lra.
Qed.

(** X21. The audio level computed from the metering value lies between 0 and
    100, does not decrease when the metering grows, is 0 at -160 dB and below
    and 100 at 0 dB and above. The status callback keeps at most 100 levels,
    all between 0 and 100 when the earlier ones were, and changes nothing
    when the recorder is not recording or reports no metering. *)
Theorem audio_levels_normalized_and_bounded :
  (forall m : Q, Spec.audioLevelInRange (AudioContext.normalized m))
  /\ (forall m m' : Q,
         m <= m' -> AudioContext.normalized m <= AudioContext.normalized m')
  /\ (forall m : Q, m <= -160 -> AudioContext.normalized m == 0)
  /\ (forall m : Q, 0 <= m -> AudioContext.normalized m == 100)
  /\ (forall (isRecording : bool) (metering : option Q) (a : AudioContext.Audio),
         let a' := AudioContext.onRecordingStatusUpdate isRecording metering a in
         ((List.length (AudioContext.audioHistoryRef a) <= 100)%nat ->
          (List.length (AudioContext.audioHistoryRef a') <= 100)%nat)
         /\ (Forall Spec.audioLevelInRange (AudioContext.audioHistoryRef a) ->
             Forall Spec.audioLevelInRange (AudioContext.audioHistoryRef a'))
         /\ (isRecording = false \/ metering = None -> a' = a)).
Proof.
  split; [ exact normalized_in_range | ].
  split; [ | split; [ | split ] ].
  - intros m m' Hle. unfold AudioContext.normalized. q_minmax_all; q_consts; lra.
  - intros m Hm. unfold AudioContext.normalized. q_minmax_all; q_consts; lra.
  - intros m Hm. unfold AudioContext.normalized. q_minmax_all; q_consts; lra.
  - intros isRecording metering a a'. subst a'.
    unfold AudioContext.onRecordingStatusUpdate.
    destruct metering as [ m | ]; [ destruct isRecording | ];
      cbn [AudioContext.audioHistoryRef].
    + split; [ | split ].
      * intros _. rewrite length_app.
        pose proof (slice_last_length (AudioContext.MAX_HISTORY_POINTS - 1)
                                      (AudioContext.audioHistoryRef a)) as Hlen.
        unfold AudioContext.MAX_HISTORY_POINTS in *. cbn in *. lia.
      * intros Hall. apply Forall_app. split; [ now apply Forall_skipn | ].
        constructor; [ apply normalized_in_range | constructor ].
      * intros [H | H]; discriminate H.
    + repeat split; auto.
    + repeat split; auto.
Qed.

Lemma audio_levels_witness :
  Forall Spec.audioLevelInRange
         (AudioContext.audioHistoryRef
            (AudioContext.onRecordingStatusUpdate true (Some (-(40))) Examples.someAudio)).
Proof.
  apply (proj1 (proj2 (proj2 (proj2 (proj2 (proj2 audio_levels_normalized_and_bounded)))
                         true (Some (-(40))) Examples.someAudio))).
  repeat constructor; vm_compute; discriminate.
Defined.

(** ** Uniform audio windows *)

(** Every list of numbers lies strictly between two bounds. *)
Lemma list_bounded (xs : list Q) :
  exists lo hi, Forall (fun x => lo < x /\ x < hi) xs.
Proof.
  induction xs as [ | x xs (lo & hi & IH) ].
  - exists 0, 0. constructor.
  - exists (Qmin lo x - 1), (Qmax hi x + 1).
    constructor.
    + pose proof (Q.le_min_r lo x). pose proof (Q.le_max_r hi x). split; lra.
    + eapply Forall_impl; [ | exact IH ]. cbn. intros y [Hlo Hhi].
      pose proof (Q.le_min_l lo x). pose proof (Q.le_max_l hi x). split; lra.
Qed.

Lemma mean_below (hi : Q) (xs : list Q) :
  xs <> [] -> Forall (fun x => x < hi) xs -> StatusScreen.mean xs < hi.
Proof.
  intros Hne Hall. destruct (list_bounded xs) as (lo & hi' & Hb).
  apply (mean_strictly_between lo hi xs Hne).
  rewrite Forall_forall in *. intros x Hx. split; [ apply Hb, Hx | apply Hall, Hx ].
Qed.

Lemma mean_at_least (lo : Q) (xs : list Q) :
  xs <> [] -> Forall (fun x => lo <= x) xs -> lo <= StatusScreen.mean xs.
Proof.
  intros Hne Hall. destruct (list_bounded xs) as (lo' & hi & Hb).
  apply (mean_between lo hi xs Hne).
  rewrite Forall_forall in *. intros x Hx.
  split; [ apply Hall, Hx | apply Qlt_le_weak, Hb, Hx ].
Qed.

(** X22. On a window of at least 20 audio levels the conversation classifier
    answers silent when every level is below 12, talking when every level is
    from 30 up to 45, and conversation when every level is at least 45; and
    when all levels lie between 0 and 100, so does their mean. *)
Theorem uniform_audio_windows :
  forall (Math_sqrt : Q -> Q) (s : StatusScreen.Screen),
    (20 <= List.length (StatusScreen.recentAudio s))%nat ->
    let s' := StatusScreen.detectConversation Math_sqrt s in
    (Forall (fun level => level < 12) (StatusScreen.recentAudio s) ->
     StatusScreen.conversationState s' = silent)
    /\ (Forall (fun level => 30 <= level /\ level < 45) (StatusScreen.recentAudio s) ->
        StatusScreen.conversationState s' = talking)
    /\ (Forall (fun level => 45 <= level) (StatusScreen.recentAudio s) ->
        StatusScreen.conversationState s' = conversation)
    /\ (Forall Spec.audioLevelInRange (StatusScreen.recentAudio s) ->
        Spec.audioLevelInRange (StatusScreen.audioMean s)).
Proof.
  intros Math_sqrt s Hlen s'. subst s'.
  assert (Hne : StatusScreen.recentAudio s <> [])
    by (intros E; rewrite E in Hlen; cbn in Hlen; lia).
  unfold StatusScreen.detectConversation, StatusScreen.detectedConversation.
  replace (List.length (StatusScreen.recentAudio s) <? 20)%nat with false
    by (symmetry; apply Nat.ltb_ge; exact Hlen).
  cbn [StatusScreen.conversationState].
  unfold StatusScreen.audioMean.
  split; [ | split; [ | split ] ].
  - intros Hall. pose proof (mean_below 12 _ Hne Hall) as Hmean.
    unfold StatusScreen.conversationRules.
    replace (StatusScreen.mean (StatusScreen.recentAudio s) <? 12) with true
      by (symmetry; now apply ltb_true).
    reflexivity.
  - intros Hall.
    destruct (mean_between 30 45 _ Hne) as [Hlo _].
    { eapply Forall_impl; [ | exact Hall ]. cbn. intros x [H1 H2]. split; lra. }
    assert (Hhi : StatusScreen.mean (StatusScreen.recentAudio s) < 45).
    { apply mean_below; [ exact Hne | ].
      eapply Forall_impl; [ | exact Hall ]. cbn. tauto. }
    now apply conversationRules_bands.
  - intros Hall. pose proof (mean_at_least 45 _ Hne Hall) as Hmean.
    now apply conversationRules_bands.
  - intros Hall. unfold Spec.audioLevelInRange in *.
    now apply mean_between.
Qed.

Lemma uniform_audio_witness :
  StatusScreen.conversationState
    (StatusScreen.detectConversation Approx.sqrt Examples.quietScreen)
  = silent.
Proof.
  apply (proj1 (uniform_audio_windows
                  Approx.sqrt Examples.quietScreen
                  ltac:(vm_compute; repeat constructor))).
  repeat constructor.
Defined.

(** * The wellbeing screen *)

Lemma averages_fold (chart : list DailyWellbeingScores.t)
  (acc : WellbeingScreen.Averages) :
  Forall Spec.dailyInRange chart ->
  let total :=
    fold_left
      (fun acc entry =>
         {| WellbeingScreen.sleep :=
              WellbeingScreen.sleep acc + DailyWellbeingScores.sleep entry;
            WellbeingScreen.activity :=
              WellbeingScreen.activity acc
              + DailyWellbeingScores.physicalActivity entry;
            WellbeingScreen.social :=
              WellbeingScreen.social acc
              + DailyWellbeingScores.socialInteraction entry |})
      chart acc in
  (WellbeingScreen.sleep acc <= WellbeingScreen.sleep total
   /\ WellbeingScreen.sleep total <= WellbeingScreen.sleep acc + JS.len chart * 100)
  /\ (WellbeingScreen.activity acc <= WellbeingScreen.activity total
      /\ WellbeingScreen.activity total
         <= WellbeingScreen.activity acc + JS.len chart * 100)
  /\ (WellbeingScreen.social acc <= WellbeingScreen.social total
      /\ WellbeingScreen.social total
         <= WellbeingScreen.social acc + JS.len chart * 100).
Proof.
  intros Hall. revert acc.
  induction Hall as [ | d chart Hd _ IH ]; intros acc.
  - cbn [fold_left]. unfold JS.len. cbn [List.length Z.of_nat].
    change (inject_Z 0) with 0. repeat split; lra.
  - cbn [fold_left]. cbv zeta in IH.
    match goal with
    | |- context [fold_left _ chart ?a] => specialize (IH a)
    end.
    cbn [WellbeingScreen.sleep WellbeingScreen.activity WellbeingScreen.social] in IH.
    destruct Hd as ((S1 & S2) & (A1 & A2) & (C1 & C2)).
    destruct IH as ((I1 & I2) & (I3 & I4) & (I5 & I6)).
    rewrite len_cons. cbv zeta. repeat split; lra.
Qed.

(** X23. The weekly averages of the wellbeing screen are taken over at most
    the seven newest daily rows and lie between 0 and 100 when the rows do;
    without any row they are 0. *)
Theorem weekly_averages_in_range :
  forall dailyScores : list DailyWellbeingScores.t,
    (List.length (WellbeingScreen.chartData dailyScores) <= 7)%nat
    /\ (Forall Spec.dailyInRange dailyScores ->
        let averages := WellbeingScreen.weeklyAverages dailyScores in
        Spec.inScoreRange (WellbeingScreen.sleep averages)
        /\ Spec.inScoreRange (WellbeingScreen.activity averages)
        /\ Spec.inScoreRange (WellbeingScreen.social averages))
    /\ (dailyScores = [] ->
        let averages := WellbeingScreen.weeklyAverages dailyScores in
        WellbeingScreen.sleep averages == 0
        /\ WellbeingScreen.activity averages == 0
        /\ WellbeingScreen.social averages == 0).
Proof.
  intros dailyScores. split; [ | split ].
  - unfold WellbeingScreen.chartData. rewrite length_rev. apply firstn_le_length.
  - intros Hall averages. subst averages. unfold WellbeingScreen.weeklyAverages.
    assert (Hchart : Forall Spec.dailyInRange (WellbeingScreen.chartData dailyScores)).
    { unfold WellbeingScreen.chartData. apply Forall_rev.
      rewrite Forall_forall in *. intros d Hd. apply Hall. eapply firstn_In, Hd. }
    pose proof (averages_fold (WellbeingScreen.chartData dailyScores)
                  {| WellbeingScreen.sleep := 0;
                     WellbeingScreen.activity := 0;
                     WellbeingScreen.social := 0 |} Hchart) as Hfold.
    cbv zeta in *.
    cbn [WellbeingScreen.sleep WellbeingScreen.activity WellbeingScreen.social]
      in Hfold |- *.
    destruct Hfold as ((S1 & S2) & (A1 & A2) & (C1 & C2)).
    unfold Spec.inScoreRange.
    destruct (WellbeingScreen.chartData dailyScores) as [ | d chart ] eqn:Echart.
    + cbn [List.length Nat.eqb]. unfold JS.len in *.
      cbn [List.length Z.of_nat] in *. change (inject_Z 0) with 0 in *.
      q_consts. repeat split; lra.
    + cbn [List.length Nat.eqb].
      assert (Hpos : 0 < JS.len (d :: chart))
        by (rewrite len_cons; pose proof (len_nonneg chart); lra).
      repeat split;
        first [ apply Qle_shift_div_l; [ exact Hpos | lra ]
              | apply Qle_shift_div_r; [ exact Hpos | lra ] ].
  - intros -> averages. vm_compute. repeat split.
Qed.

Lemma weekly_averages_witness :
  Spec.inScoreRange
    (WellbeingScreen.sleep (WellbeingScreen.weeklyAverages Examples.thirtyDays))
  /\ Spec.inScoreRange
       (WellbeingScreen.activity (WellbeingScreen.weeklyAverages Examples.thirtyDays))
  /\ Spec.inScoreRange
       (WellbeingScreen.social (WellbeingScreen.weeklyAverages Examples.thirtyDays)).
Proof.
  apply (proj1 (proj2 (weekly_averages_in_range Examples.thirtyDays))).
  repeat constructor; vm_compute; discriminate.
Defined.

(** * Repeated updates *)

Lemma sort_sorted_id (xs : list DailyWellbeingScores.t) :
  StronglySorted Spec.notOlder xs -> ArraySort.sort Scoring.newestFirst xs = xs.
Proof.
  induction 1 as [ | x xs _ IH Hx ]; [ reflexivity | ].
  cbn. unfold ArraySort.sort in IH. rewrite IH. now apply insert_front.
Qed.

Lemma findIndex_Some_In (today : DailyWellbeingScores.t)
  (xs : list DailyWellbeingScores.t) :
  In (DailyWellbeingScores.date today) (Spec.dates xs) ->
  exists i,
    WellbeingContext.findIndex
      (fun d => String.eqb (DailyWellbeingScores.date d)
                           (DailyWellbeingScores.date today)) xs = Some i.
Proof.
  intros Hin.
  destruct (WellbeingContext.findIndex _ xs) as [ i | ] eqn:Hfind; [ eauto | ].
  apply findIndex_None in Hfind. unfold Spec.dates in Hin.
  apply in_map_iff in Hin. destruct Hin as (d & Hd & Hin).
  rewrite Forall_forall in Hfind. specialize (Hfind d Hin). cbn in Hfind.
  rewrite Hd, String.eqb_refl in Hfind. discriminate.
Qed.

Lemma assign_In_new {A : Type} (p : A -> bool) (v : A) (xs : list A) (i : nat) :
  WellbeingContext.findIndex p xs = Some i ->
  In v (WellbeingContext.assign i v xs).
Proof.
  revert i. induction xs as [ | x xs IH ]; intros i; cbn; [ discriminate | ].
  destruct (p x).
  - intros [= <-]. now left.
  - destruct (WellbeingContext.findIndex p xs) as [ j | ]; cbn; [ | discriminate ].
    intros [= <-]. right. now apply IH.
Qed.

Lemma dates_sorted (xs ys : list DailyWellbeingScores.t) :
  Spec.dates xs = Spec.dates ys ->
  StronglySorted Spec.notOlder xs -> StronglySorted Spec.notOlder ys.
Proof.
  intros Hdates Hsorted. revert ys Hdates.
  induction Hsorted as [ | x xs _ IH Hx ]; intros [ | y ys ] Hdates;
    try discriminate Hdates; [ constructor | ].
  unfold Spec.dates in Hdates. cbn in Hdates. injection Hdates as Hxy Hrest.
  constructor; [ now apply IH | ].
  rewrite Forall_forall in *. intros z Hz.
  assert (Hzdate : In (DailyWellbeingScores.date z) (map DailyWellbeingScores.date xs))
    by (rewrite Hrest; now apply in_map).
  apply in_map_iff in Hzdate. destruct Hzdate as (z' & Hz' & Hin).
  specialize (Hx z' Hin). unfold Spec.notOlder in *. now rewrite <- Hz', <- Hxy.
Qed.

Lemma upsertDaily_holds_today (baseline : list DailyWellbeingScores.t)
  (today : DailyWellbeingScores.t) :
  In today (WellbeingContext.upsertDaily baseline today).
Proof.
  unfold WellbeingContext.upsertDaily.
  apply (Permutation_in _ (Permutation_sym (sort_perm _ _))).
  destruct (WellbeingContext.findIndex _ baseline) as [ i | ] eqn:Hfind.
  - eapply assign_In_new, Hfind.
  - destruct (30 <? List.length (baseline ++ [today]))%nat eqn:Hcap.
    + destruct baseline as [ | b baseline ]; [ discriminate Hcap | ].
      cbn. apply in_or_app. right. now left.
    + apply in_or_app. right. now left.
Qed.

Lemma assign_keeps_others (today : DailyWellbeingScores.t)
  (xs : list DailyWellbeingScores.t) (i : nat) (d : DailyWellbeingScores.t) :
  WellbeingContext.findIndex
    (fun r => String.eqb (DailyWellbeingScores.date r)
                         (DailyWellbeingScores.date today)) xs = Some i ->
  In d xs ->
  DailyWellbeingScores.date d <> DailyWellbeingScores.date today ->
  In d (WellbeingContext.assign i today xs).
Proof.
  intros Hfind Hd Hother. revert i Hfind.
  induction xs as [ | r rows IH ]; intros i Hfind; [ destruct Hd | ].
  cbn [WellbeingContext.findIndex] in Hfind.
  destruct (String.eqb_spec (DailyWellbeingScores.date r)
                            (DailyWellbeingScores.date today)) as [Heq | Hneq].
  - injection Hfind as <-. cbn. destruct Hd as [-> | Hd]; [ | now right ].
    now destruct Hother.
  - destruct (WellbeingContext.findIndex _ rows) as [ j | ] eqn:Hj;
      cbn in Hfind; [ | discriminate ].
    injection Hfind as <-. cbn. destruct Hd as [-> | Hd]; [ now left | right ].
    now apply IH.
Qed.

(** X24. Updates are keyed by the date: a second [updateScores] on the same
    UTC day adds no row and moves none, and puts its own row in the place of
    the row of that day; the rows of all other days are kept. *)
Theorem second_update_of_a_day_replaces_its_row :
  forall (now later : Z) (metrics again : WellbeingMetrics.t)
         (w : WellbeingContext.World),
    Date.toISODate later = Date.toISODate now ->
    let first := WellbeingContext.updateScores now metrics w in
    let second := WellbeingContext.updateScores later again first in
    let rows := WellbeingContext.dailyScores (WellbeingContext.state first) in
    let rows' := WellbeingContext.dailyScores (WellbeingContext.state second) in
    Spec.dates rows' = Spec.dates rows
    /\ In (Scoring.calculateDailyScores later again) rows'
    /\ (forall d,
           In d rows ->
           DailyWellbeingScores.date d <> Date.toISODate now ->
           In d rows').
Proof.
  intros now later metrics again w Hday first second rows rows'.
  subst rows rows' second.
  rewrite (updateScores_dailyScores later again first).
  assert (Hflag : WellbeingContext.isUsingSampleData (WellbeingContext.state first)
                  = false) by reflexivity.
  rewrite Hflag.
  set (rows := WellbeingContext.dailyScores (WellbeingContext.state first)).
  set (today := Scoring.calculateDailyScores later again).
  assert (Hsorted : StronglySorted Spec.notOlder rows).
  { subst rows first. rewrite updateScores_dailyScores. apply sort_sorted. }
  assert (Hpresent : In (DailyWellbeingScores.date today) (Spec.dates rows)).
  { subst rows first. rewrite updateScores_dailyScores.
    change (DailyWellbeingScores.date today) with (Date.toISODate later).
    rewrite Hday. unfold Spec.dates.
    change (Date.toISODate now)
      with (DailyWellbeingScores.date (Scoring.calculateDailyScores now metrics)).
    apply in_map, upsertDaily_holds_today. }
  destruct (findIndex_Some_In today rows Hpresent) as [i Hfind].
  destruct (assign_found_dates today rows i Hfind) as [Hdates _].
  assert (Hupsert : WellbeingContext.upsertDaily rows today
                    = WellbeingContext.assign i today rows).
  { unfold WellbeingContext.upsertDaily. rewrite Hfind.
    apply sort_sorted_id. eapply dates_sorted; [ symmetry; exact Hdates | exact Hsorted ]. }
  rewrite Hupsert. split; [ exact Hdates | ].
  split; [ eapply assign_In_new, Hfind | ].
  intros d Hd Hother.
  apply (assign_keeps_others today rows i d Hfind Hd).
  change (DailyWellbeingScores.date today) with (Date.toISODate later).
  rewrite Hday. exact Hother.
Qed.

Lemma second_update_witness :
  Spec.dates
    (WellbeingContext.dailyScores
       (WellbeingContext.state
          (WellbeingContext.updateScores
             (Examples.at_ 8) Examples.metrics80
             (WellbeingContext.updateScores Examples.now Examples.metrics80
                                            Examples.world30))))
  = Spec.dates
      (WellbeingContext.dailyScores
         (WellbeingContext.state
            (WellbeingContext.updateScores Examples.now Examples.metrics80
                                           Examples.world30))).
Proof.
  refine (proj1 (second_update_of_a_day_replaces_its_row
                   Examples.now (Examples.at_ 8) Examples.metrics80
                   Examples.metrics80 Examples.world30 _)).
  vm_compute. reflexivity.
Defined.

(** * The first events of a day *)

Lemma socialSeconds_silent (conversations : list ConversationData.t) :
  Forall (fun c => ConversationData.state c = silent) conversations ->
  Spec.socialSeconds conversations == 0.
Proof.
  induction 1 as [ | c cs Hc _ IH ]; [ reflexivity | ].
  rewrite socialSeconds_cons, Hc, IH. cbn. lra.
Qed.

Lemma loops_of_short_history (tz : Date.TimeZone) (date : Z)
  (activities : list ActivityData.t) :
  (List.length activities <= 1)%nat ->
  Scoring.calculateSleepHoursFromActivities tz activities date == 0
  /\ Scoring.calculatePhysicalActivityMinutesFromActivities tz activities date == 0.
Proof.
  intros Hlen. destruct activities as [ | e [ | e' rest ] ]; [ | | cbn in Hlen; lia ].
  - split; reflexivity.
  - apply single_event_metrics.
Qed.

(** X25. Nothing is committed on the first event: while the aggregator holds
    at most one activity event and only silent conversation events, the
    periodic update finds no positive metric and leaves scores, storage and
    remote tables untouched. *)
Theorem first_event_commits_nothing :
  forall (tz : Date.TimeZone) (now : Z) (h : WellbeingDataCollection.Hook),
    (List.length (WellbeingAggregator.activityHistory
                    (WellbeingDataCollection.aggregator h)) <= 1)%nat ->
    Forall (fun c => ConversationData.state c = silent)
           (WellbeingAggregator.conversationHistory
              (WellbeingDataCollection.aggregator h)) ->
    WellbeingDataCollection.updateWellbeingScores tz now h = h.
Proof.
  intros tz now h Hone Hsilent.
  unfold WellbeingDataCollection.updateWellbeingScores,
    WellbeingAggregator.calculateTodayMetrics.
  cbn [WellbeingMetrics.sleepHours WellbeingMetrics.physicalActivityMinutes
       WellbeingMetrics.socialInteractionMinutes].
  rewrite map_toActivityData, map_toConversationData.
  destruct (loops_of_short_history
              tz now
              (WellbeingAggregator.activityHistory (WellbeingDataCollection.aggregator h))
              Hone) as [Hsleep Hactive].
  assert (Hsocial :
            Scoring.calculateSocialInteractionMinutesFromConversations
              tz (WellbeingAggregator.conversationHistory
                    (WellbeingDataCollection.aggregator h)) now == 0).
  { rewrite calculateSocial_seconds, socialSeconds_silent; [ reflexivity | ].
    apply Forall_forall. intros c Hc. apply filter_In in Hc.
    rewrite Forall_forall in Hsilent. now apply Hsilent. }
  replace (_ >? 0) with false by (symmetry; apply gtb_false; lra).
  replace (_ >? 0) with false by (symmetry; apply gtb_false; lra).
  replace (_ >? 0) with false by (symmetry; apply gtb_false; lra).
  reflexivity.
Qed.

Lemma first_event_witness :
  WellbeingDataCollection.updateWellbeingScores
    Examples.utc (Examples.at_ 23)
    {| WellbeingDataCollection.aggregator := Examples.oneActivity;
       WellbeingDataCollection.wellbeing := Examples.world50;
       WellbeingDataCollection.lastUpdateRef := Examples.now |}
  = {| WellbeingDataCollection.aggregator := Examples.oneActivity;
       WellbeingDataCollection.wellbeing := Examples.world50;
       WellbeingDataCollection.lastUpdateRef := Examples.now |}.
Proof.
  apply (first_event_commits_nothing
           Examples.utc (Examples.at_ 23)
           {| WellbeingDataCollection.aggregator := Examples.oneActivity;
              WellbeingDataCollection.wellbeing := Examples.world50;
              WellbeingDataCollection.lastUpdateRef := Examples.now |}).
  - vm_compute. repeat constructor.
  - constructor.
Defined.
